(** * Side-hustle inventory tracker: ledger, sale recording and metrics

    A shallow embedding of the stock ledger kept by the database
    (tables, CHECK constraints, triggers and the restore function of the
    SQL migrations) and of the client flows that write to it or read
    from it (AddProduct, EditProduct, RecordSale, EditSale, Restock,
    ProductCard, ProductView, Dashboard with its trends and pages),
    and of the low-stock notification service.

    Conventions.
    - [integer] columns are [Z] restricted to the 32-bit range; an
      out-of-range result is an error of the statement, as in PostgreSQL.
    - [decimal(10,2)] columns are [Z] counted in cents.
    - [timestamptz] values are [Z], milliseconds since the epoch.
    - A statement either returns [Ok] with the new database or [Err];
      on [Err] the database the caller holds is the old one, which is
      how a rolled back statement looks from outside. *)

From Stdlib Require Import ZArith QArith Qcanon Lia ZifyBool List.
From Stdlib Require Import Ascii String DecimalString Qround.
From stdpp Require Import gmap strings list fin_maps.

Close Scope Q_scope.
Open Scope Z_scope.

(** ** Results of statements *)

Inductive db_error : Type :=
| check_violation
| foreign_key_violation
| not_null_violation
| unique_violation
| numeric_value_out_of_range
| invalid_text_representation.

Inductive result (A : Type) : Type :=
| Ok (a : A)
| Err (e : db_error).

Arguments Ok {A} a.
Arguments Err {A} e.

#[global] Instance result_ret : MRet result := fun A a => Ok a.
#[global] Instance result_bind : MBind result := fun A B f r =>
  match r with
  | Ok a => f a
  | Err e => Err e
  end.

Definition is_ok {A : Type} (r : result A) : bool :=
  match r with Ok _ => true | Err _ => false end.

(** The database seen after a statement: the new one when it went
    through, the old one when it was rolled back. *)
Definition commit {A : Type} (old : A) (r : result A) : A :=
  match r with Ok new => new | Err _ => old end.

(** ** Column domains *)

Definition int4 (z : Z) : bool := (-2147483648 <=? z) && (z <=? 2147483647).

(** [decimal(10,2)] in cents: fewer than ten digits in all. *)
Definition numeric_10_2 (cents : Z) : bool := Z.abs cents <? 10000000000.

(** ** Tables *)

Module Products.

Record row : Type := {
  name : string;
  description : option string;
  unit_selling_price : Z;
  cost_per_batch : Z;
  units_per_batch : Z;
  current_stock : Z;
  total_units_sold : Z;
  created_at : option Z;
  updated_at : option Z
}.

Definition domain (r : row) : bool :=
  numeric_10_2 (unit_selling_price r) && numeric_10_2 (cost_per_batch r)
  && int4 (units_per_batch r) && int4 (current_stock r)
  && int4 (total_units_sold r).

(** The five CHECK constraints of the table. *)
Definition check (r : row) : bool :=
  (0 <=? unit_selling_price r) && (0 <=? cost_per_batch r)
  && (0 <? units_per_batch r) && (0 <=? current_stock r)
  && (0 <=? total_units_sold r).

End Products.

Module StockPurchases.

Record row : Type := {
  product_id : string;
  batches_purchased : Z;
  cost_per_batch : Z;
  total_cost : Z;
  units_added : Z;
  purchase_date : option Z;
  notes : option string
}.

Definition domain (r : row) : bool :=
  int4 (batches_purchased r) && numeric_10_2 (cost_per_batch r)
  && numeric_10_2 (total_cost r) && int4 (units_added r).

Definition check (r : row) : bool :=
  (0 <? batches_purchased r) && (0 <=? cost_per_batch r)
  && (0 <=? total_cost r) && (0 <? units_added r).

End StockPurchases.

Module Sales.

Record row : Type := {
  sale_date : option Z;
  total_amount : Z;
  notes : option string
}.

Definition domain (r : row) : bool := numeric_10_2 (total_amount r).

Definition check (r : row) : bool := 0 <=? total_amount r.

End Sales.

Module SaleItems.

Record row : Type := {
  sale_id : string;
  product_id : string;
  quantity : Z;
  unit_price : Z;
  subtotal : Z
}.

Definition domain (r : row) : bool :=
  int4 (quantity r) && numeric_10_2 (unit_price r) && numeric_10_2 (subtotal r).

Definition check (r : row) : bool :=
  (0 <? quantity r) && (0 <=? unit_price r) && (0 <=? subtotal r).

End SaleItems.

(** The four relations.  [products] and [sales] are keyed by their
    primary key [id]; the rows of [stock_purchases] and [sale_items] are
    kept in insertion order (their surrogate keys are never referred to
    by the statements below). *)
Record db : Type := {
  products : gmap string Products.row;
  stock_purchases : list StockPurchases.row;
  sales : gmap string Sales.row;
  sale_items : list SaleItems.row
}.

Definition with_products (tbl : gmap string Products.row) (d : db) : db :=
  {| products := tbl; stock_purchases := stock_purchases d;
     sales := sales d; sale_items := sale_items d |}.

(** ** The ledger engine: triggers and functions of the migrations *)

Module Ledger.

(** [update_product_updated_at]: BEFORE UPDATE ON products FOR EACH ROW,
    [NEW.updated_at = now()]. *)
Definition update_product_updated_at (now : Z) (NEW : Products.row) : Products.row :=
  {| Products.name := Products.name NEW;
     Products.description := Products.description NEW;
     Products.unit_selling_price := Products.unit_selling_price NEW;
     Products.cost_per_batch := Products.cost_per_batch NEW;
     Products.units_per_batch := Products.units_per_batch NEW;
     Products.current_stock := Products.current_stock NEW;
     Products.total_units_sold := Products.total_units_sold NEW;
     Products.created_at := Products.created_at NEW;
     Products.updated_at := Some now |}.

(** The SET clauses used on products: new values of the two counters. *)
Definition set_counters (stock sold : Z) (r : Products.row) : Products.row :=
  {| Products.name := Products.name r;
     Products.description := Products.description r;
     Products.unit_selling_price := Products.unit_selling_price r;
     Products.cost_per_batch := Products.cost_per_batch r;
     Products.units_per_batch := Products.units_per_batch r;
     Products.current_stock := stock;
     Products.total_units_sold := sold;
     Products.created_at := Products.created_at r;
     Products.updated_at := Products.updated_at r |}.

(** [UPDATE products SET ... WHERE id = p]: the row with key [p], when
    there is one, is replaced by its image under the SET clause, after
    the BEFORE UPDATE trigger has run on it; the statement fails when a
    new value leaves its column type or the new row breaks a CHECK. *)
Definition update_products (now : Z) (set : Products.row -> Products.row)
    (p : string) (tbl : gmap string Products.row) : result (gmap string Products.row) :=
  match tbl !! p with
  | None => Ok tbl
  | Some old =>
      let NEW := update_product_updated_at now (set old) in
      if negb (Products.domain NEW) then Err numeric_value_out_of_range
      else if negb (Products.check NEW) then Err check_violation
      else Ok (<[p := NEW]> tbl)
  end.

(** [update_stock_on_purchase]: AFTER INSERT ON stock_purchases. *)
Definition update_stock_on_purchase (now : Z) (NEW : StockPurchases.row)
    (tbl : gmap string Products.row) : result (gmap string Products.row) :=
  update_products now
    (fun r => set_counters (Products.current_stock r + StockPurchases.units_added NEW)
                           (Products.total_units_sold r) r)
    (StockPurchases.product_id NEW) tbl.

(** [update_stock_on_sale]: AFTER INSERT ON sale_items. *)
Definition update_stock_on_sale (now : Z) (NEW : SaleItems.row)
    (tbl : gmap string Products.row) : result (gmap string Products.row) :=
  update_products now
    (fun r => set_counters (Products.current_stock r - SaleItems.quantity NEW)
                           (Products.total_units_sold r + SaleItems.quantity NEW) r)
    (SaleItems.product_id NEW) tbl.

(** [restore_stock_on_sale_delete(p_product_id uuid, p_quantity integer)]. *)
Definition restore_stock_on_sale_delete (now : Z) (p_product_id : string)
    (p_quantity : Z) (d : db) : result db :=
  if negb (int4 p_quantity) then Err numeric_value_out_of_range
  else
    tbl ← update_products now
      (fun r => set_counters (Products.current_stock r + p_quantity)
                             (Products.total_units_sold r - p_quantity) r)
      p_product_id (products d);
    mret (with_products tbl d).

(** [now()] fills a timestamp column the statement leaves out. *)
Definition default_now (now : Z) (col : option Z) : option Z :=
  match col with Some t => Some t | None => Some now end.

(** [INSERT INTO stock_purchases] of one row, with its trigger. *)
Definition insert_stock_purchase (now : Z) (r : StockPurchases.row) (d : db) : result db :=
  if negb (StockPurchases.domain r) then Err numeric_value_out_of_range
  else if negb (StockPurchases.check r) then Err check_violation
  else match products d !! StockPurchases.product_id r with
       | None => Err foreign_key_violation
       | Some _ =>
           let stored :=
             {| StockPurchases.product_id := StockPurchases.product_id r;
                StockPurchases.batches_purchased := StockPurchases.batches_purchased r;
                StockPurchases.cost_per_batch := StockPurchases.cost_per_batch r;
                StockPurchases.total_cost := StockPurchases.total_cost r;
                StockPurchases.units_added := StockPurchases.units_added r;
                StockPurchases.purchase_date := default_now now (StockPurchases.purchase_date r);
                StockPurchases.notes := StockPurchases.notes r |} in
           tbl ← update_stock_on_purchase now stored (products d);
           mret {| products := tbl;
                   stock_purchases := stock_purchases d ++ [stored];
                   sales := sales d;
                   sale_items := sale_items d |}
       end.

(** [INSERT INTO sale_items] of one row, with its trigger. *)
Definition insert_sale_item (now : Z) (r : SaleItems.row) (d : db) : result db :=
  if negb (SaleItems.domain r) then Err numeric_value_out_of_range
  else if negb (SaleItems.check r) then Err check_violation
  else match sales d !! SaleItems.sale_id r, products d !! SaleItems.product_id r with
       | Some _, Some _ =>
           tbl ← update_stock_on_sale now r (products d);
           mret {| products := tbl;
                   stock_purchases := stock_purchases d;
                   sales := sales d;
                   sale_items := sale_items d ++ [r] |}
       | _, _ => Err foreign_key_violation
       end.

(** A run of single-row inserts, each a statement of its own; the run
    stops at the first one that fails. *)
Fixpoint insert_each {R : Type} (ins : R -> db -> result db) (rows : list R) (d : db)
    : result db :=
  match rows with
  | [] => Ok d
  | r :: rest => d' ← ins r d; insert_each ins rest d'
  end.

(** [INSERT INTO sale_items] of several rows in one statement: the
    row-level trigger runs once per row, and one failing row rolls the
    whole statement back. *)
Definition insert_sale_items (now : Z) (rows : list SaleItems.row) (d : db) : result db :=
  insert_each (insert_sale_item now) rows d.

(** [INSERT INTO sales]; [id] is the value drawn by [gen_random_uuid()]. *)
Definition insert_sale (now : Z) (id : string) (r : Sales.row) (d : db) : result db :=
  if negb (Sales.domain r) then Err numeric_value_out_of_range
  else if negb (Sales.check r) then Err check_violation
  else match sales d !! id with
       | Some _ => Err unique_violation
       | None =>
           let stored :=
             {| Sales.sale_date := default_now now (Sales.sale_date r);
                Sales.total_amount := Sales.total_amount r;
                Sales.notes := Sales.notes r |} in
           Ok {| products := products d;
                 stock_purchases := stock_purchases d;
                 sales := <[id := stored]> (sales d);
                 sale_items := sale_items d |}
       end.

(** [SELECT ... FROM sale_items WHERE sale_id = id]. *)
Definition select_sale_items (id : string) (d : db) : list SaleItems.row :=
  filter (fun it => SaleItems.sale_id it = id) (sale_items d).

(** [DELETE FROM sales WHERE id = id]; ON DELETE CASCADE removes the
    sale's rows of sale_items.  No trigger is attached to deletions. *)
Definition delete_sale (id : string) (d : db) : db :=
  {| products := products d;
     stock_purchases := stock_purchases d;
     sales := delete id (sales d);
     sale_items := filter (fun it => SaleItems.sale_id it <> id) (sale_items d) |}.

(** Reading the two counters of a product. *)
Definition stock_of (p : string) (d : db) : option Z :=
  Products.current_stock <$> products d !! p.

Definition sold_of (p : string) (d : db) : option Z :=
  Products.total_units_sold <$> products d !! p.

End Ledger.

(** ** JavaScript numbers

    The client computes with JavaScript numbers.  Finite values are kept
    exact (as rationals, so no binary rounding and no overflow to
    infinity), with the three special values next to them; there is one
    zero. *)

Module Js.

Inductive number : Type :=
| finite (q : Q)
| NaN
| Infinity (negative : bool).

Definition is_zero (q : Q) : bool := Qeq_bool q 0.
Definition is_neg (q : Q) : bool := negb (Qle_bool 0 q).

Definition add (x y : number) : number :=
  match x, y with
  | NaN, _ | _, NaN => NaN
  | finite a, finite b => finite (a + b)
  | Infinity s, finite _ | finite _, Infinity s => Infinity s
  | Infinity s, Infinity t => if Bool.eqb s t then Infinity s else NaN
  end.

Definition neg (x : number) : number :=
  match x with
  | finite a => finite (- a)
  | NaN => NaN
  | Infinity s => Infinity (negb s)
  end.

Definition sub (x y : number) : number := add x (neg y).

Definition mul (x y : number) : number :=
  match x, y with
  | NaN, _ | _, NaN => NaN
  | finite a, finite b => finite (a * b)
  | Infinity s, finite b | finite b, Infinity s =>
      if is_zero b then NaN else Infinity (xorb s (is_neg b))
  | Infinity s, Infinity t => Infinity (xorb s t)
  end.

Definition div (x y : number) : number :=
  match x, y with
  | NaN, _ | _, NaN => NaN
  | finite a, finite b =>
      if is_zero b then (if is_zero a then NaN else Infinity (is_neg a))
      else finite (a / b)
  | finite _, Infinity _ => finite 0
  | Infinity s, finite b => Infinity (xorb s (is_neg b))
  | Infinity _, Infinity _ => NaN
  end.

(** [x > y]. *)
Definition gt (x y : number) : bool :=
  match x, y with
  | NaN, _ | _, NaN => false
  | finite a, finite b => negb (Qle_bool a b)
  | Infinity s, finite _ => negb s
  | finite _, Infinity t => t
  | Infinity s, Infinity t => negb s && t
  end.

(** Truthiness: zero and NaN are falsy. *)
Definition truthy (x : number) : bool :=
  match x with
  | finite a => negb (is_zero a)
  | NaN => false
  | Infinity _ => true
  end.

Definition of_Z (z : Z) : number := finite (inject_Z z).

(** The number read from a [decimal(10,2)] column holding [cents]. *)
Definition of_cents (cents : Z) : number := finite (Qmake cents 100).

(** Two numbers denote the same value. *)
Definition same (x y : number) : Prop :=
  match x, y with
  | finite a, finite b => Qeq a b
  | NaN, NaN => True
  | Infinity s, Infinity t => s = t
  | _, _ => False
  end.

(** *** Reading numbers from strings *)

Definition digit (c : ascii) : option Z :=
  let n := Z.of_N (N_of_ascii c) in
  if (48 <=? n) && (n <=? 57) then Some (n - 48) else None.

Definition hex_digit (c : ascii) : option Z :=
  let n := Z.of_N (N_of_ascii c) in
  if (48 <=? n) && (n <=? 57) then Some (n - 48)
  else if (65 <=? n) && (n <=? 70) then Some (n - 55)
  else if (97 <=? n) && (n <=? 102) then Some (n - 87)
  else None.

(** Tab, line feed, vertical tab, form feed, carriage return, space. *)
Definition white_space (c : ascii) : bool :=
  let n := Z.of_N (N_of_ascii c) in
  ((9 <=? n) && (n <=? 13)) || (n =? 32).

Fixpoint trim_start (s : string) : string :=
  match s with
  | String c rest => if white_space c then trim_start rest else s
  | EmptyString => s
  end.

(** The longest run of digits at the head of [s] in the given radix:
    its value on top of [acc], its length on top of [n], and what
    follows it. *)
Fixpoint digits (radix : Z) (read : ascii -> option Z) (s : string) (acc : Z) (n : nat)
    : Z * nat * string :=
  match s with
  | String c rest =>
      match read c with
      | Some v => digits radix read rest (radix * acc + v) (S n)
      | None => (acc, n, s)
      end
  | EmptyString => (acc, n, s)
  end.

Definition sign (s : string) : bool * string :=
  match s with
  | String "-" rest => (true, rest)
  | String "+" rest => (false, rest)
  | _ => (false, s)
  end.

Definition signed (negative : bool) (q : Q) : Q := if negative then Qopp q else q.

(** [parseInt(s)] with no radix given. *)
Definition parseInt (s : string) : number :=
  let '(negative, body) := sign (trim_start s) in
  let '(value, count, _) :=
    match body with
    | String "0" (String "x" rest) | String "0" (String "X" rest) =>
        digits 16 hex_digit rest 0 0
    | _ => digits 10 digit body 0 0
    end in
  match count with
  | O => NaN
  | S _ => finite (signed negative (inject_Z value))
  end.

(** The exponent part at the head of [s], when it is well formed. *)
Definition exponent (s : string) : Z :=
  match s with
  | String "e" rest | String "E" rest =>
      let '(negative, body) := sign rest in
      let '(value, count, _) := digits 10 digit body 0 0 in
      match count with
      | O => 0
      | S _ => if negative then - value else value
      end
  | _ => 0
  end.

(** [mantissa * 10 ^ e]. *)
Definition scale (mantissa e : Z) : Q :=
  if 0 <=? e then inject_Z (mantissa * 10 ^ e)
  else Qred (Qmake mantissa (Z.to_pos (10 ^ (- e)))).

(** [parseFloat(s)]: the longest decimal literal at the head of the
    trimmed string. *)
Definition parseFloat (s : string) : number :=
  let '(negative, body) := sign (trim_start s) in
  if String.prefix "Infinity" body then Infinity negative
  else
    let '(int_part, int_count, after_int) := digits 10 digit body 0 0 in
    let '(mantissa, frac_count, after_frac) :=
      match after_int with
      | String "." rest =>
          let '(m, total, after) := digits 10 digit rest int_part int_count in
          (m, (total - int_count)%nat, after)
      | _ => (int_part, O, after_int)
      end in
    match (int_count + frac_count)%nat with
    | O => NaN
    | S _ =>
        finite (signed negative
                  (scale mantissa (exponent after_frac - Z.of_nat frac_count)))
    end.

(** *** Sending numbers to typed columns *)

(** [JSON.stringify] turns NaN and the infinities into [null], which a
    NOT NULL column refuses; an [integer] column refuses a fraction. *)
Definition to_integer (x : number) : result Z :=
  match x with
  | finite q =>
      let r := Qred q in
      if (Zpos (Qden r) =? 1) then Ok (Qnum r) else Err invalid_text_representation
  | _ => Err not_null_violation
  end.

(** A [decimal(10,2)] column rounds to the nearest cent, halves away
    from zero. *)
Definition round_half_away (q : Q) : Z :=
  let n := Qnum q in
  let d := Zpos (Qden q) in
  Z.sgn n * ((2 * Z.abs n + d) / (2 * d)).

Definition to_numeric_10_2 (x : number) : result Z :=
  match x with
  | finite q => Ok (round_half_away (q * 100))
  | _ => Err not_null_violation
  end.

End Js.

(** ** The client: shared types *)

Module Types.

(** [interface Product]: a products row as the client holds it, with
    its key.  The row was read from the store, so its counters are
    whole numbers and its two amounts whole numbers of cents; the sale
    form only multiplies an amount by a whole quantity and adds such
    products up, which is exact, so it is modelled in cents too. *)
Record Product : Type := {
  id : string;
  name : string;
  description : option string;
  unit_selling_price : Z;
  cost_per_batch : Z;
  units_per_batch : Z;
  current_stock : Z;
  total_units_sold : Z;
  created_at : option Z;
  updated_at : option Z
}.

End Types.

(** What a handler shows to the operator. *)
Inductive ui_event : Type :=
| alert (message : string)
| onSuccess.

(** The object [Restock] hands to [insert]: its numbers are still
    JavaScript numbers. *)
Module Payload.

Record stock_purchase : Type := {
  product_id : string;
  batches_purchased : Js.number;
  cost_per_batch : Js.number;
  total_cost : Js.number;
  units_added : Js.number;
  notes : option string
}.

End Payload.

(** The calls a handler sends to the store, in the order sent. *)
Inductive request : Type :=
| from_sales_insert (r : Sales.row)
| from_sale_items_insert (rows : list SaleItems.row)
| from_sale_items_select (sale_id : string)
| from_stock_purchases_insert (o : Payload.stock_purchase)
| rpc_restore_stock_on_sale_delete (p_product_id : string) (p_quantity : Z)
| from_sales_delete (id : string).

(** One run of a handler: the database it leaves, the calls it made and
    what the operator saw. *)
Record run : Type := {
  store : db;
  requests : list request;
  ui : list ui_event
}.

(** Template literals print an integer in decimal. *)
Definition show (z : Z) : string := NilZero.string_of_int (Z.to_int z).

(** [products.find((p) => p.id === id)]. *)
Definition find_product (products : list Types.Product) (id : string)
    : option Types.Product :=
  List.find (fun p => bool_decide (Types.id p = id)) products.

(** [s || null] on a string. *)
Definition or_null (s : string) : option string :=
  if bool_decide (s = EmptyString) then None else Some s.

(** ** RecordSale.tsx *)

Module RecordSale.

(** A line of the form; [quantity] is a whole number (it starts at 1 and
    is only changed by the two buttons below). *)
Record SaleLineItem : Type := {
  id : string;
  product_id : string;
  quantity : Z
}.

Record validation : Type := {
  valid : bool;
  message : string
}.

Definition not_enough_stock (product : Types.Product) (item : SaleLineItem) : string :=
  "Not enough stock for " +:+ Types.name product
  +:+ ". Available: " +:+ show (Types.current_stock product)
  +:+ ", Requested: " +:+ show (quantity item).

Definition incrementQuantity (products : list Types.Product) (id' : string)
    (lineItems : list SaleLineItem) : list SaleLineItem :=
  map (fun item =>
         if bool_decide (id item = id') then
           let maxQuantity :=
             match find_product products (product_id item) with
             | Some product => Types.current_stock product
             | None => 999
             end in
           {| id := id item; product_id := product_id item;
              quantity := Z.min (quantity item + 1) maxQuantity |}
         else item)
      lineItems.

Definition decrementQuantity (id' : string) (lineItems : list SaleLineItem)
    : list SaleLineItem :=
  map (fun item =>
         if bool_decide (id item = id') then
           {| id := id item; product_id := product_id item;
              quantity := Z.max (quantity item - 1) 1 |}
         else item)
      lineItems.

Definition calculateTotal (products : list Types.Product)
    (lineItems : list SaleLineItem) : Z :=
  fold_left
    (fun total item =>
       match find_product products (product_id item) with
       | Some product =>
           if 0 <? quantity item
           then total + Types.unit_selling_price product * quantity item
           else total
       | None => total
       end)
    lineItems 0.

Fixpoint validateStock (products : list Types.Product)
    (lineItems : list SaleLineItem) : validation :=
  match lineItems with
  | [] => {| valid := true; message := "" |}
  | item :: rest =>
      match find_product products (product_id item) with
      | Some product =>
          if Types.current_stock product <? quantity item
          then {| valid := false; message := not_enough_stock product item |}
          else validateStock products rest
      | None => validateStock products rest
      end
  end.

(** The rows built for sale_items; [None] stands for the TypeError that
    reading a field of an absent product raises. *)
Fixpoint saleItems (products : list Types.Product) (sale_id : string)
    (lineItems : list SaleLineItem) : option (list SaleItems.row) :=
  match lineItems with
  | [] => Some []
  | item :: rest =>
      match find_product products (product_id item) with
      | None => None
      | Some product =>
          option_map
            (cons {| SaleItems.sale_id := sale_id;
                     SaleItems.product_id := product_id item;
                     SaleItems.quantity := quantity item;
                     SaleItems.unit_price := Types.unit_selling_price product;
                     SaleItems.subtotal := Types.unit_selling_price product * quantity item |})
            (saleItems products sale_id rest)
      end
  end.

Definition failed : ui_event := alert "Failed to record sale. Please try again.".

(** [handleSubmit].  [clock k] is the store's [now()] at the handler's
    [k]-th request and [uuid] the key the store draws for the new sale. *)
Definition handleSubmit (clock : nat -> Z) (uuid : string)
    (products : list Types.Product) (lineItems : list SaleLineItem)
    (notes : string) (d : db) : run :=
  let validation := validateStock products lineItems in
  if negb (valid validation) then
    {| store := d; requests := []; ui := [alert (message validation)] |}
  else if existsb (fun item => bool_decide (product_id item = EmptyString)) lineItems then
    {| store := d; requests := [];
       ui := [alert "Please select a product for all line items"] |}
  else
    let totalAmount := calculateTotal products lineItems in
    let sale := {| Sales.sale_date := None;
                   Sales.total_amount := totalAmount;
                   Sales.notes := or_null notes |} in
    match Ledger.insert_sale (clock 0%nat) uuid sale d with
    | Err _ =>
        {| store := d; requests := [from_sales_insert sale]; ui := [failed] |}
    | Ok d1 =>
        match saleItems products uuid lineItems with
        | None =>
            {| store := d1; requests := [from_sales_insert sale]; ui := [failed] |}
        | Some rows =>
            match Ledger.insert_sale_items (clock 1%nat) rows d1 with
            | Err _ =>
                {| store := d1;
                   requests := [from_sales_insert sale; from_sale_items_insert rows];
                   ui := [failed] |}
            | Ok d2 =>
                {| store := d2;
                   requests := [from_sales_insert sale; from_sale_items_insert rows];
                   ui := [onSuccess] |}
            end
        end
    end.

End RecordSale.

(** ** EditSale.tsx *)

Module EditSale.

(** The loop over the fetched items: one rpc per item; the result of
    the rpc is not looked at, so a failed call changes nothing and the
    loop goes on. *)
Fixpoint restore_loop (clock : nat -> Z) (k : nat) (saleItems : list SaleItems.row)
    (d : db) : db :=
  match saleItems with
  | [] => d
  | item :: rest =>
      restore_loop clock (S k) rest
        (commit d (Ledger.restore_stock_on_sale_delete (clock k)
                     (SaleItems.product_id item) (SaleItems.quantity item) d))
  end.

Definition restore_calls (saleItems : list SaleItems.row) : list request :=
  map (fun item => rpc_restore_stock_on_sale_delete
                     (SaleItems.product_id item) (SaleItems.quantity item))
      saleItems.

(** [handleDelete]; [confirmed] is the operator's answer to the
    confirmation dialog. *)
Definition handleDelete (confirmed : bool) (clock : nat -> Z) (saleId : string)
    (d : db) : run :=
  if negb confirmed then {| store := d; requests := []; ui := [] |}
  else
    let saleItems := Ledger.select_sale_items saleId d in
    let d1 := restore_loop clock 1 saleItems d in
    {| store := Ledger.delete_sale saleId d1;
       requests := from_sale_items_select saleId
                   :: restore_calls saleItems ++ [from_sales_delete saleId];
       ui := [onSuccess] |}.

End EditSale.

(** ** Vocabulary of the statements *)




Fixpoint sumZ {A : Type} (f : A -> Z) (l : list A) : Z :=
  match l with
  | [] => 0
  | x :: rest => f x + sumZ f rest
  end.

(** Units of product [p] in a list of sale items. *)
Definition quantity_of (p : string) (r : SaleItems.row) : Z :=
  if bool_decide (SaleItems.product_id r = p) then SaleItems.quantity r else 0.

(** Units of product [p] in a list of purchases. *)
Definition units_added_of (p : string) (r : StockPurchases.row) : Z :=
  if bool_decide (StockPurchases.product_id r = p) then StockPurchases.units_added r else 0.

(** The purchase row as stored: the date column filled in. *)
Definition stored_purchase (x : Z * StockPurchases.row) : StockPurchases.row :=
  {| StockPurchases.product_id := StockPurchases.product_id (snd x);
     StockPurchases.batches_purchased := StockPurchases.batches_purchased (snd x);
     StockPurchases.cost_per_batch := StockPurchases.cost_per_batch (snd x);
     StockPurchases.total_cost := StockPurchases.total_cost (snd x);
     StockPurchases.units_added := StockPurchases.units_added (snd x);
     StockPurchases.purchase_date :=
       Ledger.default_now (fst x) (StockPurchases.purchase_date (snd x));
     StockPurchases.notes := StockPurchases.notes (snd x) |}.

(** The columns of a products row that are neither a counter nor
    [updated_at]. *)
Definition descriptive (r : Products.row)
    : string * option string * Z * Z * Z * option Z :=
  (Products.name r, Products.description r, Products.unit_selling_price r,
   Products.cost_per_batch r, Products.units_per_batch r, Products.created_at r).

(** Every products row is within its column types and CHECKs. *)
Definition products_valid (d : db) : Prop :=
  forall p r, products d !! p = Some r ->
    Products.domain r = true /\ Products.check r = true.


(** ** A worked scenario

    One product sold at 8.00, bought at 60.00 per batch of 12, with an
    empty shelf; two batches are bought, then five units are sold in
    sale ["s-1"]. *)

Module Scenario.

Definition P : string := "p-1".

Definition P_row : Products.row :=
  {| Products.name := "Cookies";
     Products.description := None;
     Products.unit_selling_price := 800;
     Products.cost_per_batch := 6000;
     Products.units_per_batch := 12;
     Products.current_stock := 0;
     Products.total_units_sold := 0;
     Products.created_at := Some 0;
     Products.updated_at := Some 0 |}.

Definition empty_shelf : db :=
  {| products := {[ P := P_row ]};
     stock_purchases := [];
     sales := ∅;
     sale_items := [] |}.

Definition two_batches : StockPurchases.row :=
  {| StockPurchases.product_id := P;
     StockPurchases.batches_purchased := 2;
     StockPurchases.cost_per_batch := 6000;
     StockPurchases.total_cost := 12000;
     StockPurchases.units_added := 24;
     StockPurchases.purchase_date := None;
     StockPurchases.notes := None |}.

Definition stocked : db :=
  commit empty_shelf (Ledger.insert_stock_purchase 1000 two_batches empty_shelf).

Definition sale_header : Sales.row :=
  {| Sales.sale_date := None; Sales.total_amount := 4000; Sales.notes := None |}.

Definition with_sale : db :=
  commit stocked (Ledger.insert_sale 2000 "s-1" sale_header stocked).

Definition units (n : Z) : SaleItems.row :=
  {| SaleItems.sale_id := "s-1";
     SaleItems.product_id := P;
     SaleItems.quantity := n;
     SaleItems.unit_price := 800;
     SaleItems.subtotal := 800 * n |}.

Definition sold_five : db :=
  commit with_sale (Ledger.insert_sale_item 2001 (units 5) with_sale).

Definition restored : db :=
  commit sold_five (Ledger.restore_stock_on_sale_delete 3000 P 5 sold_five).

(** The snapshot of the product the client holds once the shelf is
    stocked. *)
Definition P_snapshot : Types.Product :=
  {| Types.id := P;
     Types.name := "Cookies";
     Types.description := None;
     Types.unit_selling_price := 800;
     Types.cost_per_batch := 6000;
     Types.units_per_batch := 12;
     Types.current_stock := 24;
     Types.total_units_sold := 0;
     Types.created_at := Some 0;
     Types.updated_at := Some 1000 |}.


(** Asking for 30 units with 24 on the shelf. *)
Definition thirty_units : list RecordSale.SaleLineItem :=
  [ {| RecordSale.id := "l-1"; RecordSale.product_id := P; RecordSale.quantity := 30 |} ].

Definition refused : run :=
  RecordSale.handleSubmit (fun _ => 2000) "s-2" [P_snapshot] thirty_units "" stocked.

Definition five_units : list RecordSale.SaleLineItem :=
  [ {| RecordSale.id := "l-1"; RecordSale.product_id := P; RecordSale.quantity := 5 |} ].

Definition recorded : run :=
  RecordSale.handleSubmit (fun k => 2000 + Z.of_nat k) "s-1" [P_snapshot] five_units ""
    stocked.

(** The same scenario driven through the three forms. *)
Definition P_snapshot_empty : Types.Product :=
  {| Types.id := P;
     Types.name := "Cookies";
     Types.description := None;
     Types.unit_selling_price := 800;
     Types.cost_per_batch := 6000;
     Types.units_per_batch := 12;
     Types.current_stock := 0;
     Types.total_units_sold := 0;
     Types.created_at := Some 0;
     Types.updated_at := Some 0 |}.

End Scenario.

(** ** Vocabulary for the sale form *)

(** The snapshot holds the item's product with fewer units than asked. *)
Definition short_of_stock (products : list Types.Product)
    (item : RecordSale.SaleLineItem) : Prop :=
  exists product,
    find_product products (RecordSale.product_id item) = Some product /\
    Types.current_stock product < RecordSale.quantity item.

(** No product is selected on the line. *)
Definition unselected (item : RecordSale.SaleLineItem) : Prop :=
  RecordSale.product_id item = EmptyString.


Module OrphanScenario.

(** Two lines of 13 units of the same product, 24 units on the shelf. *)
Definition lineItems : list RecordSale.SaleLineItem :=
  [ {| RecordSale.id := "l-1"; RecordSale.product_id := Scenario.P;
       RecordSale.quantity := 13 |};
    {| RecordSale.id := "l-2"; RecordSale.product_id := Scenario.P;
       RecordSale.quantity := 13 |} ].

Definition out : run :=
  RecordSale.handleSubmit (fun k => 2000 + Z.of_nat k) "s-2"
    [Scenario.P_snapshot] lineItems "" Scenario.stocked.

End OrphanScenario.

(** ** Restock *)

Module Restock.

(** The state of the form: what the operator typed. *)
Record form : Type := {
  selectedProductId : string;
  batchesPurchased : string;
  costPerBatch : string;
  notes : string
}.

Definition nonempty (s : string) : bool := negb (bool_decide (s = EmptyString)).

Definition selectedProduct (products : list Types.Product) (f : form)
    : option Types.Product :=
  find_product products (selectedProductId f).

Definition totalCost (f : form) : Js.number :=
  if nonempty (selectedProductId f) && nonempty (batchesPurchased f)
     && nonempty (costPerBatch f)
  then Js.mul (Js.parseFloat (batchesPurchased f)) (Js.parseFloat (costPerBatch f))
  else Js.of_Z 0.

Definition unitsAdded (products : list Types.Product) (f : form) : Js.number :=
  match selectedProduct products f with
  | Some product =>
      if nonempty (batchesPurchased f)
      then Js.mul (Js.of_Z (Types.units_per_batch product)) (Js.parseInt (batchesPurchased f))
      else Js.of_Z 0
  | None => Js.of_Z 0
  end.

(** The object handed to [insert]. *)
Definition payload (products : list Types.Product) (f : form) : Payload.stock_purchase :=
  {| Payload.product_id := selectedProductId f;
     Payload.batches_purchased := Js.parseInt (batchesPurchased f);
     Payload.cost_per_batch := Js.parseFloat (costPerBatch f);
     Payload.total_cost := totalCost f;
     Payload.units_added := unitsAdded products f;
     Payload.notes := or_null (notes f) |}.

(** The row the store makes of the object: each number is read into the
    type of its column. *)
Definition row_of (o : Payload.stock_purchase) : result StockPurchases.row :=
  batches ← Js.to_integer (Payload.batches_purchased o);
  cost ← Js.to_numeric_10_2 (Payload.cost_per_batch o);
  total ← Js.to_numeric_10_2 (Payload.total_cost o);
  units ← Js.to_integer (Payload.units_added o);
  mret {| StockPurchases.product_id := Payload.product_id o;
          StockPurchases.batches_purchased := batches;
          StockPurchases.cost_per_batch := cost;
          StockPurchases.total_cost := total;
          StockPurchases.units_added := units;
          StockPurchases.purchase_date := None;
          StockPurchases.notes := Payload.notes o |}.

(** [supabase.from('stock_purchases').insert([o])]. *)
Definition insert (now : Z) (o : Payload.stock_purchase) (d : db) : result db :=
  r ← row_of o; Ledger.insert_stock_purchase now r d.

Definition failed : ui_event := alert "Failed to record restock. Please try again.".

(** [handleSubmit]. *)
Definition handleSubmit (now : Z) (products : list Types.Product) (f : form) (d : db)
    : run :=
  match selectedProduct products f with
  | None => {| store := d; requests := []; ui := [] |}
  | Some _ =>
      let o := payload products f in
      match insert now o d with
      | Err _ => {| store := d; requests := [from_stock_purchases_insert o]; ui := [failed] |}
      | Ok d' => {| store := d'; requests := [from_stock_purchases_insert o]; ui := [onSuccess] |}
      end
  end.

End Restock.

(** ** Per-product metrics: ProductCard.tsx and ProductView.tsx

    The rows come from the store, so [subtotal] and [total_cost] are
    cents of a [decimal(10,2)] column; [parseFloat] of such a column
    value is the number it prints. *)

Record metrics : Type := {
  totalRevenue : Js.number;
  totalCost : Js.number;
  profit : Js.number;
  profitMargin : Js.number
}.


(** [rows.reduce((sum, row) => sum + parseFloat(row.column), 0)]. *)
Definition reduce_sum {R : Type} (column : R -> Z) (rows : list R) : Js.number :=
  fold_left (fun sum row => Js.add sum (Js.of_cents (column row))) rows (Js.of_Z 0).

Definition margin (profit totalRevenue : Js.number) : Js.number :=
  if Js.gt totalRevenue (Js.of_Z 0)
  then Js.mul (Js.div profit totalRevenue) (Js.of_Z 100)
  else Js.of_Z 0.

Module ProductCard.


End ProductCard.

Module ProductView.

(** [data || []]. *)
Definition or_empty {R : Type} (data : option (list R)) : list R :=
  match data with Some rows => rows | None => [] end.

(** The metrics part of [fetchData]; [salesWithDates] is the list of the
    product's sale items in the order the sort by date leaves them. *)
Definition fetchData (salesWithDates : list SaleItems.row)
    (purchasesData : option (list StockPurchases.row)) : metrics :=
  let totalRevenue := reduce_sum SaleItems.subtotal salesWithDates in
  let totalCost := reduce_sum StockPurchases.total_cost (or_empty purchasesData) in
  let profit := Js.sub totalRevenue totalCost in
  let profitMargin := margin profit totalRevenue in
  {| totalRevenue := totalRevenue; totalCost := totalCost;
     profit := profit; profitMargin := profitMargin |}.

End ProductView.

(** ** Dashboard.tsx: the two "today"/"yesterday" tests

    A date is its time value, milliseconds since the epoch.  The
    browser's zone is [tz] minutes east of UTC and the store reads a
    date without zone in its session zone, [db_tz] minutes east. *)

Module Dashboard.

Definition msPerDay : Z := 86400000.
Definition msPerMinute : Z := 60000.

(** Year, month and day of a day number (days since 1970-01-01). *)
Definition civil_from_days (z : Z) : Z * Z * Z :=
  let z := z + 719468 in
  let era := z / 146097 in
  let doe := z - era * 146097 in
  let yoe := (doe - doe / 1460 + doe / 36524 - doe / 146096) / 365 in
  let y := yoe + era * 400 in
  let doy := doe - (365 * yoe + yoe / 4 - yoe / 100) in
  let mp := (5 * doy + 2) / 153 in
  let d := doy - (153 * mp + 2) / 5 + 1 in
  let m := if mp <? 10 then mp + 3 else mp - 9 in
  (if m <=? 2 then y + 1 else y, m, d).

(** Day number of a year, month and day. *)
Definition days_from_civil (ymd : Z * Z * Z) : Z :=
  let '(y, m, d) := ymd in
  let y := if m <=? 2 then y - 1 else y in
  let era := y / 400 in
  let yoe := y - era * 400 in
  let doy := (153 * (if 2 <? m then m - 3 else m + 9) + 2) / 5 + d - 1 in
  let doe := yoe * 365 + yoe / 4 - yoe / 100 + doy in
  era * 146097 + doe - 719468.

(** [date.toDateString()]: the calendar day in the browser's zone. *)
Definition toDateString (tz : Z) (date : Z) : Z * Z * Z :=
  civil_from_days ((date + tz * msPerMinute) / msPerDay).

(** [date.toISOString().split('T')[0]]: the calendar day in UTC. *)
Definition toISODate (date : Z) : Z * Z * Z :=
  civil_from_days (date / msPerDay).

(** The instant the store makes of a date-only literal compared with a
    [timestamptz] column: midnight of that day in the session zone. *)
Definition timestamptz_of_date (db_tz : Z) (ymd : Z * Z * Z) : Z :=
  days_from_civil ymd * msPerDay - db_tz * msPerMinute.

(** [yesterday.setDate(yesterday.getDate() - 1)]: the same time of day
    one calendar day earlier (the zone keeps one offset). *)
Definition yesterday (now : Z) : Z := now - msPerDay.

Definition isToday (tz now date : Z) : bool :=
  bool_decide (toDateString tz date = toDateString tz now).

Definition isYesterday (tz now date : Z) : bool :=
  bool_decide (toDateString tz date = toDateString tz (yesterday now)).

Inductive dateFilter : Type := today | yesterday_ | all.

Record RecentSale : Type := {
  id : string;
  sale_date : Z;
  total_amount : Z
}.

Definition filterSalesByDate (tz now : Z) (sales : list RecentSale) (filter : dateFilter)
    : list RecentSale :=
  match filter with
  | today => List.filter (fun sale => isToday tz now (sale_date sale)) sales
  | yesterday_ => List.filter (fun sale => isYesterday tz now (sale_date sale)) sales
  | all => sales
  end.

(** The row test of the query of [fetchFilteredData]:
    [.gte('sale_date', startDateStr).lte('sale_date', endDateStr)]. *)
Definition in_query (db_tz now : Z) (filter : dateFilter) (date : Z) : bool :=
  match filter with
  | all => true
  | _ =>
      let startDate := match filter with today => now | _ => yesterday now end in
      let endDate := startDate in
      let startDateStr := toISODate startDate in
      let endDateStr := toISODate endDate in
      (timestamptz_of_date db_tz startDateStr <=? date)
      && (date <=? timestamptz_of_date db_tz endDateStr)
  end.

(** The rows of sales the query of [fetchFilteredData] returns. *)
Definition salesData (db_tz now : Z) (filter : dateFilter) (sales : list RecentSale)
    : list RecentSale :=
  List.filter (fun sale => in_query db_tz now filter (sale_date sale)) sales.

(** Membership of a sale date in the list filter's window. *)
Definition in_list_filter (tz now : Z) (filter : dateFilter) (date : Z) : bool :=
  match filter with
  | today => isToday tz now date
  | yesterday_ => isYesterday tz now date
  | all => true
  end.

(** 2025-10-09T12:00:00Z, seen from a browser two hours east of UTC. *)
Definition noon : Z := 1760011200000.

End Dashboard.

(** ** Restock with the batch count typed as [1e2] *)

Module ExponentScenario.

Definition typed : Restock.form :=
  {| Restock.selectedProductId := Scenario.P;
     Restock.batchesPurchased := "1e2";
     Restock.costPerBatch := "60";
     Restock.notes := "" |}.

Definition out : run :=
  Restock.handleSubmit 4000 [Scenario.P_snapshot] typed Scenario.stocked.

End ExponentScenario.

(** ** The later revision of the dashboard

    [isToday] and [isYesterday] compare the local midnights of the two
    dates, and [fetchFilteredData] sends full timestamps: the local
    midnight of the day and its time 23:59:59. *)

Module DashboardRevised.

Import Dashboard.

(** [new Date(d.getFullYear(), d.getMonth(), d.getDate())]. *)
Definition startOfDay (tz : Z) (date : Z) : Z :=
  days_from_civil (toDateString tz date) * msPerDay - tz * msPerMinute.

(** [new Date(d.getFullYear(), d.getMonth(), d.getDate(), 23, 59, 59)]. *)
Definition endOfDay (tz : Z) (date : Z) : Z :=
  startOfDay tz date + (23 * 3600 + 59 * 60 + 59) * 1000.

Definition isToday (tz now date : Z) : bool :=
  bool_decide (startOfDay tz date = startOfDay tz now).

Definition isYesterday (tz now date : Z) : bool :=
  bool_decide (startOfDay tz date = startOfDay tz (yesterday now)).

Definition in_list_filter (tz now : Z) (filter : dateFilter) (date : Z) : bool :=
  match filter with
  | today => isToday tz now date
  | yesterday_ => isYesterday tz now date
  | all => true
  end.

(** [.gte('sale_date', startDate.toISOString())
     .lte('sale_date', endDate.toISOString())]. *)
Definition in_query (tz now : Z) (filter : dateFilter) (date : Z) : bool :=
  match filter with
  | all => true
  | _ =>
      let day := match filter with today => now | _ => yesterday now end in
      (startOfDay tz day <=? date) && (date <=? endOfDay tz day)
  end.

End DashboardRevised.

(** ** The worked scenario through the forms *)

Module ClientScenario.

Definition clock (k : nat) : Z := 2000 + Z.of_nat k.

Definition after_restock : run :=
  Restock.handleSubmit 1000 [Scenario.P_snapshot_empty]
    {| Restock.selectedProductId := Scenario.P;
       Restock.batchesPurchased := "2";
       Restock.costPerBatch := "60";
       Restock.notes := "" |}
    Scenario.empty_shelf.

Definition after_sale : run :=
  RecordSale.handleSubmit clock "s-1" [Scenario.P_snapshot]
    [ {| RecordSale.id := "l-1"; RecordSale.product_id := Scenario.P;
         RecordSale.quantity := 5 |} ]
    "" (store after_restock).

Definition after_delete : run :=
  EditSale.handleDelete true clock "s-1" (store after_sale).

End ClientScenario.

(** ** RecordSale.tsx: the lines of the form *)

Module SaleForm.

Import RecordSale.

(** A fresh line: [{ id: crypto.randomUUID(), product_id: '', quantity: 1 }]. *)
Definition blank (uuid : string) : SaleLineItem :=
  {| id := uuid; product_id := ""; quantity := 1 |}.

(** [useState] of [lineItems]. *)
Definition initial (uuid : string) : list SaleLineItem := [blank uuid].

Definition addLineItem (uuid : string) (lineItems : list SaleLineItem)
    : list SaleLineItem :=
  lineItems ++ [blank uuid].

Definition removeLineItem (id' : string) (lineItems : list SaleLineItem)
    : list SaleLineItem :=
  if (1 <? length lineItems)%nat
  then List.filter (fun item => negb (bool_decide (id item = id'))) lineItems
  else lineItems.

(** [updateLineItem(id, 'product_id', value)], the one use of
    [updateLineItem]. *)
Definition updateLineItem_product_id (id' : string) (value : string)
    (lineItems : list SaleLineItem) : list SaleLineItem :=
  map (fun item =>
         if bool_decide (id item = id')
         then {| id := id item; product_id := value; quantity := quantity item |}
         else item)
      lineItems.

(** The subtotal shown on a line. *)
Definition subtotal (products : list Types.Product) (item : SaleLineItem) : Z :=
  match find_product products (product_id item) with
  | Some selectedProduct => Types.unit_selling_price selectedProduct * quantity item
  | None => 0
  end.

(** What the operator can do to the lines. *)
Inductive event : Type :=
| add_item (uuid : string)
| remove_item (id : string)
| select_product (id : string) (value : string)
| plus (id : string)
| minus (id : string).

Definition step (products : list Types.Product) (e : event)
    (lineItems : list SaleLineItem) : list SaleLineItem :=
  match e with
  | add_item uuid => addLineItem uuid lineItems
  | remove_item id => removeLineItem id lineItems
  | select_product id value => updateLineItem_product_id id value lineItems
  | plus id => incrementQuantity products id lineItems
  | minus id => decrementQuantity id lineItems
  end.

Definition steps (products : list Types.Product) (es : list event)
    (lineItems : list SaleLineItem) : list SaleLineItem :=
  fold_left (fun l e => step products e l) es lineItems.

(** The keys drawn by [crypto.randomUUID()] during the events. *)
Fixpoint drawn (es : list event) : list string :=
  match es with
  | [] => []
  | add_item uuid :: rest => uuid :: drawn rest
  | _ :: rest => drawn rest
  end.

End SaleForm.

(** Units of product [p] asked for on a line. *)
Definition line_quantity_of (p : string) (item : RecordSale.SaleLineItem) : Z :=
  if bool_decide (RecordSale.product_id item = p) then RecordSale.quantity item else 0.

(** ** The product forms: AddProduct.tsx and EditProduct.tsx *)

(** The object both forms hand to the store. *)
Module ProductPayload.

Record product : Type := {
  name : string;
  description : option string;
  unit_selling_price : Js.number;
  cost_per_batch : Js.number;
  units_per_batch : Js.number
}.

End ProductPayload.

(** The statements on products that the two forms cause. *)
Module Catalog.

(** The five columns a form writes, read into their types; [None] is
    the [null] that [JSON.stringify] makes of NaN and the infinities. *)
Record columns : Type := {
  name : string;
  description : option string;
  unit_selling_price : option Z;
  cost_per_batch : option Z;
  units_per_batch : option Z
}.

Definition integer_or_null (x : Js.number) : result (option Z) :=
  match x with
  | Js.finite _ => n ← Js.to_integer x; mret (Some n)
  | _ => Ok None
  end.

Definition numeric_or_null (x : Js.number) : result (option Z) :=
  match x with
  | Js.finite _ => n ← Js.to_numeric_10_2 x; mret (Some n)
  | _ => Ok None
  end.

Definition columns_of (o : ProductPayload.product) : result columns :=
  price ← numeric_or_null (ProductPayload.unit_selling_price o);
  cost ← numeric_or_null (ProductPayload.cost_per_batch o);
  units ← integer_or_null (ProductPayload.units_per_batch o);
  mret {| name := ProductPayload.name o;
          description := ProductPayload.description o;
          unit_selling_price := price;
          cost_per_batch := cost;
          units_per_batch := units |}.

(** The three NOT NULL columns among them. *)
Definition not_null (c : columns) : result (Z * Z * Z) :=
  match unit_selling_price c, cost_per_batch c, units_per_batch c with
  | Some price, Some cost, Some units => Ok (price, cost, units)
  | _, _, _ => Err not_null_violation
  end.

(** [INSERT INTO products (name, description, unit_selling_price,
    cost_per_batch, units_per_batch)]: the counters take their default 0
    and both timestamps [now()]; [id] is the key drawn for the row. *)
Definition insert_product (now : Z) (id : string) (c : columns) (d : db) : result db :=
  '(price, cost, units) ← not_null c;
  let row :=
    {| Products.name := name c;
       Products.description := description c;
       Products.unit_selling_price := price;
       Products.cost_per_batch := cost;
       Products.units_per_batch := units;
       Products.current_stock := 0;
       Products.total_units_sold := 0;
       Products.created_at := Some now;
       Products.updated_at := Some now |} in
  if negb (Products.domain row) then Err numeric_value_out_of_range
  else if negb (Products.check row) then Err check_violation
  else match products d !! id with
       | Some _ => Err unique_violation
       | None => Ok (with_products (<[id := row]> (products d)) d)
       end.

(** The SET clause of the edit form. *)
Definition set_columns (c : columns) (price cost units : Z) (r : Products.row)
    : Products.row :=
  {| Products.name := name c;
     Products.description := description c;
     Products.unit_selling_price := price;
     Products.cost_per_batch := cost;
     Products.units_per_batch := units;
     Products.current_stock := Products.current_stock r;
     Products.total_units_sold := Products.total_units_sold r;
     Products.created_at := Products.created_at r;
     Products.updated_at := Products.updated_at r |}.

(** [UPDATE products SET name = .., description = .., unit_selling_price
    = .., cost_per_batch = .., units_per_batch = .. WHERE id = id]; with
    no such row nothing is checked and nothing changes. *)
Definition update_product (now : Z) (id : string) (c : columns) (d : db) : result db :=
  match products d !! id with
  | None => Ok d
  | Some _ =>
      '(price, cost, units) ← not_null c;
      tbl ← Ledger.update_products now (set_columns c price cost units) id (products d);
      mret (with_products tbl d)
  end.

End Catalog.

Module AddProduct.

Record formData : Type := {
  name : string;
  description : string;
  unit_selling_price : string;
  cost_per_batch : string;
  units_per_batch : string
}.

Definition payload (f : formData) : ProductPayload.product :=
  {| ProductPayload.name := name f;
     ProductPayload.description := or_null (description f);
     ProductPayload.unit_selling_price := Js.parseFloat (unit_selling_price f);
     ProductPayload.cost_per_batch := Js.parseFloat (cost_per_batch f);
     ProductPayload.units_per_batch := Js.parseInt (units_per_batch f) |}.

(** [supabase.from('products').insert([o])]. *)
Definition insert (now : Z) (uuid : string) (o : ProductPayload.product) (d : db)
    : result db :=
  c ← Catalog.columns_of o; Catalog.insert_product now uuid c d.

Definition failed : ui_event := alert "Failed to add product. Please try again.".

(** [handleSubmit]: the database left and what the operator saw. *)
Definition handleSubmit (now : Z) (uuid : string) (f : formData) (d : db)
    : db * list ui_event :=
  match insert now uuid (payload f) d with
  | Err _ => (d, [failed])
  | Ok d' => (d', [onSuccess])
  end.

End AddProduct.

Module EditProduct.

Record formData : Type := {
  name : string;
  description : string;
  unit_selling_price : string;
  cost_per_batch : string;
  units_per_batch : string
}.

Definition payload (f : formData) : ProductPayload.product :=
  {| ProductPayload.name := name f;
     ProductPayload.description := or_null (description f);
     ProductPayload.unit_selling_price := Js.parseFloat (unit_selling_price f);
     ProductPayload.cost_per_batch := Js.parseFloat (cost_per_batch f);
     ProductPayload.units_per_batch := Js.parseInt (units_per_batch f) |}.

(** [supabase.from('products').update(o).eq('id', id)]. *)
Definition update (now : Z) (id : string) (o : ProductPayload.product) (d : db)
    : result db :=
  c ← Catalog.columns_of o; Catalog.update_product now id c d.

Definition failed : ui_event := alert "Failed to update product. Please try again.".

(** [handleSubmit] of the form opened on [product]. *)
Definition handleSubmit (now : Z) (product : Types.Product) (f : formData) (d : db)
    : db * list ui_event :=
  match update now (Types.id product) (payload f) d with
  | Err _ => (d, [failed])
  | Ok d' => (d', [onSuccess])
  end.

End EditProduct.

(** ** Statements and form submissions in sequence *)

(** The statements the five forms cause. *)
Inductive statement : Type :=
| insert_into_products (now : Z) (id : string) (c : Catalog.columns)
| update_products_where_id (now : Z) (id : string) (c : Catalog.columns)
| insert_into_stock_purchases (now : Z) (r : StockPurchases.row)
| insert_into_sales (now : Z) (id : string) (r : Sales.row)
| insert_into_sale_items (now : Z) (rows : list SaleItems.row)
| select_restore_stock_on_sale_delete (now : Z) (p_product_id : string) (p_quantity : Z)
| delete_from_sales_where_id (id : string).

Definition execute (s : statement) (d : db) : result db :=
  match s with
  | insert_into_products now id c => Catalog.insert_product now id c d
  | update_products_where_id now id c => Catalog.update_product now id c d
  | insert_into_stock_purchases now r => Ledger.insert_stock_purchase now r d
  | insert_into_sales now id r => Ledger.insert_sale now id r d
  | insert_into_sale_items now rows => Ledger.insert_sale_items now rows d
  | select_restore_stock_on_sale_delete now p q => Ledger.restore_stock_on_sale_delete now p q d
  | delete_from_sales_where_id id => Ok (Ledger.delete_sale id d)
  end.

(** [reaches d d']: some statements, all of which go through, lead from
    [d] to [d']. *)
Inductive reaches : db -> db -> Prop :=
| reaches_here (d : db) : reaches d d
| reaches_next (s : statement) (d1 d2 d3 : db) :
    execute s d1 = Ok d2 -> reaches d2 d3 -> reaches d1 d3.

(** One submission of one of the five forms, with everything it reads
    from outside the database: the store's clock, the key drawn, the
    snapshot held and what was typed. *)
Inductive action : Type :=
| add_product (now : Z) (uuid : string) (f : AddProduct.formData)
| edit_product (now : Z) (product : Types.Product) (f : EditProduct.formData)
| restock (now : Z) (products : list Types.Product) (f : Restock.form)
| record_sale (clock : nat -> Z) (uuid : string) (products : list Types.Product)
    (lineItems : list RecordSale.SaleLineItem) (notes : string)
| delete_sale (confirmed : bool) (clock : nat -> Z) (saleId : string).

Definition perform (a : action) (d : db) : db :=
  match a with
  | add_product now uuid f => fst (AddProduct.handleSubmit now uuid f d)
  | edit_product now product f => fst (EditProduct.handleSubmit now product f d)
  | restock now products f => store (Restock.handleSubmit now products f d)
  | record_sale clock uuid products lineItems notes =>
      store (RecordSale.handleSubmit clock uuid products lineItems notes d)
  | delete_sale confirmed clock saleId =>
      store (EditSale.handleDelete confirmed clock saleId d)
  end.

Definition perform_all (acts : list action) (d : db) : db :=
  fold_left (fun d a => perform a d) acts d.

(** The store before anything is recorded. *)
Definition empty_db : db :=
  {| products := ∅; stock_purchases := []; sales := ∅; sale_items := [] |}.

(** ** Vocabulary: what the schema declares and what the ledger means *)

(** Every stored row is within its column types and CHECKs. *)
Definition rows_valid (d : db) : Prop :=
  Forall (fun r => SaleItems.domain r = true /\ SaleItems.check r = true) (sale_items d) /\
  Forall (fun r => StockPurchases.domain r = true /\ StockPurchases.check r = true)
    (stock_purchases d) /\
  (forall id s, sales d !! id = Some s -> Sales.domain s = true /\ Sales.check s = true).

(** The three REFERENCES clauses. *)
Definition references_ok (d : db) : Prop :=
  Forall (fun it => is_Some (sales d !! SaleItems.sale_id it) /\
                    is_Some (products d !! SaleItems.product_id it)) (sale_items d) /\
  Forall (fun r => is_Some (products d !! StockPurchases.product_id r)) (stock_purchases d).

Definition db_constraints (d : db) : Prop :=
  products_valid d /\ rows_valid d /\ references_ok d.



(** The two counters of a product, and a move of both. *)
Definition counters_of (p : string) (d : db) : option (Z * Z) :=
  (fun r => (Products.current_stock r, Products.total_units_sold r)) <$> products d !! p.

Definition moved (ds du : Z) (c : Z * Z) : Z * Z := (fst c + ds, snd c + du).


(** ** A day at the shop, as form submissions

    The product is added, two batches are bought, five units are sold
    and the sale is deleted again. *)

Module Journal.

Definition cookies : AddProduct.formData :=
  {| AddProduct.name := "Cookies";
     AddProduct.description := "";
     AddProduct.unit_selling_price := "8";
     AddProduct.cost_per_batch := "60";
     AddProduct.units_per_batch := "12" |}.

Definition two_batches : Restock.form :=
  {| Restock.selectedProductId := Scenario.P;
     Restock.batchesPurchased := "2";
     Restock.costPerBatch := "60";
     Restock.notes := "" |}.

Definition clock (k : nat) : Z := 2000 + Z.of_nat k.

Definition opening : list action :=
  [ add_product 0 Scenario.P cookies;
    restock 1000 [Scenario.P_snapshot_empty] two_batches ].

Definition selling : list action :=
  [ record_sale clock "s-1" [Scenario.P_snapshot] Scenario.five_units "" ].

Definition undoing : list action :=
  [ delete_sale true (fun k => 3000 + Z.of_nat k) "s-1" ].

Definition day : list action := opening ++ selling ++ undoing.


End Journal.

(** A string of decimal digits only: what a number field gives for a
    whole number typed plainly. *)
Fixpoint all_digits (s : string) : bool :=
  match s with
  | EmptyString => true
  | String c rest =>
      match Js.digit c with
      | Some _ => all_digits rest
      | None => false
      end
  end.

(** ** The margin line of the two product views *)

Module MarginLine.




End MarginLine.

(** ** TrendsModal: the four periods

    [fetchTrendsData] of both revisions of the dashboard.  The rows of
    sales are given as the list the store holds, and the calls of
    [new Date()] of one run give one instant, [now]. *)

Module Trends.

Import Dashboard.

Inductive period : Type := Today | Yesterday | Last_7_Days | Last_14_Days.

(** [d.setDate(d.getDate() - k)] on the current date. *)
Definition days_ago (k : Z) (now : Z) : Z := now - k * msPerDay.

Definition start_of (now : Z) (p : period) : Z :=
  match p with
  | Today => now
  | Yesterday => days_ago 1 now
  | Last_7_Days => days_ago 7 now
  | Last_14_Days => days_ago 14 now
  end.

Definition end_of (now : Z) (p : period) : Z :=
  match p with
  | Yesterday => days_ago 1 now
  | _ => now
  end.

(** Dashboard.tsx:
    [.gte('sale_date', period.start.toISOString().split('T')[0])
     .lte('sale_date', period.end.toISOString().split('T')[0])]. *)
Definition in_period (db_tz now : Z) (p : period) (date : Z) : bool :=
  (timestamptz_of_date db_tz (toISODate (start_of now p)) <=? date)
  && (date <=? timestamptz_of_date db_tz (toISODate (end_of now p))).

(** The later revision: the local midnight of the first day and the
    time 23:59:59 of the last, sent as full timestamps. *)
Definition in_period_revised (tz now : Z) (p : period) (date : Z) : bool :=
  (DashboardRevised.startOfDay tz (start_of now p) <=? date)
  && (date <=? DashboardRevised.endOfDay tz (end_of now p)).

(** [salesData?.length || 0] for the rows a period test lets through. *)
Definition salesCount (test : Z -> bool) (sales : list RecentSale) : nat :=
  length (List.filter (fun sale => test (sale_date sale)) sales).

End Trends.

(** ** The pages of the recent sales list (later revision) *)

Module Pagination.

Definition salesPerPage : Z := 5.

(** [array.slice(start, end)]. *)
Definition slice {A : Type} (start finish : Z) (l : list A) : list A :=
  let len := Z.of_nat (length l) in
  let k := if start <? 0 then Z.max (len + start) 0 else Z.min start len in
  let final := if finish <? 0 then Z.max (len + finish) 0 else Z.min finish len in
  firstn (Z.to_nat (final - k)) (skipn (Z.to_nat k) l).

(** The sales shown on page [currentPage]. *)
Definition page {A : Type} (currentPage : Z) (filteredSales : list A) : list A :=
  slice ((currentPage - 1) * salesPerPage) (currentPage * salesPerPage) filteredSales.

(** [Math.ceil(filteredSales.length / salesPerPage)]. *)
Definition pages {A : Type} (filteredSales : list A) : Z :=
  Qceiling (inject_Z (Z.of_nat (length filteredSales)) / inject_Z salesPerPage).

Inductive click : Type := Previous | Next.

Definition setCurrentPage {A : Type} (filteredSales : list A) (c : click) (prev : Z) : Z :=
  match c with
  | Previous => Z.max 1 (prev - 1)
  | Next => Z.min (pages filteredSales) (prev + 1)
  end.

(** The page after some clicks, from page 1. *)
Definition currentPage {A : Type} (filteredSales : list A) (clicks : list click) : Z :=
  fold_left (fun prev c => setCurrentPage filteredSales c prev) clicks 1.

(** "Showing [from] to [to] of [length] sales". *)
Definition showing {A : Type} (currentPage : Z) (filteredSales : list A) : Z * Z :=
  ((currentPage - 1) * salesPerPage + 1,
   Z.min (currentPage * salesPerPage) (Z.of_nat (length filteredSales))).

End Pagination.

(** ** Dashboard.tsx: the all-time metrics of [fetchData] *)

Module DashboardTotals.

(** A JavaScript object used as a map from product ids: its keys in the
    order they were first set. *)
Definition object (V : Type) : Type := list (string * V).

(** [o[k]]. *)
Definition get {V : Type} (o : object V) (k : string) : option V :=
  snd <$> List.find (fun kv => bool_decide (fst kv = k)) o.

(** [o[k] = v]. *)
Definition set {V : Type} (o : object V) (k : string) (v : V) : object V :=
  match get o k with
  | Some _ => map (fun kv => if bool_decide (fst kv = k) then (k, v) else kv) o
  | None => o ++ [(k, v)]
  end.

(** [Object.values(o)]. *)
Definition values {V : Type} (o : object V) : list V := map snd o.

Record entry : Type := { revenue : Js.number; quantity : Z }.

(** The reducer of [salesByProduct]; an entry is an object, so
    [!acc[k]] holds exactly when the key is not set. *)
Definition add_sale (acc : object entry) (item : SaleItems.row) : object entry :=
  let k := SaleItems.product_id item in
  let acc := match get acc k with
             | Some _ => acc
             | None => set acc k {| revenue := Js.of_Z 0; quantity := 0 |}
             end in
  match get acc k with
  | Some e =>
      set acc k {| revenue := Js.add (revenue e) (Js.of_cents (SaleItems.subtotal item));
                   quantity := quantity e + SaleItems.quantity item |}
  | None => acc
  end.

Definition salesByProduct (salesData : list SaleItems.row) : object entry :=
  fold_left add_sale salesData [].

(** The reducer of [costByProduct]; an entry is a number, so [!acc[k]]
    also holds when the number is 0 or NaN. *)
Definition add_purchase (acc : object Js.number) (purchase : StockPurchases.row)
    : object Js.number :=
  let k := StockPurchases.product_id purchase in
  let acc := match get acc k with
             | Some c => if Js.truthy c then acc else set acc k (Js.of_Z 0)
             | None => set acc k (Js.of_Z 0)
             end in
  match get acc k with
  | Some c => set acc k (Js.add c (Js.of_cents (StockPurchases.total_cost purchase)))
  | None => acc
  end.

Definition costByProduct (purchasesData : list StockPurchases.row) : object Js.number :=
  fold_left add_purchase purchasesData [].

Record DashboardMetrics : Type := {
  totalRevenue : Js.number;
  totalProfit : Js.number;
  totalProducts : nat
}.

(** The metrics [fetchData] sets from the three answers. *)
Definition fetchData (productsData : list Types.Product)
    (salesData : list SaleItems.row) (purchasesData : list StockPurchases.row)
    : DashboardMetrics :=
  let totalRevenue :=
    fold_left (fun sum item => Js.add sum (revenue item))
      (values (salesByProduct salesData)) (Js.of_Z 0) in
  let totalCost :=
    fold_left (fun sum cost => Js.add sum cost)
      (values (costByProduct purchasesData)) (Js.of_Z 0) in
  {| totalRevenue := totalRevenue;
     totalProfit := Js.sub totalRevenue totalCost;
     totalProducts := length productsData |}.

End DashboardTotals.






(** ** notificationService.ts

    Item names are product names; the names of the properties that
    every JavaScript object inherits ([constructor], [toString], ...)
    are left out: a key that was never set reads as [undefined]. *)

Module NotificationService.

Record StockItem : Type := {
  name : string;
  currentStock : Js.number;
  lowStockThreshold : Js.number
}.

(** An entry of [notificationHistory]; [lastSent] is the text of a day,
    as [toDateString()] gives it. *)
Record sent : Type := { count : Z; lastSent : string }.

Record service : Type := {
  stockThresholds : gmap string Js.number;
  notificationHistory : gmap string sent
}.

(** [getInstance()] on first use. *)
Definition instance : service :=
  {| stockThresholds :=
       <["Energy Drinks" := Js.of_Z 5]>
         (<["Pop Shots" := Js.of_Z 12]> (<["Ice-Cream" := Js.of_Z 10]> ∅));
     notificationHistory := ∅ |}.

(** [x <= y]. *)
Definition le (x y : Js.number) : bool :=
  match x, y with
  | Js.NaN, _ | _, Js.NaN => false
  | Js.finite a, Js.finite b => Qle_bool a b
  | Js.Infinity s, Js.finite _ => s
  | Js.finite _, Js.Infinity t => negb t
  | Js.Infinity s, Js.Infinity t => s || negb t
  end.

Definition shouldSendNotification (s : service) (itemName today : string) : bool :=
  match notificationHistory s !! itemName with
  | None => true
  | Some history =>
      if negb (bool_decide (lastSent history = today)) then true
      else count history <? 2
  end.

(** What [sendLowStockNotification] hands to [LocalNotifications]: the
    [extra] of the notification. *)
Record notification : Type := {
  itemName : string;
  stock : Js.number;
  threshold : option Js.number
}.

Definition sendLowStockNotification (s : service) (item : StockItem) : notification :=
  {| itemName := name item;
     stock := currentStock item;
     threshold := stockThresholds s !! name item |}.

(** The body of the loop of [checkLowStock]; the notifications handed
    over so far are kept next to the service, latest last. *)
Definition check_item (today : string) (st : service * list notification)
    (item : StockItem) : service * list notification :=
  let '(s, log) := st in
  match stockThresholds s !! name item with
  | Some threshold =>
      if Js.truthy threshold && le (currentStock item) threshold then
        let itemKey := name item in
        let history := notificationHistory s !! itemKey in
        if shouldSendNotification s itemKey today then
          ({| stockThresholds := stockThresholds s;
              notificationHistory :=
                <[itemKey := {| count := match history with
                                         | Some h => count h + 1
                                         | None => 1
                                         end;
                                lastSent := today |}]> (notificationHistory s) |},
           log ++ [sendLowStockNotification s item])
        else (s, log)
      else (s, log)
  | None => (s, log)
  end.

Definition checkLowStock (today : string) (items : list StockItem)
    (st : service * list notification) : service * list notification :=
  fold_left (check_item today) items st.

Definition setStockThreshold (itemName : string) (threshold : Js.number) (s : service)
    : service :=
  {| stockThresholds := <[itemName := threshold]> (stockThresholds s);
     notificationHistory := notificationHistory s |}.

(** [this.stockThresholds[itemName] || 0]. *)
Definition getStockThreshold (itemName : string) (s : service) : Js.number :=
  match stockThresholds s !! itemName with
  | Some threshold => if Js.truthy threshold then threshold else Js.of_Z 0
  | None => Js.of_Z 0
  end.

(** The calls of the hook [useNotifications]. *)
Inductive call : Type :=
| check (today : string) (items : list StockItem)
| set_threshold (itemName : string) (threshold : Js.number).

Definition perform_call (st : service * list notification) (c : call)
    : service * list notification :=
  match c with
  | check today items => checkLowStock today items st
  | set_threshold itemName threshold => (setStockThreshold itemName threshold (fst st), snd st)
  end.

Definition perform_calls (calls : list call) (st : service * list notification)
    : service * list notification :=
  fold_left perform_call calls st.

(** The notifications about one item. *)
Definition sent_for (n : string) (log : list notification) : Z :=
  Z.of_nat (length (List.filter (fun x => bool_decide (itemName x = n)) log)).


(** The notifications an entry of the history still lets through on
    the day [today]. *)
Definition budget (today : string) (h : option sent) : Z :=
  match h with
  | None => 2
  | Some h => if bool_decide (lastSent h = today) then Z.max 0 (2 - count h) else 1
  end.

(** Every count in the history is at least 1. *)
Definition counts_positive (s : service) : Prop :=
  forall n h, notificationHistory s !! n = Some h -> 1 <= count h.

End NotificationService.

(** * Properties *)

Section LedgerFacts.

Import Ledger.

Lemma update_products_lookup now set p tbl tbl' p' :
  update_products now set p tbl = Ok tbl' ->
  tbl' !! p' =
    if bool_decide (p' = p)
    then (fun r => update_product_updated_at now (set r)) <$> tbl !! p'
    else tbl !! p'.
Proof.
  unfold update_products. intros H.
  case_bool_decide as Hp.
  - subst p'. destruct (tbl !! p) as [old|] eqn:E.
    + destruct (Products.domain _); simpl in H; [|discriminate].
      destruct (Products.check _); simpl in H; [|discriminate].
      injection H as <-. by rewrite lookup_insert_eq.
    + injection H as <-. by rewrite E.
  - destruct (tbl !! p) as [old|] eqn:E.
    + destruct (Products.domain _); simpl in H; [|discriminate].
      destruct (Products.check _); simpl in H; [|discriminate].
      injection H as <-. by rewrite lookup_insert_ne.
    + by injection H as <-.
Qed.

Lemma update_products_checked now set p tbl tbl' r' :
  update_products now set p tbl = Ok tbl' ->
  tbl' !! p = Some r' ->
  Products.domain r' = true /\ Products.check r' = true.
Proof.
  unfold update_products. intros H Hr.
  destruct (tbl !! p) as [old|] eqn:E.
  - destruct (Products.domain _) eqn:Hd; simpl in H; [|discriminate].
    destruct (Products.check _) eqn:Hc; simpl in H; [|discriminate].
    injection H as <-. rewrite lookup_insert_eq in Hr. by injection Hr as <-.
  - injection H as <-. congruence.
Qed.

Lemma insert_sale_item_Ok now r d d' :
  insert_sale_item now r d = Ok d' ->
  SaleItems.check r = true /\
  update_stock_on_sale now r (products d) = Ok (products d') /\
  stock_purchases d' = stock_purchases d /\
  sales d' = sales d /\
  sale_items d' = sale_items d ++ [r].
Proof.
  unfold insert_sale_item. intros H.
  destruct (SaleItems.domain r); simpl in H; [|discriminate].
  destruct (SaleItems.check r); simpl in H; [|discriminate].
  destruct (sales d !! _); [|discriminate].
  destruct (products d !! _); [|discriminate].
  destruct (update_stock_on_sale now r (products d)) as [tbl|e]; [|discriminate].
  injection H as <-. simpl. auto.
Qed.

Lemma insert_sale_item_counters now r d d' p :
  insert_sale_item now r d = Ok d' ->
  stock_of p d' = (fun s => s - quantity_of p r) <$> stock_of p d /\
  sold_of p d' = (fun s => s + quantity_of p r) <$> sold_of p d.
Proof.
  intros H. apply insert_sale_item_Ok in H as (_ & H & _).
  unfold update_stock_on_sale in H.
  apply update_products_lookup with (p' := p) in H.
  unfold stock_of, sold_of, quantity_of. rewrite H.
  case_bool_decide as Hp.
  - subst p. rewrite bool_decide_eq_true_2 by done.
    destruct (products d !! _); simpl; auto.
  - rewrite bool_decide_eq_false_2 by congruence.
    destruct (products d !! p); simpl; split; f_equal; lia.
Qed.


End LedgerFacts.

Section ScenarioFacts.

Import Scenario.

Example scenario_stocked :
  Ledger.stock_of P stocked = Some 24 /\ Ledger.sold_of P stocked = Some 0.
Proof. vm_compute. done. Qed.

Example scenario_sold_five :
  Ledger.stock_of P sold_five = Some 19 /\ Ledger.sold_of P sold_five = Some 5.
Proof. vm_compute. done. Qed.

(** Restock of 2 batches, sale of 5 units, deletion of the sale. *)
Example scenario_through_the_forms :
  ui ClientScenario.after_restock = [onSuccess] /\
  stock_purchases (store ClientScenario.after_restock) = stock_purchases stocked /\
  Ledger.stock_of P (store ClientScenario.after_restock) = Some 24 /\
  ui ClientScenario.after_sale = [onSuccess] /\
  Ledger.select_sale_items "s-1" (store ClientScenario.after_sale) = [units 5] /\
  Ledger.stock_of P (store ClientScenario.after_sale) = Some 19 /\
  Ledger.sold_of P (store ClientScenario.after_sale) = Some 5 /\
  ui ClientScenario.after_delete = [onSuccess] /\
  Ledger.stock_of P (store ClientScenario.after_delete) = Some 24 /\
  Ledger.sold_of P (store ClientScenario.after_delete) = Some 0.
Proof. vm_compute. split_and!; reflexivity. Qed.

(** The plus button clamps the quantity to the stock of the snapshot,
    also when that is below the quantity already entered. *)
Example increment_on_empty_shelf :
  RecordSale.incrementQuantity [P_snapshot_empty] "l-1"
    [ {| RecordSale.id := "l-1"; RecordSale.product_id := P; RecordSale.quantity := 1 |} ]
  = [ {| RecordSale.id := "l-1"; RecordSale.product_id := P; RecordSale.quantity := 0 |} ].
Proof. vm_compute. reflexivity. Qed.

End ScenarioFacts.

Section LedgerClaims.

Import Ledger.


Lemma insert_sale_item_stock_checked now r d d' s' :
  insert_sale_item now r d = Ok d' ->
  stock_of (SaleItems.product_id r) d' = Some s' ->
  0 <= s'.
Proof.
  intros H Hs. apply insert_sale_item_Ok in H as (_ & H & _).
  unfold stock_of in Hs.
  destruct (products d' !! SaleItems.product_id r) as [r'|] eqn:E; [|discriminate].
  injection Hs as <-.
  destruct (update_products_checked _ _ _ _ _ _ H E) as [_ Hc].
  unfold Products.check in Hc. repeat (apply andb_prop in Hc as [Hc ?]). lia.
Qed.

(** C3, refuted.  No state lets a SaleItem insert succeed and leave the
    stock of its product negative: the CHECK on [current_stock] is
    evaluated by the trigger's UPDATE. *)
Lemma no_insert_leaves_stock_negative :
  ~ exists (now : Z) (r : SaleItems.row) (d d' : db) (s s' : Z),
      stock_of (SaleItems.product_id r) d = Some s /\
      s < SaleItems.quantity r /\
      insert_sale_item now r d = Ok d' /\
      stock_of (SaleItems.product_id r) d' = Some s' /\
      s' < 0.
Proof.
  intros (now & r & d & d' & s & s' & _ & _ & H & Hs & Hneg).
  pose proof (insert_sale_item_stock_checked _ _ _ _ _ H Hs). lia.
Qed.

(** C3, amended.  The database enforces [current_stock >= 0]: when a
    product holds fewer units than a SaleItem asks for, the insert fails
    and the database stays as it was. *)
Theorem oversell_is_rejected (now : Z) (r : SaleItems.row) (d : db) (s : Z) :
  stock_of (SaleItems.product_id r) d = Some s ->
  s < SaleItems.quantity r ->
  is_ok (insert_sale_item now r d) = false /\
  commit d (insert_sale_item now r d) = d.
Proof.
  intros Hs Hlt.
  destruct (insert_sale_item now r d) as [d'|e] eqn:E; [|done].
  exfalso.
  pose proof (insert_sale_item_counters _ _ _ _ (SaleItems.product_id r) E) as [H1 _].
  rewrite Hs in H1. simpl in H1.
  pose proof (insert_sale_item_stock_checked _ _ _ _ _ E H1) as H0.
  unfold quantity_of in H0. rewrite bool_decide_eq_true_2 in H0 by done. lia.
Qed.

Lemma oversell_is_rejected_witness :
  stock_of Scenario.P Scenario.sold_five = Some 19 /\
  is_ok (insert_sale_item 3000 (Scenario.units 20) Scenario.sold_five) = false /\
  commit Scenario.sold_five (insert_sale_item 3000 (Scenario.units 20) Scenario.sold_five)
  = Scenario.sold_five.
Proof.
  split; [vm_compute; reflexivity|].
  apply (oversell_is_rejected 3000 (Scenario.units 20) Scenario.sold_five 19).
  - vm_compute; reflexivity.
  - simpl. lia.
Defined.

Lemma insert_stock_purchase_Ok now r d d' :
  insert_stock_purchase now r d = Ok d' ->
  update_stock_on_purchase now (stored_purchase (now, r)) (products d) = Ok (products d') /\
  stock_purchases d' = stock_purchases d ++ [stored_purchase (now, r)] /\
  sales d' = sales d /\
  sale_items d' = sale_items d.
Proof.
  unfold insert_stock_purchase. intros H.
  destruct (StockPurchases.domain r); simpl in H; [|discriminate].
  destruct (StockPurchases.check r); simpl in H; [|discriminate].
  destruct (products d !! _); [|discriminate].
  fold (stored_purchase (now, r)) in H.
  destruct (update_stock_on_purchase now _ (products d)) as [tbl|e]; [|discriminate].
  injection H as <-. simpl. auto.
Qed.

Lemma insert_stock_purchase_effect now r d d' p :
  insert_stock_purchase now r d = Ok d' ->
  stock_of p d' = (fun s => s + units_added_of p r) <$> stock_of p d /\
  sold_of p d' = sold_of p d /\
  descriptive <$> products d' !! p = descriptive <$> products d !! p /\
  (StockPurchases.product_id r <> p -> products d' !! p = products d !! p).
Proof.
  intros H. apply insert_stock_purchase_Ok in H as (H & _).
  unfold update_stock_on_purchase in H.
  apply update_products_lookup with (p' := p) in H.
  cbn [stored_purchase StockPurchases.product_id StockPurchases.units_added snd] in H.
  unfold stock_of, sold_of, units_added_of. rewrite H.
  case_bool_decide as Hp.
  - subst p. rewrite bool_decide_eq_true_2 by done.
    destruct (products d !! _); simpl; split_and!; auto; done.
  - rewrite bool_decide_eq_false_2 by congruence.
    destruct (products d !! p); simpl; split_and!; auto; f_equal; lia.
Qed.





End LedgerClaims.

Section RestoreFacts.

Import Ledger.

Lemma restore_Ok now p q d d' :
  restore_stock_on_sale_delete now p q d = Ok d' ->
  int4 q = true /\
  update_products now
    (fun r => set_counters (Products.current_stock r + q)
                           (Products.total_units_sold r - q) r)
    p (products d) = Ok (products d') /\
  stock_purchases d' = stock_purchases d /\
  sales d' = sales d /\
  sale_items d' = sale_items d.
Proof.
  unfold restore_stock_on_sale_delete. intros H.
  destruct (int4 q); simpl in H; [|discriminate].
  destruct (update_products _ _ _ _) as [tbl|e]; [|discriminate].
  injection H as <-. simpl. auto.
Qed.

Lemma check_counters r :
  Products.check r = true ->
  0 <= Products.current_stock r /\ 0 <= Products.total_units_sold r.
Proof.
  unfold Products.check. intros H. repeat (apply andb_prop in H as [H ?]). lia.
Qed.

(** C10, refuted as stated.  With 19 units on the shelf and 5 sold, a
    restore of 6 units is rejected by the CHECK on [total_units_sold]
    and the row keeps its 19 units instead of getting 25. *)
Lemma restore_beyond_sold_is_rejected :
  restore_stock_on_sale_delete 3000 Scenario.P 6 Scenario.sold_five = Err check_violation /\
  stock_of Scenario.P Scenario.sold_five = Some 19 /\
  stock_of Scenario.P
    (commit Scenario.sold_five
       (restore_stock_on_sale_delete 3000 Scenario.P 6 Scenario.sold_five))
  <> Some (19 + 6).
Proof. vm_compute. split_and!; done. Qed.

(** C10, amended.  A call [restore_stock_on_sale_delete(p, q)] that
    succeeds changes the products row keyed [p] and nothing else: its
    [current_stock] grows by [q], its [total_units_sold] shrinks by [q],
    its [updated_at] is the time of the call, its other columns are kept;
    all other products rows and the three other tables are untouched.
    The body puts no bound on [q], but the UPDATE is subject to the CHECK
    constraints of products, so a call that succeeds leaves both
    counters non-negative (a call that would not is rejected and
    changes nothing). *)
Theorem restore_changes_exactly_one_row (now : Z) (p : string) (q : Z) (d d' : db) :
  restore_stock_on_sale_delete now p q d = Ok d' ->
  (forall p', p' <> p -> products d' !! p' = products d !! p') /\
  stock_purchases d' = stock_purchases d /\
  sales d' = sales d /\
  sale_items d' = sale_items d /\
  match products d !! p with
  | None => products d' !! p = None
  | Some r =>
      exists r', products d' !! p = Some r' /\
        Products.current_stock r' = Products.current_stock r + q /\
        Products.total_units_sold r' = Products.total_units_sold r - q /\
        Products.updated_at r' = Some now /\
        descriptive r' = descriptive r /\
        0 <= Products.current_stock r + q /\
        0 <= Products.total_units_sold r - q
  end.
Proof.
  intros H. apply restore_Ok in H as (_ & H & H1 & H2 & H3).
  split_and!; try done.
  - intros p' Hp'. rewrite (update_products_lookup _ _ _ _ _ p' H).
    by rewrite bool_decide_eq_false_2.
  - pose proof (update_products_lookup _ _ _ _ _ p H) as Hl.
    rewrite bool_decide_eq_true_2 in Hl by done.
    destruct (products d !! p) as [r|] eqn:E; simpl in Hl; [|done].
    eexists. split; [exact Hl|].
    destruct (update_products_checked _ _ _ _ _ _ H Hl) as [_ Hc].
    apply check_counters in Hc. simpl in Hc. simpl. split_and!; try done; lia.
Qed.

Lemma restore_changes_exactly_one_row_witness :
  restore_stock_on_sale_delete 3000 Scenario.P 5 Scenario.sold_five = Ok Scenario.restored /\
  sale_items Scenario.restored = sale_items Scenario.sold_five /\
  stock_of Scenario.P Scenario.restored = Some 24 /\
  sold_of Scenario.P Scenario.restored = Some 0.
Proof.
  assert (restore_stock_on_sale_delete 3000 Scenario.P 5 Scenario.sold_five
          = Ok Scenario.restored) as H by (vm_compute; reflexivity).
  split; [exact H|].
  split; [exact (proj1 (proj2 (proj2 (proj2
            (restore_changes_exactly_one_row 3000 Scenario.P 5 _ _ H)))))|].
  vm_compute. split; reflexivity.
Defined.

End RestoreFacts.

Section DeleteFacts.

Import Ledger.

Lemma update_products_valid now set p tbl tbl' :
  (forall k r, tbl !! k = Some r -> Products.domain r = true /\ Products.check r = true) ->
  update_products now set p tbl = Ok tbl' ->
  forall k r, tbl' !! k = Some r -> Products.domain r = true /\ Products.check r = true.
Proof.
  intros Hv H k r Hk.
  destruct (decide (k = p)) as [->|Hne].
  - eapply update_products_checked; eauto.
  - rewrite (update_products_lookup _ _ _ _ _ k H) in Hk.
    rewrite bool_decide_eq_false_2 in Hk by done. eauto.
Qed.

Lemma insert_sale_item_valid now r d d' :
  products_valid d -> insert_sale_item now r d = Ok d' -> products_valid d'.
Proof.
  intros Hv H. apply insert_sale_item_Ok in H as (_ & H & _).
  unfold products_valid. eapply update_products_valid; eauto.
Qed.

Lemma insert_sale_item_row_ok now r d d' :
  insert_sale_item now r d = Ok d' ->
  SaleItems.domain r = true /\ SaleItems.check r = true.
Proof.
  unfold insert_sale_item. intros H.
  destruct (SaleItems.domain r); simpl in H; [|discriminate].
  destruct (SaleItems.check r); simpl in H; [|discriminate]. done.
Qed.

Lemma insert_sale_items_effect now rows : forall d d',
  insert_sale_items now rows d = Ok d' ->
  (products_valid d -> products_valid d') /\
  Forall (fun r => SaleItems.domain r = true /\ SaleItems.check r = true) rows /\
  (forall p,
     stock_of p d' = (fun s => s - sumZ (quantity_of p) rows) <$> stock_of p d /\
     sold_of p d' = (fun s => s + sumZ (quantity_of p) rows) <$> sold_of p d) /\
  stock_purchases d' = stock_purchases d /\
  sales d' = sales d /\
  sale_items d' = sale_items d ++ rows.
Proof.
  unfold insert_sale_items.
  induction rows as [|r rest IH]; intros d d' H; simpl in H.
  - injection H as <-. rewrite app_nil_r. split_and!; try done.
    intros p. destruct (stock_of p d), (sold_of p d); simpl; split; f_equal; lia.
  - destruct (insert_sale_item now r d) as [d1|e] eqn:E; simpl in H; [|discriminate].
    destruct (IH _ _ H) as (IHv & IHr & IHc & IH1 & IH2 & IH3).
    pose proof (insert_sale_item_row_ok _ _ _ _ E) as Hrow.
    split_and!.
    + intros Hv. apply IHv. eapply insert_sale_item_valid; eauto.
    + by constructor.
    + intros p. destruct (IHc p) as [Hs Hu].
      destruct (insert_sale_item_counters _ _ _ _ p E) as [Hs1 Hu1].
      rewrite Hs, Hu, Hs1, Hu1. simpl.
      destruct (stock_of p d), (sold_of p d); simpl; split; f_equal; lia.
    + apply insert_sale_item_Ok in E as (_ & _ & E & _). congruence.
    + apply insert_sale_item_Ok in E as (_ & _ & _ & E & _). congruence.
    + apply insert_sale_item_Ok in E as (_ & _ & _ & _ & E).
      rewrite IH3, E, <- app_assoc. done.
Qed.



Lemma restore_counters now p' q d d' p :
  restore_stock_on_sale_delete now p' q d = Ok d' ->
  stock_of p d' = (fun s => s + (if bool_decide (p' = p) then q else 0)) <$> stock_of p d /\
  sold_of p d' = (fun s => s - (if bool_decide (p' = p) then q else 0)) <$> sold_of p d.
Proof.
  intros H. apply restore_Ok in H as (_ & H & _).
  apply update_products_lookup with (p' := p) in H.
  unfold stock_of, sold_of. rewrite H.
  case_bool_decide as Hp.
  - subst p. rewrite bool_decide_eq_true_2 by done.
    destruct (products d !! _); simpl; auto.
  - rewrite bool_decide_eq_false_2 by congruence.
    destruct (products d !! p); simpl; split; f_equal; lia.
Qed.

End DeleteFacts.

Section DeleteClaims.

Import Ledger.






End DeleteClaims.

Section RecordSaleFacts.

Import RecordSale.

Lemma validateStock_valid products lineItems :
  valid (validateStock products lineItems) = true <->
  ~ Exists (short_of_stock products) lineItems.
Proof.
  induction lineItems as [|item rest IH]; simpl.
  - split; [|done]. intros _ H. inversion H.
  - destruct (find_product products (product_id item)) as [product|] eqn:E.
    + destruct (Types.current_stock product <? quantity item) eqn:Hlt; simpl.
      * split; [done|]. intros H. exfalso. apply H. left. exists product. split; [done|lia].
      * rewrite IH. split.
        -- intros H Hex. apply Exists_cons in Hex as [(product' & E' & Hlt')|Hex]; [|done].
           rewrite E in E'. injection E' as <-. lia.
        -- intros H Hex. apply H. by right.
    + rewrite IH. split.
      * intros H Hex. apply Exists_cons in Hex as [(product' & E' & _)|Hex]; [|done].
        congruence.
      * intros H Hex. apply H. by right.
Qed.

Lemma validateStock_message products lineItems :
  valid (validateStock products lineItems) = false ->
  exists item product,
    In item lineItems /\
    find_product products (product_id item) = Some product /\
    Types.current_stock product < quantity item /\
    message (validateStock products lineItems) = not_enough_stock product item.
Proof.
  induction lineItems as [|item rest IH]; simpl; [done|].
  destruct (find_product products (product_id item)) as [product|] eqn:E.
  - destruct (Types.current_stock product <? quantity item) eqn:Hlt; simpl.
    + intros _. exists item, product. split_and!; auto. lia.
    + intros H. destruct (IH H) as (i & p & Hin & ?). exists i, p. auto.
  - intros H. destruct (IH H) as (i & p & Hin & ?). exists i, p. auto.
Qed.

Lemma some_unselected lineItems :
  existsb (fun item => bool_decide (product_id item = EmptyString)) lineItems = true <->
  Exists unselected lineItems.
Proof.
  rewrite existsb_exists, Exists_exists. unfold unselected.
  split; intros (item & Hin & H); exists item; split.
  - by apply list_elem_of_In.
  - by apply bool_decide_eq_true_1 in H.
  - by apply list_elem_of_In.
  - by apply bool_decide_eq_true_2.
Qed.

(** C7.  A submitted sale is turned away with no request sent to the
    store exactly when the snapshot holds, for some line, fewer units of
    the line's product than the line asks for, or some line has no
    product selected.  When a line is short of stock the one thing shown
    is the message built from the name of the product, its available
    units and the requested units of such a line; and a sale that is
    turned away leaves the database as it was. *)
Theorem submit_rejected_iff_short_or_unselected
    (clock : nat -> Z) (uuid : string) (products : list Types.Product)
    (lineItems : list SaleLineItem) (notes : string) (d : db) :
  let out := handleSubmit clock uuid products lineItems notes d in
  (requests out = [] <->
     Exists (short_of_stock products) lineItems \/ Exists unselected lineItems) /\
  (Exists (short_of_stock products) lineItems ->
     exists item product,
       In item lineItems /\
       find_product products (product_id item) = Some product /\
       Types.current_stock product < quantity item /\
       ui out = [alert ("Not enough stock for " +:+ Types.name product
                        +:+ ". Available: " +:+ show (Types.current_stock product)
                        +:+ ", Requested: " +:+ show (quantity item))]) /\
  (requests out = [] -> store out = d /\ exists msg, ui out = [alert msg]).
Proof.
  unfold handleSubmit.
  pose proof (validateStock_valid products lineItems) as Hv.
  pose proof (validateStock_message products lineItems) as Hm.
  pose proof (some_unselected lineItems) as Hu.
  destruct (valid (validateStock products lineItems)) eqn:Ev; simpl.
  - assert (~ Exists (short_of_stock products) lineItems) as Hno by (by apply Hv).
    destruct (existsb _ lineItems) eqn:Eu; simpl.
    + split_and!; [|done|eauto]. split; [|done]. intros _. right. by apply Hu.
    + assert (~ Exists unselected lineItems) as Hnu.
      { intros H. apply Hu in H. discriminate. }
      destruct (Ledger.insert_sale _ _ _ d) as [d1|e]; simpl.
      * destruct (saleItems products uuid lineItems) as [rows|]; simpl.
        -- destruct (Ledger.insert_sale_items _ rows d1); simpl;
             (split_and!; [|done|done]); (split; [done|]); intros [?|?]; done.
        -- (split_and!; [|done|done]); (split; [done|]); intros [?|?]; done.
      * (split_and!; [|done|done]); (split; [done|]); intros [?|?]; done.
  - destruct (Hm eq_refl) as (item & product & Hin & Hf & Hlt & Hmsg).
    assert (Exists (short_of_stock products) lineItems) as Hex.
    { apply Exists_exists. exists item. split; [by apply list_elem_of_In|].
      exists product. done. }
    split_and!; [split; auto| |eauto].
    intros _. exists item, product. rewrite Hmsg. done.
Qed.

End RecordSaleFacts.

Section RecordSaleClaims.

Import RecordSale.

Example too_many_cookies :
  ui Scenario.refused
  = [alert "Not enough stock for Cookies. Available: 24, Requested: 30"].
Proof. vm_compute. reflexivity. Qed.

Lemma submit_rejected_iff_short_or_unselected_witness :
  requests Scenario.refused = [] /\ store Scenario.refused = Scenario.stocked.
Proof.
  pose proof (submit_rejected_iff_short_or_unselected (fun _ => 2000) "s-2"
                [Scenario.P_snapshot] Scenario.thirty_units "" Scenario.stocked)
    as (Hiff & _ & Hkeep).
  assert (requests Scenario.refused = []) as Hreq.
  { apply Hiff. left. constructor. exists Scenario.P_snapshot.
    split; [reflexivity|]. simpl. lia. }
  split; [exact Hreq|]. exact (proj1 (Hkeep Hreq)).
Defined.

Lemma insert_sale_Ok now id r d d' :
  Ledger.insert_sale now id r d = Ok d' ->
  sales d !! id = None /\
  (exists s, sales d' = <[id := s]> (sales d) /\ Sales.total_amount s = Sales.total_amount r) /\
  products d' = products d /\
  stock_purchases d' = stock_purchases d /\
  sale_items d' = sale_items d.
Proof.
  unfold Ledger.insert_sale. intros H.
  destruct (Sales.domain r); simpl in H; [|discriminate].
  destruct (Sales.check r); simpl in H; [|discriminate].
  destruct (sales d !! id) eqn:E; [discriminate|].
  injection H as <-. simpl. split_and!; try done. eexists. split; [reflexivity|done].
Qed.


(** The rows built from the lines: what each holds. *)
Lemma saleItems_rows products sale_id lineItems : forall rows,
  saleItems products sale_id lineItems = Some rows ->
  Forall (fun it =>
            SaleItems.sale_id it = sale_id /\
            SaleItems.subtotal it = SaleItems.quantity it * SaleItems.unit_price it /\
            exists product,
              find_product products (SaleItems.product_id it) = Some product /\
              SaleItems.unit_price it = Types.unit_selling_price product) rows /\
  map SaleItems.product_id rows = map product_id lineItems /\
  map SaleItems.quantity rows = map quantity lineItems.
Proof.
  induction lineItems as [|item rest IH]; intros rows H; simpl in H.
  - injection H as <-. done.
  - destruct (find_product products (product_id item)) as [product|] eqn:E; [|discriminate].
    destruct (saleItems products sale_id rest) as [rows'|]; [|discriminate].
    injection H as <-. destruct (IH _ eq_refl) as (IH1 & IH2 & IH3).
    split_and!; simpl; [|by f_equal|by f_equal].
    constructor; [|done]. simpl. split_and!; [done|lia|]. by exists product.
Qed.





End RecordSaleClaims.

Section RestockFacts.

Lemma round_half_away_whole (q : Q) (z : Z) :
  Qeq q (inject_Z z) -> Js.round_half_away q = z.
Proof.
  destruct q as [a d]. unfold Qeq, Js.round_half_away. simpl. intros H.
  assert (a = z * Z.pos d) as -> by lia.
  assert ((2 * Z.abs (z * Z.pos d) + Z.pos d) / (2 * Z.pos d) = Z.abs z) as ->.
  { symmetry. apply Z.div_unique with (r := Z.pos d); [lia|].
    rewrite Z.abs_mul. rewrite (Z.abs_eq (Z.pos d)) by lia. lia. }
  rewrite Z.sgn_mul. change (Z.sgn (Z.pos d)) with 1.
  rewrite Z.mul_1_r. rewrite Z.mul_comm. apply Z.abs_sgn.
Qed.

Lemma to_integer_whole (q : Q) (z : Z) :
  Qeq q (inject_Z z) -> Js.to_integer (Js.finite q) = Ok z.
Proof.
  intros H. unfold Js.to_integer.
  rewrite (Qred_complete _ _ H).
  rewrite Qred_identity by apply Z.gcd_1_r. reflexivity.
Qed.

Lemma parseInt_empty : Js.parseInt "" = Js.NaN.
Proof. reflexivity. Qed.

Lemma parseFloat_empty : Js.parseFloat "" = Js.NaN.
Proof. reflexivity. Qed.

(** When [parseInt] and [parseFloat] read the same whole number [n] in
    the batch count and the cost is a whole number [k] of cents, the
    stored purchase is consistent: [total_cost] is [n] times the cost and
    [units_added] is [n] times the product's batch size. *)
Lemma restock_consistent_when_parses_agree
    (products : list Types.Product) (f : Restock.form) (product : Types.Product)
    (n k : Z) (r : StockPurchases.row) :
  Restock.selectedProductId f <> EmptyString ->
  Restock.selectedProduct products f = Some product ->
  Js.same (Js.parseInt (Restock.batchesPurchased f)) (Js.of_Z n) ->
  Js.same (Js.parseFloat (Restock.batchesPurchased f)) (Js.of_Z n) ->
  Js.same (Js.parseFloat (Restock.costPerBatch f)) (Js.of_cents k) ->
  Restock.row_of (Restock.payload products f) = Ok r ->
  StockPurchases.batches_purchased r = n /\
  StockPurchases.cost_per_batch r = k /\
  StockPurchases.total_cost r
    = StockPurchases.batches_purchased r * StockPurchases.cost_per_batch r /\
  StockPurchases.units_added r
    = StockPurchases.batches_purchased r * Types.units_per_batch product.
Proof.
  intros Hid Hsel Hint Hfloat Hcost.
  unfold Restock.row_of, Restock.payload, Restock.totalCost, Restock.unitsAdded,
    Restock.nonempty.
  cbn [Payload.batches_purchased Payload.cost_per_batch Payload.total_cost
       Payload.units_added Payload.product_id Payload.notes].
  rewrite Hsel.
  rewrite (bool_decide_eq_false_2 _ Hid).
  assert (Restock.batchesPurchased f <> EmptyString) as Hb.
  { intros E. rewrite E, parseInt_empty in Hint. exact Hint. }
  assert (Restock.costPerBatch f <> EmptyString) as Hc.
  { intros E. rewrite E, parseFloat_empty in Hcost. exact Hcost. }
  rewrite (bool_decide_eq_false_2 _ Hb), (bool_decide_eq_false_2 _ Hc). simpl.
  destruct (Js.parseInt (Restock.batchesPurchased f)) as [qi| |]; try done.
  destruct (Js.parseFloat (Restock.batchesPurchased f)) as [qf| |]; try done.
  destruct (Js.parseFloat (Restock.costPerBatch f)) as [qc| |]; try done.
  simpl in Hint, Hfloat, Hcost.
  rewrite (to_integer_whole qi n Hint). simpl.
  assert (Js.round_half_away (qc * 100) = k) as ->.
  { apply round_half_away_whole. rewrite Hcost. unfold Qeq. simpl. lia. }
  assert (Js.round_half_away (qf * qc * 100) = n * k) as ->.
  { apply round_half_away_whole. rewrite Hfloat, Hcost. unfold Qeq. simpl. lia. }
  assert (Qeq (inject_Z (Types.units_per_batch product) * qi)
              (inject_Z (n * Types.units_per_batch product))) as Hunits.
  { rewrite Hint. unfold Qeq. simpl. lia. }
  apply to_integer_whole in Hunits. unfold Js.to_integer in Hunits.
  simpl in Hunits. rewrite Hunits.
  simpl. intros H. injection H as <-. simpl. done.
Qed.

End RestockFacts.

Section RestockClaims.

Example parse_batches_exponent :
  Js.parseInt "1e2" = Js.finite 1 /\ Js.parseFloat "1e2" = Js.finite 100.
Proof. vm_compute. done. Qed.

Example parse_batches_plain :
  Js.parseInt "12" = Js.finite 12 /\ Js.parseFloat "12" = Js.finite 12.
Proof. vm_compute. done. Qed.

(** C6, at the input that breaks it.  With ["1e2"] typed as the number
    of batches and ["60"] as the cost per batch, for a product of 12
    units per batch, the restock is accepted and the stored purchase has
    1 batch at 60.00 with 12 units added, but a total cost of 6000.00:
    the total is computed from [parseFloat] of the batch count, the
    batch count and the units from [parseInt]. *)
Theorem restock_total_cost_from_parseFloat :
  ui ExponentScenario.out = [onSuccess] /\
  exists r,
    stock_purchases (store ExponentScenario.out)
      = stock_purchases Scenario.stocked ++ [r] /\
    StockPurchases.batches_purchased r = 1 /\
    StockPurchases.cost_per_batch r = 6000 /\
    StockPurchases.units_added r = 1 * 12 /\
    StockPurchases.total_cost r = 600000 /\
    StockPurchases.total_cost r
      <> StockPurchases.batches_purchased r * StockPurchases.cost_per_batch r.
Proof.
  split; [vm_compute; reflexivity|].
  eexists. split; [vm_compute; reflexivity|]. simpl. split_and!; done.
Qed.

End RestockClaims.

Section DashboardClaims.

Import Dashboard.

Lemma next_millisecond_same_day (D k : Z) :
  (D * 86400000 + k * 60000 + 1) / 86400000 = (D * 86400000 + k * 60000) / 86400000.
Proof.
  set (n := 1440 * D + k).
  replace (D * 86400000 + k * 60000 + 1) with (60000 * n + 1) by lia.
  replace (D * 86400000 + k * 60000) with (60000 * n) by lia.
  change 86400000 with (60000 * 1440).
  rewrite <- !Zdiv.Zdiv_Zdiv by lia.
  f_equal. rewrite (Z.mul_comm 60000 n).
  rewrite Z.div_add_l, Z.div_mul by lia.
  change (1 / 60000) with 0. lia.
Qed.

(** However the window is anchored, some date is in the day of the
    anchor for the list filter and outside the one-instant range of the
    query, or the other way round. *)
Lemma day_test_differs_from_instant_range (tz db_tz anchor : Z) (ymd : Z * Z * Z) :
  exists date,
    bool_decide (toDateString tz date = toDateString tz anchor)
    <> ((timestamptz_of_date db_tz ymd <=? date)
        && (date <=? timestamptz_of_date db_tz ymd)).
Proof.
  set (S := timestamptz_of_date db_tz ymd).
  destruct (decide (anchor = S)) as [->|Hne].
  - exists (S + 1).
    replace ((S <=? S + 1) && (S + 1 <=? S)) with false by lia.
    rewrite bool_decide_eq_true_2; [done|].
    unfold toDateString. f_equal.
    unfold S, timestamptz_of_date, msPerDay, msPerMinute.
    replace (days_from_civil ymd * 86400000 - db_tz * 60000 + 1 + tz * 60000)
      with (days_from_civil ymd * 86400000 + (tz - db_tz) * 60000 + 1) by lia.
    replace (days_from_civil ymd * 86400000 - db_tz * 60000 + tz * 60000)
      with (days_from_civil ymd * 86400000 + (tz - db_tz) * 60000) by lia.
    apply next_millisecond_same_day.
  - exists anchor.
    rewrite bool_decide_eq_true_2 by done.
    replace ((S <=? anchor) && (anchor <=? S)) with false by lia. done.
Qed.

(** The last millisecond of the local day of [anchor]. *)
Lemma last_millisecond_same_day (tz anchor : Z) :
  let L := (anchor + tz * 60000) / 86400000 in
  ((L + 1) * 86400000 - tz * 60000 - 1 + tz * 60000) / 86400000 = L.
Proof.
  intros L.
  replace ((L + 1) * 86400000 - tz * 60000 - 1 + tz * 60000)
    with (L * 86400000 + 86399999) by lia.
  rewrite Z.div_add_l by lia. change (86399999 / 86400000) with 0. lia.
Qed.

(** In the later revision some date of the anchor's local day falls
    after the last whole second the query asks for. *)
Lemma day_test_differs_from_second_range (tz anchor : Z) :
  exists date,
    bool_decide (DashboardRevised.startOfDay tz date = DashboardRevised.startOfDay tz anchor)
    <> ((DashboardRevised.startOfDay tz anchor <=? date)
        && (date <=? DashboardRevised.endOfDay tz anchor)).
Proof.
  set (S := DashboardRevised.startOfDay tz anchor).
  destruct ((S <=? anchor) && (anchor <=? DashboardRevised.endOfDay tz anchor)) eqn:E.
  - set (L := (anchor + tz * 60000) / 86400000).
    exists ((L + 1) * 86400000 - tz * 60000 - 1).
    assert (DashboardRevised.startOfDay tz ((L + 1) * 86400000 - tz * 60000 - 1) = S) as Hsame.
    { unfold S, DashboardRevised.startOfDay, toDateString, msPerDay, msPerMinute.
      do 4 f_equal. apply last_millisecond_same_day. }
    rewrite bool_decide_eq_true_2 by exact Hsame.
    assert (L * 86400000 <= anchor + tz * 60000 < (L + 1) * 86400000) as HL.
    { unfold L. pose proof (Z.div_mod (anchor + tz * 60000) 86400000 ltac:(lia)).
      pose proof (Z.mod_pos_bound (anchor + tz * 60000) 86400000 ltac:(lia)). lia. }
    unfold DashboardRevised.endOfDay in *. fold S in E |- *.
    change ((23 * 3600 + 59 * 60 + 59) * 1000) with 86399000 in *.
    unfold S, DashboardRevised.startOfDay, msPerDay, msPerMinute in *.
    set (D := days_from_civil (toDateString tz anchor)) in *.
    intros Heq. symmetry in Heq. apply andb_prop in Heq as [_ Hle]. lia.
  - exists anchor. rewrite bool_decide_eq_true_2 by done. fold S. rewrite E. done.
Qed.

(** C9.  Whatever the moment the dashboard runs at, and whatever the
    zones of the browser and of the store, there is a sale whose
    timestamp the recent-sales list filter ([isToday], a comparison of
    local calendar days) and the metrics query of [fetchFilteredData]
    (a range between two date strings cut from [toISOString()])
    classify differently for "today", and one for "yesterday"
    ([isYesterday]): the two membership tests are not the same function
    of the timestamp, and the list and the query disagree on that sale.
    The same holds in the later revision, whose query sends full ISO
    timestamps. *)
Theorem list_filter_and_query_disagree (tz db_tz now : Z) :
  (exists sale,
     in_list_filter tz now today (sale_date sale)
       <> in_query db_tz now today (sale_date sale) /\
     filterSalesByDate tz now [sale] today <> salesData db_tz now today [sale]) /\
  (exists sale,
     in_list_filter tz now yesterday_ (sale_date sale)
       <> in_query db_tz now yesterday_ (sale_date sale) /\
     filterSalesByDate tz now [sale] yesterday_ <> salesData db_tz now yesterday_ [sale]) /\
  (exists date,
     DashboardRevised.in_list_filter tz now today date
       <> DashboardRevised.in_query tz now today date) /\
  (exists date,
     DashboardRevised.in_list_filter tz now yesterday_ date
       <> DashboardRevised.in_query tz now yesterday_ date).
Proof.
  split_and!.
  - destruct (day_test_differs_from_instant_range tz db_tz now (toISODate now))
      as [date Hdate].
    exists {| id := ""; sale_date := date; total_amount := 0 |}.
    split; [exact Hdate|]. simpl. unfold salesData, isToday. simpl.
    remember (bool_decide (toDateString tz date = toDateString tz now)) as b1.
    remember ((timestamptz_of_date db_tz (toISODate now) <=? date)
              && (date <=? timestamptz_of_date db_tz (toISODate now))) as b2.
    destruct b1, b2; congruence.
  - destruct (day_test_differs_from_instant_range tz db_tz (yesterday now)
                (toISODate (yesterday now))) as [date Hdate].
    exists {| id := ""; sale_date := date; total_amount := 0 |}.
    split; [exact Hdate|]. simpl. unfold salesData, isYesterday. simpl.
    remember (bool_decide (toDateString tz date = toDateString tz (yesterday now))) as b1.
    remember ((timestamptz_of_date db_tz (toISODate (yesterday now)) <=? date)
              && (date <=? timestamptz_of_date db_tz (toISODate (yesterday now)))) as b2.
    destruct b1, b2; congruence.
  - apply day_test_differs_from_second_range.
  - apply (day_test_differs_from_second_range tz (yesterday now)).
Qed.

(** A sale at 10:00 UTC on the day the dashboard is opened at noon UTC
    is listed under "today" and is not returned by the "today" query. *)
Example morning_sale_today :
  in_list_filter 120 noon today (noon - 7200000) = true /\
  in_query 0 noon today (noon - 7200000) = false.
Proof. vm_compute. done. Qed.

(** In the later revision a sale in the last second of the local day,
    21:59:59.500 UTC, is listed under "today" and is not returned by the
    "today" query, which stops at 21:59:59.000 UTC. *)
Example last_second_sale_today :
  DashboardRevised.in_list_filter 120 noon today (noon + 35999500) = true /\
  DashboardRevised.in_query 120 noon today (noon + 35999500) = false /\
  DashboardRevised.in_query 120 noon today (noon + 35999000) = true.
Proof. vm_compute. done. Qed.

End DashboardClaims.

Section MetricsClaims.






(** Without the guard the margin of a product with no sale and no
    purchase would be [0 / 0 * 100]. *)
Example unguarded_margin_is_NaN :
  Js.mul (Js.div (Js.of_Z 0) (Js.of_Z 0)) (Js.of_Z 100) = Js.NaN.
Proof. reflexivity. Qed.


End MetricsClaims.


Section StatementFacts.

Import Ledger.

Lemma update_products_is_Some now set p tbl tbl' k :
  update_products now set p tbl = Ok tbl' ->
  is_Some (tbl' !! k) <-> is_Some (tbl !! k).
Proof.
  intros H. rewrite (update_products_lookup _ _ _ _ _ k H).
  case_bool_decide; [|done]. by rewrite fmap_is_Some.
Qed.

Lemma not_null_Ok c price cost units :
  Catalog.not_null c = Ok (price, cost, units) ->
  Catalog.unit_selling_price c = Some price /\
  Catalog.cost_per_batch c = Some cost /\
  Catalog.units_per_batch c = Some units.
Proof.
  unfold Catalog.not_null.
  destruct (Catalog.unit_selling_price c), (Catalog.cost_per_batch c),
    (Catalog.units_per_batch c); try discriminate.
  intros H. injection H as -> -> ->. done.
Qed.

Lemma insert_product_Ok now id c d d' :
  Catalog.insert_product now id c d = Ok d' ->
  products d !! id = None /\
  exists row,
    d' = with_products (<[id := row]> (products d)) d /\
    Products.domain row = true /\ Products.check row = true /\
    Products.current_stock row = 0 /\ Products.total_units_sold row = 0 /\
    Products.name row = Catalog.name c /\
    Products.description row = Catalog.description c /\
    Catalog.unit_selling_price c = Some (Products.unit_selling_price row) /\
    Catalog.cost_per_batch c = Some (Products.cost_per_batch row) /\
    Catalog.units_per_batch c = Some (Products.units_per_batch row) /\
    Products.created_at row = Some now /\ Products.updated_at row = Some now.
Proof.
  unfold Catalog.insert_product. intros H.
  destruct (Catalog.not_null c) as [[[price cost] units]|e] eqn:E; simpl in H; [|discriminate].
  apply not_null_Ok in E as (E1 & E2 & E3).
  destruct (Products.domain _) eqn:Hd; simpl in H; [|discriminate].
  destruct (Products.check _) eqn:Hc; simpl in H; [|discriminate].
  destruct (products d !! id) eqn:Hid; [discriminate|].
  injection H as <-. split; [done|]. eexists. split; [reflexivity|].
  split_and!; try done.
Qed.

Lemma update_product_Ok now id c d d' :
  Catalog.update_product now id c d = Ok d' ->
  (products d !! id = None /\ d' = d) \/
  (exists price cost units,
     Catalog.not_null c = Ok (price, cost, units) /\
     update_products now (Catalog.set_columns c price cost units) id (products d)
       = Ok (products d') /\
     stock_purchases d' = stock_purchases d /\
     sales d' = sales d /\
     sale_items d' = sale_items d).
Proof.
  unfold Catalog.update_product. intros H.
  destruct (products d !! id) eqn:Hid.
  - right.
    destruct (Catalog.not_null c) as [[[price cost] units]|e]; simpl in H; [|discriminate].
    destruct (update_products _ _ _ _) as [tbl|e] eqn:E; simpl in H; [|discriminate].
    injection H as <-. exists price, cost, units. simpl. done.
  - left. injection H as <-. done.
Qed.

(** What a statement that goes through does to the four tables. *)
Lemma execute_tables s d d' :
  execute s d = Ok d' ->
  (forall k, is_Some (products d !! k) -> is_Some (products d' !! k)) /\
  (forall k r', products d' !! k = Some r' ->
     products d !! k = Some r' \/
     (Products.domain r' = true /\ Products.check r' = true)) /\
  (exists new, stock_purchases d' = stock_purchases d ++ new /\
     Forall (fun r => StockPurchases.domain r = true /\ StockPurchases.check r = true /\
                      is_Some (products d' !! StockPurchases.product_id r)) new) /\
  (forall k, match s with delete_from_sales_where_id id => k <> id | _ => True end ->
     is_Some (sales d !! k) -> is_Some (sales d' !! k)) /\
  (forall k s', sales d' !! k = Some s' ->
     sales d !! k = Some s' \/ (Sales.domain s' = true /\ Sales.check s' = true)) /\
  (exists new, sale_items d'
     = match s with
       | delete_from_sales_where_id id =>
           filter (fun it => SaleItems.sale_id it <> id) (sale_items d)
       | _ => sale_items d ++ new
       end /\
     Forall (fun it => SaleItems.domain it = true /\ SaleItems.check it = true /\
                       is_Some (sales d' !! SaleItems.sale_id it) /\
                       is_Some (products d' !! SaleItems.product_id it)) new).
Proof.
  destruct s as [now id c|now id c|now r|now id r|now rows|now p q|id]; simpl; intros H.
  - apply insert_product_Ok in H as (Hfresh & row & -> & Hd & Hc & _). simpl.
    split_and!; try done.
    + intros k Hk. destruct (decide (k = id)) as [->|Hne].
      * by rewrite lookup_insert_eq.
      * by rewrite lookup_insert_ne.
    + intros k r' Hk. destruct (decide (k = id)) as [->|Hne].
      * rewrite lookup_insert_eq in Hk. injection Hk as <-. by right.
      * rewrite lookup_insert_ne in Hk by done. by left.
    + exists []. by rewrite app_nil_r.
    + auto.
    + exists []. by rewrite app_nil_r.
  - apply update_product_Ok in H as [[_ ->]|(price & cost & units & _ & H & H1 & H2 & H3)].
    + split_and!; auto; exists []; by rewrite app_nil_r.
    + rewrite H1, H2, H3. split_and!; auto.
      * intros k Hk. by apply (update_products_is_Some _ _ _ _ _ k H).
      * intros k r' Hk. destruct (decide (k = id)) as [->|Hne].
        -- right. eapply update_products_checked; eauto.
        -- left. rewrite (update_products_lookup _ _ _ _ _ k H) in Hk.
           by rewrite bool_decide_eq_false_2 in Hk.
      * exists []. by rewrite app_nil_r.
      * exists []. by rewrite app_nil_r.
  - pose proof H as H0. unfold insert_stock_purchase in H0.
    destruct (StockPurchases.domain r) eqn:Hd; simpl in H0; [|discriminate].
    destruct (StockPurchases.check r) eqn:Hc; simpl in H0; [|discriminate].
    destruct (products d !! StockPurchases.product_id r) eqn:Hp; [|discriminate].
    clear H0.
    apply insert_stock_purchase_Ok in H as (H & H1 & H2 & H3).
    unfold update_stock_on_purchase in H. rewrite H1, H2, H3.
    split_and!; auto.
    + intros k Hk. by apply (update_products_is_Some _ _ _ _ _ k H).
    + intros k r' Hk.
      destruct (decide (k = StockPurchases.product_id (stored_purchase (now, r)))) as [->|Hne].
      * right. eapply update_products_checked; eauto.
      * left. rewrite (update_products_lookup _ _ _ _ _ k H) in Hk.
        by rewrite bool_decide_eq_false_2 in Hk.
    + eexists. split; [reflexivity|]. constructor; [|done]. simpl.
      split_and!; try done.
      apply (update_products_is_Some _ _ _ _ _ (StockPurchases.product_id r) H).
      by rewrite Hp.
    + exists []. by rewrite app_nil_r.
  - pose proof H as H0. unfold insert_sale in H0.
    destruct (Sales.domain r) eqn:Hd; simpl in H0; [|discriminate].
    destruct (Sales.check r) eqn:Hc; simpl in H0; [|discriminate].
    clear H0.
    apply insert_sale_Ok in H as (Hfresh & (s & Hs & Htot) & H1 & H2 & H3).
    rewrite H1, H2, H3, Hs. split_and!; auto.
    + exists []. by rewrite app_nil_r.
    + intros k _ Hk. destruct (decide (k = id)) as [->|Hne].
      * by rewrite lookup_insert_eq.
      * by rewrite lookup_insert_ne.
    + intros k s' Hk. destruct (decide (k = id)) as [->|Hne].
      * rewrite lookup_insert_eq in Hk. injection Hk as <-. right.
        unfold Sales.domain, Sales.check in *. by rewrite Htot.
      * rewrite lookup_insert_ne in Hk by done. by left.
    + exists []. by rewrite app_nil_r.
  - revert d H. unfold insert_sale_items.
    induction rows as [|r rest IH]; intros d H; simpl in H.
    + injection H as <-. split_and!; auto; exists []; by rewrite app_nil_r.
    + destruct (insert_sale_item now r d) as [d1|e] eqn:E; simpl in H; [|discriminate].
      destruct (IH _ H) as (I1 & I2 & (np & I3 & _) & I4 & I5 & (ni & I6 & I7)).
      pose proof E as E0. unfold insert_sale_item in E0.
      destruct (SaleItems.domain r) eqn:Hd; simpl in E0; [|discriminate].
      destruct (SaleItems.check r) eqn:Hc; simpl in E0; [|discriminate].
      destruct (sales d !! SaleItems.sale_id r) eqn:Hs; [|discriminate].
      destruct (products d !! SaleItems.product_id r) eqn:Hp; [|discriminate].
      clear E0.
      apply insert_sale_item_Ok in E as (_ & E & E1 & E2 & E3).
      unfold update_stock_on_sale in E.
      split_and!.
      * intros k Hk. apply I1. by apply (update_products_is_Some _ _ _ _ _ k E).
      * intros k r' Hk. destruct (I2 _ _ Hk) as [Hk1|?]; [|by right].
        destruct (decide (k = SaleItems.product_id r)) as [->|Hne].
        -- right. eapply update_products_checked; eauto.
        -- left. rewrite (update_products_lookup _ _ _ _ _ k E) in Hk1.
           by rewrite bool_decide_eq_false_2 in Hk1.
      * exists []. rewrite I3.
        assert (np = []) as ->.
        { apply insert_sale_items_effect in H as (_ & _ & _ & H & _).
          rewrite H in I3. by apply app_inv_head with (l := stock_purchases d1);
            rewrite app_nil_r. }
        rewrite E1. done.
      * intros k _ Hk. apply I4; [done|]. by rewrite E2.
      * intros k s' Hk. destruct (I5 _ _ Hk) as [Hk1|?]; [|by right].
        left. by rewrite <- E2.
      * exists (r :: ni). rewrite I6, E3, <- app_assoc. split; [done|].
        constructor; [|done]. split_and!; try done.
        -- apply I4; [done|]. by rewrite E2, Hs.
        -- apply I1. apply (update_products_is_Some _ _ _ _ _ _ E). by rewrite Hp.
  - apply restore_Ok in H as (_ & H & H1 & H2 & H3). rewrite H1, H2, H3.
    split_and!; auto.
    + intros k Hk. by apply (update_products_is_Some _ _ _ _ _ k H).
    + intros k r' Hk. destruct (decide (k = p)) as [->|Hne].
      * right. eapply update_products_checked; eauto.
      * left. rewrite (update_products_lookup _ _ _ _ _ k H) in Hk.
        by rewrite bool_decide_eq_false_2 in Hk.
    + exists []. by rewrite app_nil_r.
    + exists []. by rewrite app_nil_r.
  - injection H as <-. simpl. split_and!; auto.
    + exists []. by rewrite app_nil_r.
    + intros k Hne Hk. by rewrite lookup_delete_ne.
    + intros k s' Hk. left. apply lookup_delete_Some in Hk as [_ ?]. done.
    + by exists [].
Qed.

End StatementFacts.

Section ReachFacts.

Import Ledger.

Lemma Forall_filter_keep {A : Type} (P Q : A -> Prop) `{forall x, Decision (Q x)} (l : list A) :
  Forall P l -> Forall (fun x => P x /\ Q x) (filter Q l).
Proof.
  induction 1 as [|x l Hx _ IH]; [constructor|].
  destruct (decide (Q x)).
  - rewrite filter_cons_True by done. by constructor.
  - by rewrite filter_cons_False.
Qed.

Lemma execute_constraints s d d' :
  execute s d = Ok d' -> db_constraints d -> db_constraints d'.
Proof.
  intros H (Hv & (Hi & Hp & Hs) & (Ri & Rp)).
  destruct (execute_tables _ _ _ H)
    as (I1 & I2 & (np & I3 & I3') & I4 & I5 & (ni & I6 & I6')).
  assert (products_valid d') as Hv'.
  { intros k r' Hk. destruct (I2 _ _ Hk) as [Hk0|?]; [eauto|done]. }
  assert (Forall (fun r => StockPurchases.domain r = true /\ StockPurchases.check r = true)
            (stock_purchases d') /\
          Forall (fun r => is_Some (products d' !! StockPurchases.product_id r))
            (stock_purchases d')) as [Hp' Rp'].
  { rewrite I3. split; apply Forall_app; split.
    - done.
    - eapply Forall_impl; [exact I3'|]. by intros r (? & ? & _).
    - eapply Forall_impl; [exact Rp|]. intros r Hr. by apply I1.
    - eapply Forall_impl; [exact I3'|]. by intros r (_ & _ & ?). }
  assert (forall k s', sales d' !! k = Some s' ->
            Sales.domain s' = true /\ Sales.check s' = true) as Hs'.
  { intros k s' Hk. destruct (I5 _ _ Hk) as [Hk0|?]; [eauto|done]. }
  assert (Forall (fun it => SaleItems.domain it = true /\ SaleItems.check it = true)
            (sale_items d') /\
          Forall (fun it => is_Some (sales d' !! SaleItems.sale_id it) /\
                            is_Some (products d' !! SaleItems.product_id it))
            (sale_items d')) as [Hi' Ri'].
  { destruct s; try (rewrite I6; split; apply Forall_app; split;
      [ done
      | eapply Forall_impl; [exact I6'|]; by intros it (? & ? & _)
      | eapply Forall_impl; [exact Ri|]; intros it [? ?]; split; [by apply I4|by apply I1]
      | eapply Forall_impl; [exact I6'|]; by intros it (_ & _ & ? & ?) ]).
    rewrite I6. split.
    - eapply Forall_impl; [apply (Forall_filter_keep _ _ _ Hi)|]. by intros it [? _].
    - eapply Forall_impl; [apply (Forall_filter_keep _ _ _ Ri)|].
      intros it [[? ?] Hne]. split; [by apply I4|by apply I1]. }
  by split_and!.
Qed.

Lemma reaches_constraints d d' :
  reaches d d' -> db_constraints d -> db_constraints d'.
Proof.
  induction 1 as [|s d1 d2 d3 H _ IH]; [done|].
  intros Hc. apply IH. eapply execute_constraints; eauto.
Qed.

Lemma reaches_trans d1 d2 d3 : reaches d1 d2 -> reaches d2 d3 -> reaches d1 d3.
Proof.
  induction 1 as [|s a b c H _ IH]; [done|].
  intros H3. eapply reaches_next; eauto.
Qed.

Lemma reaches_one s d d' : execute s d = Ok d' -> reaches d d'.
Proof. intros H. eapply reaches_next; [exact H|constructor]. Qed.

Lemma restore_loop_reaches clock items : forall k d,
  reaches d (EditSale.restore_loop clock k items d).
Proof.
  induction items as [|item rest IH]; intros k d; simpl; [constructor|].
  destruct (restore_stock_on_sale_delete (clock k) (SaleItems.product_id item)
              (SaleItems.quantity item) d) as [d1|e] eqn:E; simpl.
  - eapply reaches_next; [|apply IH].
    exact (E : execute (select_restore_stock_on_sale_delete _ _ _) d = Ok d1).
  - apply IH.
Qed.

(** Whatever a form submission does to the database, it does through
    statements that went through. *)
Lemma perform_reaches a d : reaches d (perform a d).
Proof.
  destruct a as [now uuid f|now product f|now products f
                |clock uuid products lineItems notes|confirmed clock saleId]; simpl.
  - unfold AddProduct.handleSubmit, AddProduct.insert.
    destruct (Catalog.columns_of _) as [c|e]; simpl; [|constructor].
    destruct (Catalog.insert_product now uuid c d) as [d'|e] eqn:E; simpl; [|constructor].
    exact (reaches_one (insert_into_products now uuid c) _ _ E).
  - unfold EditProduct.handleSubmit, EditProduct.update.
    destruct (Catalog.columns_of _) as [c|e]; simpl; [|constructor].
    destruct (Catalog.update_product now _ c d) as [d'|e] eqn:E; simpl; [|constructor].
    exact (reaches_one (update_products_where_id now _ c) _ _ E).
  - unfold Restock.handleSubmit, Restock.insert.
    destruct (Restock.selectedProduct products f); simpl; [|constructor].
    destruct (Restock.row_of _) as [r|e]; simpl; [|constructor].
    destruct (insert_stock_purchase now r d) as [d'|e] eqn:E; simpl; [|constructor].
    exact (reaches_one (insert_into_stock_purchases now r) _ _ E).
  - unfold RecordSale.handleSubmit.
    destruct (RecordSale.valid _); simpl; [|constructor].
    destruct (existsb _ lineItems); simpl; [constructor|].
    destruct (insert_sale _ uuid _ d) as [d1|e] eqn:E1; simpl; [|constructor].
    pose proof (reaches_one (insert_into_sales _ uuid _) _ _ E1) as R1.
    destruct (RecordSale.saleItems products uuid lineItems) as [rows|]; simpl; [|done].
    destruct (insert_sale_items _ rows d1) as [d2|e] eqn:E2; simpl; [|done].
    eapply reaches_trans; [exact R1|].
    exact (reaches_one (insert_into_sale_items _ rows) _ _ E2).
  - unfold EditSale.handleDelete. destruct confirmed; simpl; [|constructor].
    eapply reaches_trans; [apply restore_loop_reaches|].
    exact (reaches_one (delete_from_sales_where_id saleId) _ _ eq_refl).
Qed.

Lemma perform_all_reaches acts : forall d, reaches d (perform_all acts d).
Proof.
  unfold perform_all.
  induction acts as [|a rest IH]; intros d; simpl; [constructor|].
  eapply reaches_trans; [apply perform_reaches|apply IH].
Qed.

Lemma empty_db_constraints : db_constraints empty_db.
Proof.
  unfold db_constraints, products_valid, rows_valid, references_ok. simpl.
  split_and!; try apply Forall_nil_2; intros ? ? H; by rewrite lookup_empty in H.
Qed.

End ReachFacts.

Section JournalFacts.

Example journal_opening :
  Ledger.stock_of Scenario.P (perform_all Journal.opening empty_db) = Some 24 /\
  products (perform_all Journal.opening empty_db) = products Scenario.stocked.
Proof. vm_compute. done. Qed.

Example journal_day :
  Ledger.stock_of Scenario.P (perform_all (Journal.opening ++ Journal.selling) empty_db)
    = Some 19 /\
  Ledger.sold_of Scenario.P (perform_all (Journal.opening ++ Journal.selling) empty_db)
    = Some 5 /\
  Ledger.stock_of Scenario.P (perform_all Journal.day empty_db) = Some 24 /\
  Ledger.sold_of Scenario.P (perform_all Journal.day empty_db) = Some 0 /\
  sale_items (perform_all Journal.day empty_db) = [].
Proof. vm_compute. done. Qed.

End JournalFacts.

Section ConstraintClaims.

(** X1.  Starting from a database that satisfies what the schema
    declares (column types, CHECKs, REFERENCES), any sequence of
    submissions of the five forms, whatever is typed and however stale
    the snapshots are, leaves a database that satisfies it too; so no
    product ever shows a negative stock or a negative number of units
    sold, or a batch size below one. *)
Theorem forms_keep_declared_constraints (acts : list action) (d : db) :
  db_constraints d ->
  db_constraints (perform_all acts d) /\
  forall p r, products (perform_all acts d) !! p = Some r ->
    0 <= Products.current_stock r /\
    0 <= Products.total_units_sold r /\
    0 < Products.units_per_batch r.
Proof.
  intros Hc.
  pose proof (reaches_constraints _ _ (perform_all_reaches acts d) Hc) as Hc'.
  split; [exact Hc'|].
  intros p r Hr. destruct Hc' as (Hv & _). destruct (Hv _ _ Hr) as [_ Hk].
  unfold Products.check in Hk. repeat (apply andb_prop in Hk as [Hk ?]). lia.
Qed.

Lemma forms_keep_declared_constraints_witness :
  db_constraints (perform_all Journal.day empty_db).
Proof.
  exact (proj1 (forms_keep_declared_constraints Journal.day empty_db empty_db_constraints)).
Defined.

End ConstraintClaims.

Section ConservationFacts.

Import Ledger.

Lemma sumZ_app {A : Type} (f : A -> Z) (l1 l2 : list A) :
  sumZ f (l1 ++ l2) = sumZ f l1 + sumZ f l2.
Proof. induction l1 as [|x l1 IH]; simpl; lia. Qed.



Lemma counters_split p d d' ds du :
  stock_of p d' = (fun s => s + ds) <$> stock_of p d ->
  sold_of p d' = (fun s => s + du) <$> sold_of p d ->
  counters_of p d' = moved ds du <$> counters_of p d.
Proof.
  unfold stock_of, sold_of, counters_of, moved.
  destruct (products d' !! p), (products d !! p); simpl; try done.
  intros H1 H2. injection H1 as H1. injection H2 as H2. simpl. by rewrite H1, H2.
Qed.

Lemma update_columns_counters now id c price cost units tbl tbl' p :
  update_products now (Catalog.set_columns c price cost units) id tbl = Ok tbl' ->
  (fun r => (Products.current_stock r, Products.total_units_sold r)) <$> tbl' !! p
  = (fun r => (Products.current_stock r, Products.total_units_sold r)) <$> tbl !! p.
Proof.
  intros H. rewrite (update_products_lookup _ _ _ _ _ p H).
  case_bool_decide; [|done]. by destruct (tbl !! p).
Qed.

(** How a statement that went through moves the counters of [p] and
    what it adds to the two lists the counters are derived from. *)
Lemma execute_counters s d d' p :
  execute s d = Ok d' ->
  is_Some (products d !! p) ->
  exists bought sold_now,
    counters_of p d' = moved (bought - sold_now) sold_now <$> counters_of p d /\
    (exists new, stock_purchases d' = stock_purchases d ++ new /\
                 bought = sumZ (units_added_of p) new) /\
    match s with
    | select_restore_stock_on_sale_delete _ p' q =>
        sold_now = - (if bool_decide (p' = p) then q else 0) /\
        sale_items d' = sale_items d
    | delete_from_sales_where_id id =>
        sold_now = 0 /\
        sale_items d' = filter (fun it => SaleItems.sale_id it <> id) (sale_items d)
    | _ =>
        exists new, sale_items d' = sale_items d ++ new /\
                    sold_now = sumZ (quantity_of p) new
    end.
Proof.
  intros H Hp.
  assert (counters_of p d = moved (0 - 0) 0 <$> counters_of p d) as Hsame.
  { unfold counters_of, moved. destruct (products d !! p); simpl; [|done].
    f_equal. f_equal; lia. }
  destruct s as [now id c|now id c|now r|now id r|now rows|now p' q|id]; simpl in H.
  - apply insert_product_Ok in H as (Hfresh & row & -> & _).
    exists 0, 0. split_and!.
    + rewrite <- Hsame. unfold counters_of. simpl.
      rewrite lookup_insert_ne; [done|].
      intros ->. rewrite Hfresh in Hp. by destruct Hp.
    + exists []. by rewrite app_nil_r.
    + exists []. by rewrite app_nil_r.
  - apply update_product_Ok in H as [[_ ->]|(price & cost & units & _ & H & H1 & H2 & H3)].
    + exists 0, 0. split_and!; [done| |]; exists []; by rewrite app_nil_r.
    + exists 0, 0. split_and!.
      * rewrite <- Hsame. unfold counters_of. eapply update_columns_counters; eauto.
      * exists []. by rewrite app_nil_r.
      * exists []. by rewrite app_nil_r.
  - pose proof (insert_stock_purchase_effect _ _ _ _ p H) as (Hs & Hu & _).
    apply insert_stock_purchase_Ok in H as (_ & H1 & _ & H3).
    exists (units_added_of p r), 0. split_and!.
    + apply counters_split.
      * rewrite Hs. destruct (stock_of p d); simpl; f_equal; lia.
      * rewrite Hu. destruct (sold_of p d); simpl; f_equal; lia.
    + eexists. split; [exact H1|]. simpl. unfold units_added_of. simpl. lia.
    + exists []. by rewrite app_nil_r.
  - apply insert_sale_Ok in H as (_ & _ & H1 & H2 & H3).
    exists 0, 0. split_and!.
    + rewrite <- Hsame. unfold counters_of. by rewrite H1.
    + exists []. by rewrite app_nil_r.
    + exists []. by rewrite app_nil_r.
  - apply insert_sale_items_effect in H as (_ & _ & Hc & H1 & _ & H3).
    destruct (Hc p) as [Hs Hu].
    exists 0, (sumZ (quantity_of p) rows). split_and!.
    + apply counters_split; [|done].
      rewrite Hs. destruct (stock_of p d); simpl; f_equal; lia.
    + exists []. by rewrite app_nil_r.
    + by exists rows.
  - destruct (restore_counters _ _ _ _ _ p H) as [Hs Hu].
    apply restore_Ok in H as (_ & _ & H1 & _ & H3).
    exists 0, (- (if bool_decide (p' = p) then q else 0)). split_and!; try done.
    + apply counters_split.
      * rewrite Hs. destruct (stock_of p d); simpl; f_equal; lia.
      * rewrite Hu. destruct (sold_of p d); simpl; f_equal; lia.
    + exists []. by rewrite app_nil_r.
  - injection H as <-. simpl.
    exists 0, 0. split_and!; try done. exists []. by rewrite app_nil_r.
Qed.

Lemma reaches_units_conserved d d' p :
  reaches d d' ->
  is_Some (products d !! p) ->
  exists new delta,
    stock_purchases d' = stock_purchases d ++ new /\
    counters_of p d'
      = moved (sumZ (units_added_of p) new - delta) delta <$> counters_of p d.
Proof.
  induction 1 as [d|s d1 d2 d3 H _ IH]; intros Hp.
  - exists [], 0. rewrite app_nil_r. split; [done|].
    unfold counters_of, moved. destruct (products d !! p); simpl; [|done].
    f_equal. f_equal; lia.
  - destruct (execute_counters _ _ _ p H Hp) as (b & u & Hc & (new & Hn & ->) & _).
    assert (is_Some (products d2 !! p)) as Hp2.
    { by apply (proj1 (execute_tables _ _ _ H)). }
    destruct (IH Hp2) as (new' & delta & Hn' & Hc').
    exists (new ++ new'), (u + delta). split.
    + by rewrite Hn', Hn, <- app_assoc.
    + rewrite Hc', Hc, sumZ_app. unfold moved.
      destruct (counters_of p d1) as [[s0 u0]|]; simpl; [|done].
      f_equal. f_equal; lia.
Qed.

End ConservationFacts.

Section ConservationClaims.

(** X2.  Units are neither made nor lost by the forms: over any sequence
    of submissions, for a product that is there from the start,
    [current_stock + total_units_sold] grows by exactly the
    [units_added] of the purchases recorded for it in the meantime;
    sales, deletions of sales and edits leave that sum alone, also when
    a restore call is rejected along the way. *)
Theorem forms_conserve_units (acts : list action) (d : db) (p : string) (r : Products.row) :
  products d !! p = Some r ->
  exists r' new,
    products (perform_all acts d) !! p = Some r' /\
    stock_purchases (perform_all acts d) = stock_purchases d ++ new /\
    Products.current_stock r' + Products.total_units_sold r'
      = Products.current_stock r + Products.total_units_sold r
        + sumZ (units_added_of p) new.
Proof.
  intros Hr.
  destruct (reaches_units_conserved _ _ p (perform_all_reaches acts d))
    as (new & delta & Hn & Hc); [by rewrite Hr|].
  unfold counters_of, moved in Hc. rewrite Hr in Hc. simpl in Hc.
  destruct (products (perform_all acts d) !! p) as [r'|]; [|discriminate].
  simpl in Hc. injection Hc as Hs Hu.
  exists r', new. split_and!; try done. lia.
Qed.

Lemma forms_conserve_units_witness :
  exists r' new,
    products (perform_all (Journal.selling ++ Journal.undoing) Scenario.stocked)
      !! Scenario.P = Some r' /\
    stock_purchases (perform_all (Journal.selling ++ Journal.undoing) Scenario.stocked)
      = stock_purchases Scenario.stocked ++ new /\
    Products.current_stock r' + Products.total_units_sold r' = 24 + 0 + sumZ (units_added_of Scenario.P) new.
Proof.
  apply (forms_conserve_units (Journal.selling ++ Journal.undoing) Scenario.stocked
           Scenario.P
           (Ledger.update_product_updated_at 1000 (Ledger.set_counters 24 0 Scenario.P_row))).
  vm_compute. reflexivity.
Defined.

End ConservationClaims.

Section ConsistencyFacts.

Import Ledger.











End ConsistencyFacts.

Section ConsistencyClaims.



End ConsistencyClaims.

Section DeleteMoreFacts.

Import Ledger.





End DeleteMoreFacts.

Section DeleteMoreClaims.

Import Ledger.






End DeleteMoreClaims.

Section SaleFormFacts.

Import RecordSale SaleForm.

Lemma step_ids products e l :
  forall i, In i (map id (step products e l)) ->
    In i (map id l) \/ (exists uuid, e = add_item uuid /\ i = uuid).
Proof.
  intros i. destruct e as [uuid|i'|i' v|i'|i']; simpl.
  - unfold addLineItem. rewrite map_app, in_app_iff. simpl.
    intros [?|[<-|[]]]; [by left|right; eauto].
  - unfold removeLineItem. destruct (1 <? length l)%nat; [|by left].
    rewrite !in_map_iff. intros (x & <- & Hx). apply filter_In in Hx as [Hx _].
    left. eauto.
  - unfold updateLineItem_product_id. rewrite map_map. intros H. left.
    erewrite map_ext; [exact H|]. intros x. simpl. by case_bool_decide.
  - unfold incrementQuantity. rewrite map_map. intros H. left.
    erewrite map_ext; [exact H|]. intros x. simpl. by case_bool_decide.
  - unfold decrementQuantity. rewrite map_map. intros H. left.
    erewrite map_ext; [exact H|]. intros x. simpl. by case_bool_decide.
Qed.

Lemma filter_one_out (i : string) (l : list SaleLineItem) :
  List.NoDup (map id l) -> (1 < length l)%nat ->
  List.filter (fun item => negb (bool_decide (id item = i))) l <> [].
Proof.
  destruct l as [|a [|b rest]]; simpl; try lia.
  intros Hnd _.
  destruct (decide (id a = i)) as [Ha|Ha].
  - rewrite (bool_decide_eq_true_2 _ Ha). simpl.
    assert (id b <> i) as Hb.
    { intros Hb. inversion Hnd as [|? ? Hin _]; subst. apply Hin. left. congruence. }
    by rewrite (bool_decide_eq_false_2 _ Hb).
  - by rewrite (bool_decide_eq_false_2 _ Ha).
Qed.

Lemma step_NoDup products e l :
  List.NoDup (map id l) ->
  (forall uuid, e = add_item uuid -> ~ In uuid (map id l)) ->
  List.NoDup (map id (step products e l)).
Proof.
  intros Hnd Hfresh. destruct e as [uuid|i'|i' v|i'|i']; simpl.
  - unfold addLineItem. rewrite map_app. simpl.
    apply NoDup_ListNoDup, NoDup_app. split_and!.
    + by apply NoDup_ListNoDup.
    + intros x Hx Hx'. apply list_elem_of_In in Hx, Hx'. destruct Hx' as [Hx'|[]].
      subst x. by apply (Hfresh uuid).
    + apply NoDup_ListNoDup. repeat constructor. intros [].
  - unfold removeLineItem. destruct (1 <? length l)%nat; [|done].
    clear Hfresh. induction l as [|a l IH]; simpl; [constructor|].
    inversion Hnd as [|? ? Hin Hnd']; subst.
    destruct (negb (bool_decide (id a = i'))); simpl; [|by apply IH].
    constructor; [|by apply IH].
    rewrite in_map_iff. intros (x & Hx & Hin'). apply filter_In in Hin' as [Hin' _].
    apply Hin. rewrite in_map_iff. eauto.
  - unfold updateLineItem_product_id. rewrite map_map.
    erewrite map_ext; [exact Hnd|]. intros x. simpl. by case_bool_decide.
  - unfold incrementQuantity. rewrite map_map.
    erewrite map_ext; [exact Hnd|]. intros x. simpl. by case_bool_decide.
  - unfold decrementQuantity. rewrite map_map.
    erewrite map_ext; [exact Hnd|]. intros x. simpl. by case_bool_decide.
Qed.

Lemma step_nonempty products e l :
  List.NoDup (map id l) -> l <> [] -> step products e l <> [].
Proof.
  intros Hnd Hne. destruct e as [uuid|i'|i' v|i'|i']; simpl.
  - unfold addLineItem. by destruct l.
  - unfold removeLineItem. destruct (1 <? length l)%nat eqn:E; [|done].
    apply filter_one_out; [done|]. by apply Nat.ltb_lt.
  - unfold updateLineItem_product_id. by destruct l.
  - unfold incrementQuantity. by destruct l.
  - unfold decrementQuantity. by destruct l.
Qed.

Lemma step_quantities products e l :
  Forall (fun product => 0 <= Types.current_stock product) products ->
  Forall (fun item => 0 <= quantity item) l ->
  Forall (fun item => 0 <= quantity item) (step products e l).
Proof.
  intros Hstock Hq. destruct e as [uuid|i'|i' v|i'|i']; simpl.
  - unfold addLineItem. apply Forall_app. split; [done|]. repeat constructor. simpl. lia.
  - unfold removeLineItem. destruct (1 <? length l)%nat; [|done].
    apply Forall_forall. intros x Hx. apply list_elem_of_In, filter_In in Hx as [Hx _].
    rewrite Forall_forall in Hq. apply Hq. by apply list_elem_of_In.
  - unfold updateLineItem_product_id. apply Forall_map.
    eapply Forall_impl; [exact Hq|]. intros x Hx. simpl. by case_bool_decide.
  - unfold incrementQuantity. apply Forall_map.
    eapply Forall_impl; [exact Hq|]. intros x Hx. simpl in Hx |- *.
    case_bool_decide; [|done]. simpl.
    destruct (find_product products (product_id x)) as [product|] eqn:E; [|lia].
    apply find_some in E as [Hin _].
    rewrite Forall_forall in Hstock. specialize (Hstock product).
    assert (0 <= Types.current_stock product) by (apply Hstock; by apply list_elem_of_In).
    lia.
  - unfold decrementQuantity. apply Forall_map.
    eapply Forall_impl; [exact Hq|]. intros x Hx. simpl in Hx |- *.
    case_bool_decide; [|done]. simpl. lia.
Qed.

Lemma steps_invariant products es : forall l,
  Forall (fun product => 0 <= Types.current_stock product) products ->
  List.NoDup (map id l ++ drawn es) ->
  l <> [] -> Forall (fun item => 0 <= quantity item) l ->
  steps products es l <> [] /\
  Forall (fun item => 0 <= quantity item) (steps products es l) /\
  List.NoDup (map id (steps products es l)).
Proof.
  unfold steps.
  induction es as [|e rest IH]; intros l Hstock Hnd Hne Hq; simpl.
  - rewrite app_nil_r in Hnd. done.
  - assert (List.NoDup (map id l)) as Hnd0.
    { apply NoDup_ListNoDup in Hnd. apply NoDup_app in Hnd as (? & _).
      by apply NoDup_ListNoDup. }
    apply IH; [done| |by apply step_nonempty|by apply step_quantities].
    apply NoDup_ListNoDup. apply NoDup_ListNoDup in Hnd.
    destruct e as [uuid|i'|i' v|i'|i'];
      try (apply NoDup_app in Hnd as (H1 & H2 & H3); apply NoDup_app; split_and!;
           [ apply NoDup_ListNoDup; apply step_NoDup;
               [by apply NoDup_ListNoDup|intros ? ?; discriminate]
           | intros x Hx; apply H2; apply list_elem_of_In in Hx;
             apply list_elem_of_In; by destruct (step_ids _ _ _ _ Hx) as [?|(? & ? & _)]
           | done ]).
    simpl in *. unfold addLineItem. rewrite map_app. simpl. rewrite <- app_assoc. simpl.
    exact Hnd.
Qed.

End SaleFormFacts.

Section SaleFormClaims.

Import RecordSale SaleForm.

Lemma calculateTotal_from products lineItems : forall acc,
  Forall (fun item => 0 <= quantity item) lineItems ->
  fold_left
    (fun total item =>
       match find_product products (product_id item) with
       | Some product =>
           if 0 <? quantity item
           then total + Types.unit_selling_price product * quantity item
           else total
       | None => total
       end)
    lineItems acc
  = acc + sumZ (subtotal products) lineItems.
Proof.
  induction lineItems as [|item rest IH]; intros acc Hq; simpl; [lia|].
  inversion Hq as [|? ? Hitem Hrest]; subst.
  rewrite (IH _ Hrest). unfold subtotal at 2.
  destruct (find_product products (product_id item)); [|lia].
  destruct (0 <? quantity item) eqn:E; [lia|].
  apply Z.ltb_ge in E. assert (quantity item = 0) as -> by lia. lia.
Qed.

(** X7.  Whatever the operator does to the lines of the sale form (add a
    line, remove one, select a product, plus, minus), as long as the
    stock in the snapshot is not negative and the keys drawn for the
    lines are distinct: the form keeps at least one line, the lines keep
    distinct keys, no quantity is negative, and the total shown is the
    sum of the subtotals of the lines. *)
Theorem sale_form_keeps_a_line_and_its_total
    (products : list Types.Product) (uuid : string) (es : list event) :
  Forall (fun product => 0 <= Types.current_stock product) products ->
  List.NoDup (uuid :: drawn es) ->
  let lineItems := steps products es (initial uuid) in
  lineItems <> [] /\
  List.NoDup (map id lineItems) /\
  Forall (fun item => 0 <= quantity item) lineItems /\
  calculateTotal products lineItems = sumZ (subtotal products) lineItems.
Proof.
  intros Hstock Hnd lineItems.
  destruct (steps_invariant products es (initial uuid)) as (Hne & Hq & Hids);
    [done|exact Hnd|done|repeat constructor; simpl; lia|].
  split_and!; try done.
  unfold calculateTotal. rewrite calculateTotal_from; [lia|done].
Qed.

Lemma sale_form_keeps_a_line_and_its_total_witness :
  let lineItems :=
    steps [Scenario.P_snapshot]
      [select_product "l-1" Scenario.P; plus "l-1"; add_item "l-2"; remove_item "l-1";
       remove_item "l-2"; minus "l-2"]
      (initial "l-1") in
  lineItems <> [] /\
  List.NoDup (map id lineItems) /\
  Forall (fun item => 0 <= quantity item) lineItems /\
  calculateTotal [Scenario.P_snapshot] lineItems
    = sumZ (subtotal [Scenario.P_snapshot]) lineItems.
Proof.
  apply (sale_form_keeps_a_line_and_its_total [Scenario.P_snapshot] "l-1").
  - repeat constructor. vm_compute. discriminate.
  - simpl. apply NoDup_ListNoDup, (bool_decide_unpack _). vm_compute. exact I.
Defined.

End SaleFormClaims.

Section SubmitFacts.

Import RecordSale.

Lemma line_quantities (p : string) : forall (rows : list SaleItems.row) lineItems,
  map SaleItems.product_id rows = map product_id lineItems ->
  map SaleItems.quantity rows = map quantity lineItems ->
  sumZ (quantity_of p) rows = sumZ (line_quantity_of p) lineItems.
Proof.
  induction rows as [|r rows IH]; intros [|item rest] Hp Hq; simpl in *; try done.
  injection Hp as Hp Hps. injection Hq as Hq Hqs.
  rewrite (IH rest Hps Hqs). unfold quantity_of at 1, line_quantity_of at 1.
  by rewrite Hp, Hq.
Qed.

Lemma sumZ_quantity_of_nonneg p (rows : list SaleItems.row) :
  Forall (fun r => SaleItems.check r = true) rows ->
  0 <= sumZ (quantity_of p) rows.
Proof.
  induction 1 as [|r rows Hr _ IH]; simpl; [lia|].
  unfold quantity_of at 1. unfold SaleItems.check in Hr.
  case_bool_decide; repeat (apply andb_prop in Hr as [Hr ?]); lia.
Qed.

End SubmitFacts.

Section SubmitClaims.

Import RecordSale.

(** X8.  When the sale-recording flow completes, every product of the
    store has its stock lowered and its units sold raised by the units
    the lines of the form ask of it, whatever the snapshot said; those
    units are not more than the stock the store held, and no purchase is
    touched. *)
Theorem completed_sale_moves_the_counters
    (clock : nat -> Z) (uuid : string) (snapshot : list Types.Product)
    (lineItems : list SaleLineItem) (notes : string) (d : db) :
  products_valid d ->
  let out := handleSubmit clock uuid snapshot lineItems notes d in
  ui out = [onSuccess] ->
  stock_purchases (store out) = stock_purchases d /\
  forall p s u, counters_of p d = Some (s, u) ->
    let asked := sumZ (line_quantity_of p) lineItems in
    0 <= asked <= s /\
    counters_of p (store out) = Some (s - asked, u + asked).
Proof.
  intros Hvalid. unfold handleSubmit.
  destruct (valid (validateStock snapshot lineItems)); simpl; [|done].
  destruct (existsb _ lineItems); simpl; [done|].
  destruct (Ledger.insert_sale _ _ _ d) as [d1|e] eqn:E1; simpl; [|done].
  destruct (saleItems snapshot uuid lineItems) as [rows|] eqn:Er; simpl; [|done].
  destruct (Ledger.insert_sale_items _ rows d1) as [d2|e] eqn:E2; simpl; [|done].
  intros _.
  destruct (insert_sale_Ok _ _ _ _ _ E1) as (_ & _ & Hp1 & Hsp1 & _).
  destruct (insert_sale_items_effect _ _ _ _ E2) as (Hv2 & Hrows & Hc & Hsp2 & _ & _).
  destruct (saleItems_rows _ _ _ _ Er) as (_ & Hps & Hqs).
  split; [congruence|].
  intros p s u Hp.
  rewrite <- (line_quantities p rows lineItems Hps Hqs).
  destruct (Hc p) as [Hst Hso].
  unfold counters_of, Ledger.stock_of, Ledger.sold_of in *. rewrite Hp1 in *.
  destruct (products d !! p) as [r|] eqn:Er0; [|done].
  injection Hp as <- <-.
  destruct (products d2 !! p) as [r2|] eqn:Er2; [|done].
  simpl in *. injection Hst as Hst. injection Hso as Hso.
  assert (products_valid d1) as Hv1.
  { intros q rq Hq. apply (Hvalid q rq). by rewrite <- Hp1. }
  destruct (Hv2 Hv1 p r2 Er2) as [_ Hck]. apply check_counters in Hck.
  assert (0 <= sumZ (quantity_of p) rows).
  { apply sumZ_quantity_of_nonneg. eapply Forall_impl; [exact Hrows|]. by intros ? [_ ?]. }
  split; [lia|]. f_equal. f_equal; lia.
Qed.

Lemma completed_sale_moves_the_counters_witness :
  ui Scenario.recorded = [onSuccess] /\
  counters_of Scenario.P Scenario.stocked = Some (24, 0) /\
  0 <= sumZ (line_quantity_of Scenario.P) Scenario.five_units <= 24 /\
  counters_of Scenario.P (store Scenario.recorded)
    = Some (24 - sumZ (line_quantity_of Scenario.P) Scenario.five_units,
            0 + sumZ (line_quantity_of Scenario.P) Scenario.five_units).
Proof.
  assert (ui Scenario.recorded = [onSuccess]) as Hui by (vm_compute; reflexivity).
  assert (counters_of Scenario.P Scenario.stocked = Some (24, 0)) as Hc
    by (vm_compute; reflexivity).
  split; [exact Hui|]. split; [exact Hc|].
  refine (proj2 (completed_sale_moves_the_counters (fun k => 2000 + Z.of_nat k) "s-1"
                   [Scenario.P_snapshot] Scenario.five_units "" Scenario.stocked _ Hui)
            Scenario.P 24 0 Hc).
  intros p r.
  replace (products Scenario.stocked)
    with ({[ Scenario.P := Ledger.update_product_updated_at 1000
               (Ledger.set_counters 24 0 Scenario.P_row) ]} : gmap string Products.row)
    by (vm_compute; reflexivity).
  intros Hr. apply lookup_singleton_Some in Hr as [_ <-]. by vm_compute.
Defined.

(** X9.  A sale-recording flow that does not complete (the operator
    is not told [onSuccess]) moves no stock: products, sale items and
    purchases of the store are as before, and the sales are as before or
    have one more row, the header of the sale that was being recorded,
    with the total of the form. *)
Theorem unfinished_sale_moves_no_stock
    (clock : nat -> Z) (uuid : string) (snapshot : list Types.Product)
    (lineItems : list SaleLineItem) (notes : string) (d : db) :
  let out := handleSubmit clock uuid snapshot lineItems notes d in
  ui out <> [onSuccess] ->
  products (store out) = products d /\
  sale_items (store out) = sale_items d /\
  stock_purchases (store out) = stock_purchases d /\
  (sales (store out) = sales d \/
   sales d !! uuid = None /\
   exists s, sales (store out) = <[uuid := s]> (sales d) /\
             Sales.total_amount s = calculateTotal snapshot lineItems).
Proof.
  unfold handleSubmit.
  destruct (valid (validateStock snapshot lineItems)); simpl; [|by auto].
  destruct (existsb _ lineItems); simpl; [by auto|].
  destruct (Ledger.insert_sale _ _ _ d) as [d1|e] eqn:E1; simpl; [|by auto].
  destruct (insert_sale_Ok _ _ _ _ _ E1) as (Hfresh & (s & Hs & Htot) & Hp1 & Hsp1 & Hit1).
  assert (sales d1 = sales d \/
          sales d !! uuid = None /\
          exists s, sales d1 = <[uuid := s]> (sales d) /\
                    Sales.total_amount s = calculateTotal snapshot lineItems) as Hheader.
  { right. split; [done|]. exists s. by split. }
  destruct (saleItems snapshot uuid lineItems) as [rows|] eqn:Er; simpl; [|by auto].
  destruct (Ledger.insert_sale_items _ rows d1) as [d2|e] eqn:E2; simpl; [done|by auto].
Qed.

Lemma unfinished_sale_moves_no_stock_witness :
  ui OrphanScenario.out <> [onSuccess] /\
  products (store OrphanScenario.out) = products Scenario.stocked /\
  sale_items (store OrphanScenario.out) = sale_items Scenario.stocked /\
  is_Some (sales (store OrphanScenario.out) !! "s-2").
Proof.
  assert (ui OrphanScenario.out <> [onSuccess]) as Hui by (vm_compute; discriminate).
  split; [exact Hui|].
  pose proof (unfinished_sale_moves_no_stock (fun k => 2000 + Z.of_nat k) "s-2"
                [Scenario.P_snapshot] OrphanScenario.lineItems "" Scenario.stocked Hui)
    as (Hp & Hit & _ & _).
  split; [exact Hp|]. split; [exact Hit|]. vm_compute. eauto.
Defined.

End SubmitClaims.

Section RestockMoreFacts.

Lemma to_integer_Ok (x : Js.number) (z : Z) :
  Js.to_integer x = Ok z -> exists q, x = Js.finite q /\ Qeq q (inject_Z z).
Proof.
  destruct x as [q| |b]; unfold Js.to_integer; try done.
  cbv zeta. destruct (Z.pos (Qden (Qred q)) =? 1) eqn:E; [|done].
  intros [= <-]. exists q. split; [done|].
  rewrite <- (Qred_correct q) at 1.
  destruct (Qred q) as [a b]. cbn [Qnum Qden] in *. apply Z.eqb_eq in E.
  injection E as ->. reflexivity.
Qed.

End RestockMoreFacts.

Section RestockMoreClaims.

(** X10.  A restock the operator is told has succeeded has stored one
    purchase for the selected product, of a positive whole number of
    batches, the one [parseInt] reads in the batch field, with
    [units_added] that number times the batch size of the product in the
    snapshot; the stock of the product in the store has gone up by
    exactly these units, its units sold and every other product are as
    before, and no sale is touched. *)
Theorem accepted_restock_adds_whole_batches
    (now : Z) (snapshot : list Types.Product) (f : Restock.form) (d : db) :
  let out := Restock.handleSubmit now snapshot f d in
  ui out = [onSuccess] ->
  exists product n r,
    Restock.selectedProduct snapshot f = Some product /\
    Js.same (Js.parseInt (Restock.batchesPurchased f)) (Js.of_Z n) /\
    0 < n /\
    stock_purchases (store out) = stock_purchases d ++ [stored_purchase (now, r)] /\
    StockPurchases.product_id r = Restock.selectedProductId f /\
    StockPurchases.batches_purchased r = n /\
    StockPurchases.units_added r = Types.units_per_batch product * n /\
    (forall p s u, counters_of p d = Some (s, u) ->
       counters_of p (store out) = Some (s + units_added_of p r, u)) /\
    sales (store out) = sales d /\
    sale_items (store out) = sale_items d.
Proof.
  unfold Restock.handleSubmit.
  destruct (Restock.selectedProduct snapshot f) as [product|] eqn:Esel; simpl; [|done].
  destruct (Restock.insert now _ d) as [d'|e] eqn:E; simpl; [|done].
  intros _. unfold Restock.insert in E.
  destruct (Restock.row_of _) as [r|e] eqn:Er; simpl in E; [|done].
  unfold Restock.row_of in Er. simpl in Er.
  destruct (Js.to_integer (Js.parseInt _)) as [n|] eqn:En; simpl in Er; [|done].
  destruct (Js.to_numeric_10_2 (Js.parseFloat _)) as [cost|]; simpl in Er; [|done].
  destruct (Js.to_numeric_10_2 (Restock.totalCost f)) as [total|]; simpl in Er; [|done].
  destruct (Js.to_integer (Restock.unitsAdded snapshot f)) as [units|] eqn:Eu;
    simpl in Er; [|done].
  injection Er as <-.
  destruct (to_integer_Ok _ _ En) as (q & Hq & Hqn).
  assert (E' := E). unfold Ledger.insert_stock_purchase in E'.
  destruct (negb (StockPurchases.domain _)); [done|].
  destruct (negb (StockPurchases.check _)) eqn:Eck; [done|]. clear E'.
  apply negb_false_iff in Eck. unfold StockPurchases.check in Eck. simpl in Eck.
  assert (units = Types.units_per_batch product * n) as Hunits.
  { unfold Restock.unitsAdded in Eu. rewrite Esel in Eu.
    destruct (Restock.nonempty _) eqn:Ene.
    - rewrite Hq in Eu. cbn [Js.mul Js.of_Z] in Eu.
      rewrite (to_integer_whole _ (Types.units_per_batch product * n)) in Eu.
      + by injection Eu.
      + rewrite Hqn, inject_Z_mult. reflexivity.
    - vm_compute in Eu. injection Eu as <-.
      repeat (apply andb_prop in Eck as [Eck ?]). lia. }
  destruct (insert_stock_purchase_Ok _ _ _ _ E) as (_ & Hsp & Hs & Hit).
  eexists product, n, _. split_and!; [done| |..]; try exact Hsp; try done.
  - by rewrite Hq.
  - repeat (apply andb_prop in Eck as [Eck ?]). lia.
  - intros p s u Hp.
    destruct (insert_stock_purchase_effect _ _ _ _ p E) as (Hst & Hso & _).
    unfold counters_of, Ledger.stock_of, Ledger.sold_of in *.
    destruct (products d !! p) as [r0|]; [|done].
    destruct (products d' !! p) as [r1|]; [|done].
    simpl in *. injection Hp as <- <-. injection Hst as ->. injection Hso as ->. done.
Qed.

Lemma accepted_restock_adds_whole_batches_witness :
  ui ClientScenario.after_restock = [onSuccess] /\
  exists n r,
    0 < n /\
    stock_purchases (store ClientScenario.after_restock)
      = stock_purchases Scenario.empty_shelf ++ [stored_purchase (1000, r)] /\
    StockPurchases.batches_purchased r = n /\
    StockPurchases.units_added r = 12 * n.
Proof.
  assert (ui ClientScenario.after_restock = [onSuccess]) as Hui by (vm_compute; reflexivity).
  split; [exact Hui|].
  destruct (accepted_restock_adds_whole_batches 1000 [Scenario.P_snapshot_empty]
              {| Restock.selectedProductId := Scenario.P;
                 Restock.batchesPurchased := "2";
                 Restock.costPerBatch := "60";
                 Restock.notes := "" |}
              Scenario.empty_shelf Hui)
    as (product & n & r & Hsel & _ & Hn & Hsp & _ & Hb & Hu & _).
  exists n, r. split_and!; try done.
  vm_compute in Hsel. injection Hsel as <-. exact Hu.
Defined.

End RestockMoreClaims.

Section PlainNumberFacts.

Lemma head_digit (c : ascii) (rest : string) :
  is_Some (Js.digit c) ->
  Js.trim_start (String c rest) = String c rest /\
  Js.sign (String c rest) = (false, String c rest) /\
  String.prefix "Infinity" (String c rest) = false.
Proof.
  intros [v H].
  destruct c as [[] [] [] [] [] [] [] []]; try (vm_compute in H; discriminate H);
    split_and!; reflexivity.
Qed.

Lemma decimal_body (body : string) :
  all_digits body = true ->
  match body with
  | String "0" (String "x" rest) | String "0" (String "X" rest) =>
      Js.digits 16 Js.hex_digit rest 0 0
  | _ => Js.digits 10 Js.digit body 0 0
  end = Js.digits 10 Js.digit body 0 0.
Proof.
  destruct body as [|c1 [|c2 rest]]; [done| |].
  - simpl. destruct (Js.digit c1) eqn:H; [|done]. intros _.
    destruct c1 as [[] [] [] [] [] [] [] []]; try (vm_compute in H; discriminate H);
      reflexivity.
  - cbn [all_digits]. destruct (Js.digit c1) eqn:H1; [|done].
    destruct (Js.digit c2) eqn:H2; [|done]. intros _.
    destruct c1 as [[] [] [] [] [] [] [] []]; try (vm_compute in H1; discriminate H1);
      destruct c2 as [[] [] [] [] [] [] [] []]; try (vm_compute in H2; discriminate H2);
      reflexivity.
Qed.

Lemma digits_all (s : string) : forall acc n,
  all_digits s = true ->
  exists v, Js.digits 10 Js.digit s acc n = (v, (n + String.length s)%nat, EmptyString).
Proof.
  induction s as [|c rest IH]; intros acc n H; simpl.
  - exists acc. by rewrite Nat.add_0_r.
  - simpl in H. destruct (Js.digit c) as [v|]; [|done].
    destruct (IH (10 * acc + v) (S n) H) as (w & ->). exists w.
    by rewrite Nat.add_succ_r.
Qed.

(** Both readers give the same whole number for a non-empty string of
    digits. *)
Lemma parse_plain (s : string) :
  all_digits s = true -> s <> EmptyString ->
  exists v, Js.parseInt s = Js.of_Z v /\ Js.same (Js.parseFloat s) (Js.of_Z v).
Proof.
  intros H Hne. destruct s as [|c rest]; [done|].
  assert (is_Some (Js.digit c)) as Hc.
  { simpl in H. by destruct (Js.digit c). }
  destruct (head_digit c rest Hc) as (Ht & Hs & Hp).
  destruct (digits_all (String c rest) 0 0%nat H) as (v & Hv).
  exists v. unfold Js.parseInt, Js.parseFloat. rewrite Ht, Hs, Hp.
  rewrite (decimal_body _ H), Hv. cbn [String.length Nat.add].
  split; [reflexivity|].
  simpl. unfold Js.scale. simpl. unfold Qeq. simpl. lia.
Qed.

End PlainNumberFacts.

Section PlainNumberClaims.

(** X11.  When the batch field of the restock form holds a whole number
    in plain digits, a product is selected and the cost field reads as a
    whole number of cents, an accepted restock stores a consistent
    purchase: the cost per batch is the cost typed, the total cost is
    the number of batches times the cost per batch, and the units added
    are the number of batches times the batch size of the product. *)
Theorem plain_restock_is_consistent
    (now : Z) (snapshot : list Types.Product) (f : Restock.form) (d : db) (k : Z) :
  all_digits (Restock.batchesPurchased f) = true ->
  Restock.selectedProductId f <> EmptyString ->
  Js.same (Js.parseFloat (Restock.costPerBatch f)) (Js.of_cents k) ->
  let out := Restock.handleSubmit now snapshot f d in
  ui out = [onSuccess] ->
  exists product r,
    Restock.selectedProduct snapshot f = Some product /\
    stock_purchases (store out) = stock_purchases d ++ [stored_purchase (now, r)] /\
    StockPurchases.cost_per_batch r = k /\
    StockPurchases.total_cost r
      = StockPurchases.batches_purchased r * StockPurchases.cost_per_batch r /\
    StockPurchases.units_added r
      = StockPurchases.batches_purchased r * Types.units_per_batch product.
Proof.
  intros Hplain Hsel Hcost. unfold Restock.handleSubmit.
  destruct (Restock.selectedProduct snapshot f) as [product|] eqn:Esel; simpl; [|done].
  destruct (Restock.insert now _ d) as [d'|e] eqn:E; simpl; [|done].
  intros _. unfold Restock.insert in E.
  destruct (Restock.row_of _) as [r|e] eqn:Er; simpl in E; [|done].
  assert (Restock.batchesPurchased f <> EmptyString) as Hne.
  { intros Hempty. unfold Restock.row_of in Er. simpl in Er. by rewrite Hempty in Er. }
  destruct (parse_plain _ Hplain Hne) as (n & Hint & Hfloat).
  destruct (restock_consistent_when_parses_agree snapshot f product n k r)
    as (_ & Hk & Htotal & Hunits); try done.
  { by rewrite Hint. }
  destruct (insert_stock_purchase_Ok _ _ _ _ E) as (_ & Hsp & _).
  by exists product, r.
Qed.

Lemma plain_restock_is_consistent_witness :
  ui ClientScenario.after_restock = [onSuccess] /\
  exists r,
    stock_purchases (store ClientScenario.after_restock)
      = stock_purchases Scenario.empty_shelf ++ [stored_purchase (1000, r)] /\
    StockPurchases.cost_per_batch r = 6000 /\
    StockPurchases.total_cost r
      = StockPurchases.batches_purchased r * StockPurchases.cost_per_batch r.
Proof.
  assert (ui ClientScenario.after_restock = [onSuccess]) as Hui by (vm_compute; reflexivity).
  split; [exact Hui|].
  destruct (plain_restock_is_consistent 1000 [Scenario.P_snapshot_empty]
              {| Restock.selectedProductId := Scenario.P;
                 Restock.batchesPurchased := "2";
                 Restock.costPerBatch := "60";
                 Restock.notes := "" |}
              Scenario.empty_shelf 6000)
    as (product & r & _ & Hsp & Hk & Ht & _);
    [reflexivity|discriminate|vm_compute; reflexivity|exact Hui|].
  by exists r.
Defined.

End PlainNumberClaims.

Section ProductFormFacts.

Lemma integer_or_null_Some (x : Js.number) (n : Z) :
  Catalog.integer_or_null x = Ok (Some n) -> Js.same x (Js.of_Z n).
Proof.
  destruct x as [q| |b]; try done.
  unfold Catalog.integer_or_null.
  destruct (Js.to_integer (Js.finite q)) as [m|e] eqn:E; simpl; [|done].
  intros [= <-]. apply to_integer_Ok in E as (q' & [= <-] & Hq). exact Hq.
Qed.

Lemma numeric_or_null_Some (x : Js.number) (cents : Z) :
  Catalog.numeric_or_null x = Ok (Some cents) ->
  exists q, x = Js.finite q /\ cents = Js.round_half_away (q * 100).
Proof.
  destruct x as [q| |b]; try done. simpl. intros [= <-]. by exists q.
Qed.

Lemma columns_of_Ok o c :
  Catalog.columns_of o = Ok c ->
  Catalog.name c = ProductPayload.name o /\
  Catalog.description c = ProductPayload.description o /\
  Catalog.numeric_or_null (ProductPayload.unit_selling_price o)
    = Ok (Catalog.unit_selling_price c) /\
  Catalog.numeric_or_null (ProductPayload.cost_per_batch o)
    = Ok (Catalog.cost_per_batch c) /\
  Catalog.integer_or_null (ProductPayload.units_per_batch o)
    = Ok (Catalog.units_per_batch c).
Proof.
  unfold Catalog.columns_of.
  destruct (Catalog.numeric_or_null (ProductPayload.unit_selling_price o)); simpl; [|done].
  destruct (Catalog.numeric_or_null (ProductPayload.cost_per_batch o)); simpl; [|done].
  destruct (Catalog.integer_or_null (ProductPayload.units_per_batch o)); simpl; [|done].
  by intros [= <-].
Qed.

End ProductFormFacts.

Section ProductFormClaims.

(** X12.  A product the add form reports as added is a new row under a
    key that was free, with no stock and no units sold; it has the name
    typed, a batch size that is the whole number [parseInt] reads in the
    field and is positive, and a price and a batch cost that are the
    numbers [parseFloat] reads, to the cent, and are not negative.
    Every other row of the store is as before. *)
Theorem added_product_starts_with_no_stock
    (now : Z) (uuid : string) (f : AddProduct.formData) (d : db) :
  let out := AddProduct.handleSubmit now uuid f d in
  snd out = [onSuccess] ->
  products d !! uuid = None /\
  exists row price cost,
    fst out = with_products (<[uuid := row]> (products d)) d /\
    Products.current_stock row = 0 /\ Products.total_units_sold row = 0 /\
    Products.name row = AddProduct.name f /\
    Js.same (Js.parseInt (AddProduct.units_per_batch f))
            (Js.of_Z (Products.units_per_batch row)) /\
    0 < Products.units_per_batch row /\
    Js.parseFloat (AddProduct.unit_selling_price f) = Js.finite price /\
    Products.unit_selling_price row = Js.round_half_away (price * 100) /\
    0 <= Products.unit_selling_price row /\
    Js.parseFloat (AddProduct.cost_per_batch f) = Js.finite cost /\
    Products.cost_per_batch row = Js.round_half_away (cost * 100) /\
    0 <= Products.cost_per_batch row.
Proof.
  unfold AddProduct.handleSubmit.
  destruct (AddProduct.insert now uuid _ d) as [d'|e] eqn:E; simpl; [|done].
  intros _. unfold AddProduct.insert in E.
  destruct (Catalog.columns_of _) as [c|e] eqn:Ec; simpl in E; [|done].
  apply columns_of_Ok in Ec as (Hname & _ & Hprice & Hcost & Hunits). simpl in *.
  apply insert_product_Ok in E
    as (Hfresh & row & -> & _ & Hck & Hst & Hso & Hn & _ & Hp & Hc & Hu & _).
  rewrite Hp in Hprice. rewrite Hc in Hcost. rewrite Hu in Hunits.
  apply numeric_or_null_Some in Hprice as (price & Hprice & Hpr).
  apply numeric_or_null_Some in Hcost as (cost & Hcost & Hco).
  apply integer_or_null_Some in Hunits.
  unfold Products.check in Hck. repeat (apply andb_prop in Hck as [Hck ?]).
  split; [done|]. exists row, price, cost.
  split_and!; try done; try congruence; lia.
Qed.

Lemma added_product_starts_with_no_stock_witness :
  snd (AddProduct.handleSubmit 0 Scenario.P Journal.cookies empty_db) = [onSuccess] /\
  exists row,
    products (fst (AddProduct.handleSubmit 0 Scenario.P Journal.cookies empty_db))
      !! Scenario.P = Some row /\
    Products.current_stock row = 0 /\ Products.total_units_sold row = 0 /\
    0 < Products.units_per_batch row.
Proof.
  assert (snd (AddProduct.handleSubmit 0 Scenario.P Journal.cookies empty_db) = [onSuccess])
    as Hui by (vm_compute; reflexivity).
  split; [exact Hui|].
  destruct (added_product_starts_with_no_stock 0 Scenario.P Journal.cookies empty_db Hui)
    as (_ & row & _ & _ & -> & Hst & Hso & _ & _ & Hu & _).
  exists row. split; [|done]. simpl. by rewrite lookup_insert_eq.
Defined.

(** X13.  Whatever the edit form is given and whether or not it
    succeeds, it changes no counter of any product, no purchase, no sale
    and no sale item, and no product other than the one it was opened
    on.  When it reports success and the product is still in the store,
    the row has the name typed, the moment of the change as
    [updated_at], its old [created_at], and a positive batch size that
    is the whole number [parseInt] reads in the field. *)
Theorem edit_keeps_counters_and_history
    (now : Z) (product : Types.Product) (f : EditProduct.formData) (d : db) :
  let out := EditProduct.handleSubmit now product f d in
  stock_purchases (fst out) = stock_purchases d /\
  sales (fst out) = sales d /\
  sale_items (fst out) = sale_items d /\
  (forall p, counters_of p (fst out) = counters_of p d) /\
  (forall p, p <> Types.id product -> products (fst out) !! p = products d !! p) /\
  (snd out = [onSuccess] ->
   forall r, products d !! Types.id product = Some r ->
     exists r',
       products (fst out) !! Types.id product = Some r' /\
       Products.name r' = EditProduct.name f /\
       Products.updated_at r' = Some now /\
       Products.created_at r' = Products.created_at r /\
       Js.same (Js.parseInt (EditProduct.units_per_batch f))
               (Js.of_Z (Products.units_per_batch r')) /\
       0 < Products.units_per_batch r').
Proof.
  unfold EditProduct.handleSubmit.
  destruct (EditProduct.update now _ _ d) as [d'|e] eqn:E; simpl; [|done].
  unfold EditProduct.update in E.
  destruct (Catalog.columns_of _) as [c|e] eqn:Ec; simpl in E; [|done].
  apply columns_of_Ok in Ec as (Hname & _ & _ & _ & Hunits). simpl in *.
  apply update_product_Ok in E
    as [[Hnone ->]|(price & cost & units & Hnn & Hup & H1 & H2 & H3)].
  { split_and!; try done. intros _ r Hr. congruence. }
  split_and!; try done.
  - intros p. unfold counters_of. by apply (update_columns_counters _ _ _ _ _ _ _ _ p Hup).
  - intros p Hp. rewrite (update_products_lookup _ _ _ _ _ p Hup).
    by rewrite bool_decide_eq_false_2.
  - intros _ r Hr.
    pose proof (update_products_lookup _ _ _ _ _ (Types.id product) Hup) as Hl.
    rewrite bool_decide_eq_true_2, Hr in Hl by done. simpl in Hl.
    eexists. split; [exact Hl|].
    destruct (update_products_checked _ _ _ _ _ _ Hup Hl) as [_ Hck].
    unfold Products.check in Hck. repeat (apply andb_prop in Hck as [Hck ?]).
    simpl in *. apply not_null_Ok in Hnn as (_ & _ & Hu).
    rewrite Hu in Hunits. apply integer_or_null_Some in Hunits.
    split_and!; try done. lia.
Qed.

End ProductFormClaims.

Section MarginLineFacts.




End MarginLineFacts.

Section MarginLineClaims.


End MarginLineClaims.

Section CalendarFacts.

Import Dashboard.

(** Every day of a 400-year era falls in one of its 400 years, on one
    of the at most 366 days of that year. *)
Lemma era_day (doe : Z) :
  0 <= doe < 146097 ->
  let yoe := (doe - doe / 1460 + doe / 36524 - doe / 146096) / 365 in
  let doy := doe - (365 * yoe + yoe / 4 - yoe / 100) in
  0 <= yoe <= 399 /\ 0 <= doy <= 365.
Proof.
  intros H yoe doy. unfold doy, yoe. clear doy yoe.
  Z.to_euclidean_division_equations; lia.
Qed.

(** The day number of the calendar day of a day number is that day
    number. *)
Lemma days_from_civil_from_days (z : Z) :
  days_from_civil (civil_from_days z) = z.
Proof.
  unfold civil_from_days, days_from_civil.
  set (z' := z + 719468).
  set (era := z' / 146097).
  set (doe := z' - era * 146097).
  assert (0 <= doe < 146097) as Hdoe.
  { unfold doe, era. pose proof (Z.mod_pos_bound z' 146097 ltac:(lia)).
    rewrite Z.mod_eq in H by lia. lia. }
  destruct (era_day doe Hdoe) as [Hyoe Hdoy].
  set (yoe := (doe - doe / 1460 + doe / 36524 - doe / 146096) / 365) in *.
  set (doy := doe - (365 * yoe + yoe / 4 - yoe / 100)) in *.
  set (mp := (5 * doy + 2) / 153).
  assert (0 <= mp <= 11) as Hmp.
  { unfold mp. split.
    - apply Z.div_pos; lia.
    - apply Z.lt_succ_r. apply Z.div_lt_upper_bound; lia. }
  cbv zeta.
  set (m := if mp <? 10 then mp + 3 else mp - 9).
  assert ((if 2 <? m then m - 3 else m + 9) = mp) as ->.
  { unfold m. clearbody mp.
    destruct (Z.ltb_spec mp 10);
      [destruct (Z.ltb_spec 2 (mp + 3))|destruct (Z.ltb_spec 2 (mp - 9))]; lia. }
  assert ((if m <=? 2 then (if m <=? 2 then yoe + era * 400 + 1 else yoe + era * 400) - 1
           else (if m <=? 2 then yoe + era * 400 + 1 else yoe + era * 400))
          = yoe + era * 400) as ->.
  { clearbody yoe era. destruct (m <=? 2); lia. }
  assert (forall a b, 0 <= a <= 399 -> (a + b * 400) / 400 = b) as Hera.
  { intros a b Ha. rewrite Z.div_add by lia. rewrite Z.div_small; lia. }
  rewrite (Hera yoe era Hyoe).
  replace (yoe + era * 400 - era * 400) with yoe by lia.
  unfold doy, doe, z'. lia.
Qed.

End CalendarFacts.

Section DayTestFacts.

Import Dashboard.

Lemma same_calendar_day (tz a b : Z) :
  toDateString tz a = toDateString tz b
  <-> (a + tz * msPerMinute) / msPerDay = (b + tz * msPerMinute) / msPerDay.
Proof.
  unfold toDateString. split; [|by intros ->].
  intros H. apply (f_equal days_from_civil) in H.
  by rewrite !days_from_civil_from_days in H.
Qed.

Lemma startOfDay_value (tz date : Z) :
  DashboardRevised.startOfDay tz date
  = (date + tz * msPerMinute) / msPerDay * msPerDay - tz * msPerMinute.
Proof.
  unfold DashboardRevised.startOfDay, toDateString.
  by rewrite days_from_civil_from_days.
Qed.

Lemma startOfDay_days_ago (tz now k : Z) :
  DashboardRevised.startOfDay tz (now - k * msPerDay)
  = DashboardRevised.startOfDay tz now - k * msPerDay.
Proof.
  rewrite !startOfDay_value.
  replace (now - k * msPerDay + tz * msPerMinute)
    with (now + tz * msPerMinute + (- k) * msPerDay) by lia.
  rewrite Z.div_add by (unfold msPerDay; lia). lia.
Qed.

(** A date is of the local day of [anchor] exactly when it lies in the
    24 hours from the local midnight of [anchor]. *)
Lemma local_day_window (tz anchor date : Z) :
  (date + tz * msPerMinute) / msPerDay = (anchor + tz * msPerMinute) / msPerDay
  <-> DashboardRevised.startOfDay tz anchor <= date
      < DashboardRevised.startOfDay tz anchor + msPerDay.
Proof.
  rewrite startOfDay_value. unfold msPerDay, msPerMinute.
  set (L := (anchor + tz * 60000) / 86400000). clearbody L.
  split.
  - intros H. pose proof (Z.mod_pos_bound (date + tz * 60000) 86400000 ltac:(lia)) as Hm.
    rewrite Z.mod_eq in Hm by lia. rewrite H in Hm. lia.
  - intros H. symmetry. apply (Z.div_unique _ _ _ (date + tz * 60000 - L * 86400000)); lia.
Qed.

Lemma toISODate_value (db_tz date : Z) :
  timestamptz_of_date db_tz (toISODate date)
  = date / msPerDay * msPerDay - db_tz * msPerMinute.
Proof.
  unfold timestamptz_of_date, toISODate. by rewrite days_from_civil_from_days.
Qed.

Lemma utc_day_days_ago (now k : Z) :
  (now - k * msPerDay) / msPerDay = now / msPerDay - k.
Proof.
  replace (now - k * msPerDay) with (now + (- k) * msPerDay) by lia.
  rewrite Z.div_add by (unfold msPerDay; lia). lia.
Qed.

End DayTestFacts.

Section DayTestClaims.

Import Dashboard.

(** X15.  [isToday] lets through exactly the dates of the 24 hours that
    start at the local midnight of the current day, and [isYesterday]
    those of the 24 hours before that midnight, so no date passes both;
    the tests of the later revision, which compare local midnights
    instead of the text of the day, let through the same dates. *)
Theorem day_tests_are_local_day_windows (tz now date : Z) :
  let midnight := DashboardRevised.startOfDay tz now in
  (isToday tz now date = true <-> midnight <= date < midnight + msPerDay) /\
  (isYesterday tz now date = true <-> midnight - msPerDay <= date < midnight) /\
  (isToday tz now date = true -> isYesterday tz now date = false) /\
  DashboardRevised.isToday tz now date = isToday tz now date /\
  DashboardRevised.isYesterday tz now date = isYesterday tz now date.
Proof.
  intros midnight.
  assert (isToday tz now date = true <-> midnight <= date < midnight + msPerDay) as Htoday.
  { unfold isToday. rewrite bool_decide_eq_true, same_calendar_day.
    apply local_day_window. }
  assert (isYesterday tz now date = true <-> midnight - msPerDay <= date < midnight)
    as Hyesterday.
  { unfold isYesterday, yesterday. rewrite bool_decide_eq_true, same_calendar_day.
    rewrite local_day_window.
    replace (now - msPerDay) with (now - 1 * msPerDay) by lia.
    rewrite startOfDay_days_ago. fold midnight. lia. }
  split_and!; try done.
  - intros H. apply Htoday in H. apply not_true_is_false. intros H'.
    apply Hyesterday in H'. lia.
  - unfold DashboardRevised.isToday, isToday. apply bool_decide_ext.
    rewrite same_calendar_day, !startOfDay_value. unfold msPerDay, msPerMinute. lia.
  - unfold DashboardRevised.isYesterday, isYesterday. apply bool_decide_ext.
    rewrite same_calendar_day, !startOfDay_value. unfold msPerDay, msPerMinute. lia.
Qed.

(** X16.  In the later revision every row the metrics query of
    [fetchFilteredData] returns for "today" or "yesterday" also passes
    the list filter, and the rows that pass the list filter but are not
    returned are exactly those stamped after 23:59:59.000 of the day,
    in its last 999 milliseconds. *)
Theorem revised_query_misses_only_the_last_second (tz now date : Z) (filter : dateFilter) :
  let day := match filter with yesterday_ => yesterday now | _ => now end in
  (DashboardRevised.in_query tz now filter date = true ->
   DashboardRevised.in_list_filter tz now filter date = true) /\
  (filter <> all ->
   (DashboardRevised.in_list_filter tz now filter date = true /\
    DashboardRevised.in_query tz now filter date = false
    <-> DashboardRevised.startOfDay tz day + msPerDay - 1000 < date
        < DashboardRevised.startOfDay tz day + msPerDay)).
Proof.
  assert (forall anchor,
            bool_decide (DashboardRevised.startOfDay tz date
                         = DashboardRevised.startOfDay tz anchor) = true
            <-> DashboardRevised.startOfDay tz anchor <= date
                < DashboardRevised.startOfDay tz anchor + msPerDay) as Hday.
  { intros anchor. rewrite bool_decide_eq_true, <- local_day_window, !startOfDay_value.
    unfold msPerDay, msPerMinute. lia. }
  destruct filter;
    cbn [DashboardRevised.in_query DashboardRevised.in_list_filter]; cbv zeta.
  - unfold DashboardRevised.isToday, DashboardRevised.endOfDay. split.
    + intros H. apply Hday. unfold msPerDay. lia.
    + intros _. rewrite Hday. unfold msPerDay. lia.
  - unfold DashboardRevised.isYesterday, DashboardRevised.endOfDay. split.
    + intros H. apply Hday. unfold msPerDay. lia.
    + intros _. rewrite Hday. unfold msPerDay. lia.
  - done.
Qed.

End DayTestClaims.

Section TrendsFacts.

Import Dashboard Trends.

Lemma in_period_window (db_tz now date : Z) (p : period) :
  let midnight := now / msPerDay * msPerDay - db_tz * msPerMinute in
  in_period db_tz now p date = true
  <-> match p with
      | Today => date = midnight
      | Yesterday => date = midnight - msPerDay
      | Last_7_Days => midnight - 7 * msPerDay <= date <= midnight
      | Last_14_Days => midnight - 14 * msPerDay <= date <= midnight
      end.
Proof.
  unfold in_period. rewrite !toISODate_value.
  destruct p; cbn [start_of end_of]; unfold days_ago; rewrite ?utc_day_days_ago; lia.
Qed.

Lemma in_period_revised_window (tz now date : Z) (p : period) :
  let midnight := DashboardRevised.startOfDay tz now in
  let last := midnight + msPerDay - 1000 in
  in_period_revised tz now p date = true
  <-> match p with
      | Today => midnight <= date <= last
      | Yesterday => midnight - msPerDay <= date <= last - msPerDay
      | Last_7_Days => midnight - 7 * msPerDay <= date <= last
      | Last_14_Days => midnight - 14 * msPerDay <= date <= last
      end.
Proof.
  unfold in_period_revised, DashboardRevised.endOfDay.
  destruct p; cbn [start_of end_of]; unfold days_ago; rewrite ?startOfDay_days_ago;
    unfold msPerDay; lia.
Qed.

Lemma count_two_in_one {A : Type} (f g h : A -> bool) (l : list A) :
  (forall x, f x = true -> h x = true) ->
  (forall x, g x = true -> h x = true) ->
  (forall x, f x = true -> g x = false) ->
  (length (List.filter f l) + length (List.filter g l) <= length (List.filter h l))%nat.
Proof.
  intros Hf Hg Hfg. induction l as [|x l IH]; simpl; [lia|].
  pose proof (Hf x) as H1. pose proof (Hg x) as H2. pose proof (Hfg x) as H3.
  destruct (f x), (g x), (h x); simpl; try lia;
    try (specialize (H1 eq_refl); discriminate);
    try (specialize (H2 eq_refl); discriminate);
    specialize (H3 eq_refl); discriminate.
Qed.

Lemma count_one_in_one {A : Type} (f h : A -> bool) (l : list A) :
  (forall x, f x = true -> h x = true) ->
  (length (List.filter f l) <= length (List.filter h l))%nat.
Proof.
  intros Hf. induction l as [|x l IH]; simpl; [lia|].
  pose proof (Hf x) as H1.
  destruct (f x), (h x); simpl; try lia; specialize (H1 eq_refl); discriminate.
Qed.

End TrendsFacts.

Section TrendsClaims.

Import Dashboard Trends.

(** X17.  The date-only strings that the trends query and the metrics
    query of the first dashboard send are read by the store as its
    midnight opening the current UTC date.  "Today" (in both) takes the
    rows stamped at that one instant, "Yesterday" those stamped exactly
    24 hours before it, and the two longer periods end at that
    midnight: a row stamped after it is counted in no period. *)
Theorem date_string_periods_end_at_midnight (db_tz now date : Z) :
  let midnight := now / msPerDay * msPerDay - db_tz * msPerMinute in
  (forall p, in_period db_tz now p date = true -> date <= midnight) /\
  (in_period db_tz now Today date = true <-> date = midnight) /\
  (in_period db_tz now Yesterday date = true <-> date = midnight - msPerDay) /\
  (in_period db_tz now Last_7_Days date = true
   <-> midnight - 7 * msPerDay <= date <= midnight) /\
  (in_period db_tz now Last_14_Days date = true
   <-> midnight - 14 * msPerDay <= date <= midnight) /\
  (in_query db_tz now today date = true <-> date = midnight) /\
  (in_query db_tz now yesterday_ date = true <-> date = midnight - msPerDay).
Proof.
  intros midnight. split_and!.
  - intros p H. apply in_period_window in H. fold midnight in H.
    destruct p; unfold msPerDay in *; lia.
  - apply (in_period_window db_tz now date Today).
  - apply (in_period_window db_tz now date Yesterday).
  - apply (in_period_window db_tz now date Last_7_Days).
  - apply (in_period_window db_tz now date Last_14_Days).
  - unfold in_query. cbv zeta. rewrite !toISODate_value. fold midnight. lia.
  - unfold in_query, yesterday. cbv zeta. rewrite !toISODate_value.
    replace (now - msPerDay) with (now - 1 * msPerDay) by lia.
    rewrite utc_day_days_ago. unfold midnight. lia.
Qed.

(** X18.  In the later revision the four periods are ranges of local
    time from a local midnight to 23:59:59 of a day: "Today" is the
    current local day, "Yesterday" the day before, "Last 7 Days" goes
    from the midnight seven days back to the end of today, which are
    eight calendar days, and "Last 14 Days" fifteen.  So for any rows
    of sales the counts of today and yesterday together are at most the
    count of the last 7 days, which is at most that of the last 14. *)
Theorem revised_periods_are_nested (tz now : Z) (sales : list RecentSale) :
  let midnight := DashboardRevised.startOfDay tz now in
  let last := midnight + msPerDay - 1000 in
  (forall date,
     (in_period_revised tz now Today date = true <-> midnight <= date <= last) /\
     (in_period_revised tz now Yesterday date = true
      <-> midnight - msPerDay <= date <= last - msPerDay) /\
     (in_period_revised tz now Last_7_Days date = true
      <-> midnight - 7 * msPerDay <= date <= last) /\
     (in_period_revised tz now Last_14_Days date = true
      <-> midnight - 14 * msPerDay <= date <= last)) /\
  (salesCount (in_period_revised tz now Today) sales
   + salesCount (in_period_revised tz now Yesterday) sales
   <= salesCount (in_period_revised tz now Last_7_Days) sales)%nat /\
  (salesCount (in_period_revised tz now Last_7_Days) sales
   <= salesCount (in_period_revised tz now Last_14_Days) sales)%nat.
Proof.
  intros midnight last.
  assert (forall p date,
            in_period_revised tz now p date = true
            <-> match p with
                | Today => midnight <= date <= last
                | Yesterday => midnight - msPerDay <= date <= last - msPerDay
                | Last_7_Days => midnight - 7 * msPerDay <= date <= last
                | Last_14_Days => midnight - 14 * msPerDay <= date <= last
                end) as Hw.
  { intros p date. apply in_period_revised_window. }
  split_and!.
  - intros date. split_and!.
    + apply (Hw Today). + apply (Hw Yesterday).
    + apply (Hw Last_7_Days). + apply (Hw Last_14_Days).
  - unfold salesCount. apply count_two_in_one.
    + intros sale H. apply (Hw Today) in H. apply (Hw Last_7_Days).
      unfold last, msPerDay in *. lia.
    + intros sale H. apply (Hw Yesterday) in H. apply (Hw Last_7_Days).
      unfold last, msPerDay in *. lia.
    + intros sale H. apply (Hw Today) in H. apply not_true_is_false. intros H'.
      apply (Hw Yesterday) in H'. unfold last, msPerDay in *. lia.
  - unfold salesCount. apply count_one_in_one.
    intros sale H. apply (Hw Last_7_Days) in H. apply (Hw Last_14_Days).
    unfold last, msPerDay in *. lia.
Qed.

End TrendsClaims.

Section PaginationFacts.

Import Pagination.

Lemma pages_value {A : Type} (l : list A) :
  pages l = (Z.of_nat (length l) + 4) / 5.
Proof.
  unfold pages, salesPerPage, Qceiling, Qfloor, Qdiv, Qmult, Qinv, Qopp, inject_Z.
  simpl. rewrite Z.mul_1_r. Z.to_euclidean_division_equations. lia.
Qed.

Lemma setCurrentPage_in_range {A : Type} (l : list A) (c : click) (prev : Z) :
  l <> [] -> 1 <= prev <= pages l -> 1 <= setCurrentPage l c prev <= pages l.
Proof.
  intros Hne. rewrite pages_value.
  assert (0 < Z.of_nat (length l)) by (destruct l; [done|simpl; lia]).
  destruct c; simpl; rewrite ?pages_value; Z.to_euclidean_division_equations; lia.
Qed.

Lemma currentPage_in_range {A : Type} (l : list A) (clicks : list click) :
  l <> [] -> 1 <= currentPage l clicks <= pages l.
Proof.
  intros Hne. unfold currentPage.
  assert (1 <= 1 <= pages l) as H1.
  { rewrite pages_value. assert (0 < Z.of_nat (length l)) by (destruct l; [done|simpl; lia]).
    Z.to_euclidean_division_equations. lia. }
  assert (forall p, 1 <= p <= pages l ->
            1 <= fold_left (fun prev c => setCurrentPage l c prev) clicks p <= pages l)
    as Hall; [|by apply Hall].
  clear H1. induction clicks as [|c rest IH]; intros p Hp; simpl; [done|].
  apply IH. by apply setCurrentPage_in_range.
Qed.

Lemma page_nth {A : Type} (l : list A) (p : Z) (i : nat) :
  1 <= p ->
  nth_error (page p l) i
  = if (i <? 5)%nat then nth_error l (Z.to_nat ((p - 1) * 5) + i) else None.
Proof.
  intros Hp. unfold page, slice, salesPerPage. cbv zeta.
  assert (((p - 1) * 5 <? 0) = false) as -> by lia.
  assert ((p * 5 <? 0) = false) as -> by lia.
  rewrite nth_error_firstn, List.nth_error_skipn.
  set (len := Z.of_nat (length l)).
  destruct (i <? Z.to_nat (Z.min (p * 5) len - Z.min ((p - 1) * 5) len))%nat eqn:E1;
    destruct (i <? 5)%nat eqn:E2; try (exfalso; lia).
  - f_equal. lia.
  - symmetry. apply nth_error_None. unfold len in *. lia.
  - done.
Qed.

End PaginationFacts.

Section PaginationClaims.

Import Pagination.

(** X19.  However the operator clicks Previous and Next on a list of
    sales that is not empty, the current page stays between 1 and the
    number of pages; the page shown is not empty, holds the sales of the
    list from position 5 (page - 1) on, at most five of them, in the
    order of the list, and the text next to the buttons (from, to) names
    the first and the last of them. *)
Theorem pages_stay_in_range_and_show_their_sales
    {A : Type} (filteredSales : list A) (clicks : list click) :
  filteredSales <> [] ->
  let p := currentPage filteredSales clicks in
  let shown := page p filteredSales in
  1 <= p <= pages filteredSales /\
  shown <> [] /\
  (forall i,
     nth_error shown i
     = if (i <? 5)%nat then nth_error filteredSales (Z.to_nat ((p - 1) * 5) + i) else None) /\
  fst (showing p filteredSales) = (p - 1) * 5 + 1 /\
  snd (showing p filteredSales) = (p - 1) * 5 + Z.of_nat (length shown).
Proof.
  intros Hne p shown.
  pose proof (currentPage_in_range filteredSales clicks Hne) as Hp. fold p in Hp.
  assert (Z.of_nat (length shown)
          = Z.min (p * 5) (Z.of_nat (length filteredSales)) - (p - 1) * 5) as Hlen.
  { rewrite pages_value in Hp.
    unfold shown, page, slice, salesPerPage. cbv zeta.
    assert (((p - 1) * 5 <? 0) = false) as -> by lia.
    assert ((p * 5 <? 0) = false) as -> by lia.
    rewrite length_firstn, length_skipn.
    Z.to_euclidean_division_equations. lia. }
  split_and!.
  - lia. - lia.
  - intros Hnil. rewrite Hnil in Hlen. simpl in Hlen. rewrite pages_value in Hp.
    Z.to_euclidean_division_equations. lia.
  - intros i. apply page_nth. lia.
  - reflexivity.
  - unfold showing, salesPerPage. simpl. lia.
Qed.

Lemma pages_stay_in_range_and_show_their_sales_witness :
  let l := [1; 2; 3; 4; 5; 6; 7] in
  let p := currentPage l [Next; Next; Next; Previous; Next] in
  1 <= p <= pages l /\ page p l <> [] /\
  snd (showing p l) = (p - 1) * 5 + Z.of_nat (length (page p l)).
Proof.
  intros l p.
  destruct (pages_stay_in_range_and_show_their_sales l [Next; Next; Next; Previous; Next])
    as (H1 & H2 & _ & _ & H3); [discriminate|].
  split_and!; [apply H1|apply H1|exact H2|exact H3].
Defined.

End PaginationClaims.

Section ObjectFacts.

Import DashboardTotals.

Context {V : Type}.


Lemma get_In (o : object V) (k : string) (v : V) :
  get o k = Some v -> In (k, v) o.
Proof.
  unfold get. induction o as [|[k' v'] o IH]; simpl; [done|].
  case_bool_decide as Hk; simpl.
  - intros [= <-]. left. by rewrite Hk.
  - intros H. right. by apply IH.
Qed.







End ObjectFacts.

Section GroupingFacts.

Import DashboardTotals.









End GroupingFacts.

Section DashboardTotalsClaims.

Import DashboardTotals.


End DashboardTotalsClaims.

Section NotificationFacts.

Import NotificationService.

Lemma sent_for_app n log1 log2 :
  sent_for n (log1 ++ log2) = sent_for n log1 + sent_for n log2.
Proof. unfold sent_for. rewrite List.filter_app, length_app. lia. Qed.

(** One item of one check: what it sends for [n] comes out of the
    budget of [n]. *)
Lemma check_item_budget today n s log item :
  counts_positive s ->
  let st' := check_item today (s, log) item in
  counts_positive (fst st') /\
  stockThresholds (fst st') = stockThresholds s /\
  (exists new, snd st' = log ++ new /\
     sent_for n new + budget today (notificationHistory (fst st') !! n)
       <= budget today (notificationHistory s !! n) /\
     Forall (fun x => exists t, stockThresholds s !! itemName x = Some t /\
                                threshold x = Some t /\
                                Js.truthy t = true /\ le (stock x) t = true) new).
Proof.
  intros Hpos. unfold check_item.
  assert (counts_positive s /\ stockThresholds s = stockThresholds s /\
          exists new, log = log ++ new /\
            sent_for n new + budget today (notificationHistory s !! n)
              <= budget today (notificationHistory s !! n) /\
            Forall (fun x => exists t, stockThresholds s !! itemName x = Some t /\
                                       threshold x = Some t /\
                                       Js.truthy t = true /\ le (stock x) t = true) new)
    as Hsame.
  { split_and!; try done. exists []. rewrite app_nil_r. split_and!; [done| |done].
    unfold sent_for. simpl. lia. }
  destruct (stockThresholds s !! name item) as [t|] eqn:Et; [|exact Hsame].
  destruct (Js.truthy t && le (currentStock item) t) eqn:Elow; [|exact Hsame].
  apply andb_prop in Elow as [Etruthy Ele].
  destruct (shouldSendNotification s (name item) today) eqn:Esend; [|exact Hsame].
  clear Hsame. cbn [fst snd stockThresholds notificationHistory].
  split_and!; [|done|].
  - intros k h. cbn [notificationHistory].
    destruct (decide (k = name item)) as [->|Hk].
    + rewrite lookup_insert_eq. intros [= <-]. simpl.
      destruct (notificationHistory s !! name item) as [h0|] eqn:Eh; [|lia].
      specialize (Hpos _ _ Eh). lia.
    + rewrite lookup_insert_ne by done. apply Hpos.
  - exists [sendLowStockNotification s item]. split_and!; [done| |].
    + unfold sent_for. simpl. destruct (decide (name item = n)) as [Hn|Hn].
      * subst n. rewrite bool_decide_eq_true_2 by done. rewrite lookup_insert_eq.
        unfold shouldSendNotification in Esend.
        destruct (notificationHistory s !! name item) as [h0|] eqn:Eh; simpl.
        -- specialize (Hpos _ _ Eh). rewrite bool_decide_eq_true_2 by done.
           destruct (bool_decide (lastSent h0 = today)); simpl in *; lia.
        -- rewrite bool_decide_eq_true_2 by done. lia.
      * rewrite bool_decide_eq_false_2 by done. rewrite lookup_insert_ne by done.
        simpl. lia.
    + constructor; [|done]. exists t. simpl. by rewrite Et.
Qed.

Lemma checkLowStock_budget today n items : forall s log,
  counts_positive s ->
  let st' := checkLowStock today items (s, log) in
  counts_positive (fst st') /\
  stockThresholds (fst st') = stockThresholds s /\
  (exists new, snd st' = log ++ new /\
     sent_for n new + budget today (notificationHistory (fst st') !! n)
       <= budget today (notificationHistory s !! n) /\
     Forall (fun x => exists t, stockThresholds s !! itemName x = Some t /\
                                threshold x = Some t /\
                                Js.truthy t = true /\ le (stock x) t = true) new).
Proof.
  unfold checkLowStock.
  induction items as [|item rest IH]; intros s log Hpos; cbn [fold_left fst snd].
  - split_and!; try done. exists []. rewrite app_nil_r. split_and!; [done| |done].
    unfold sent_for. simpl. lia.
  - destruct (check_item_budget today n s log item Hpos)
      as (Hpos1 & Ht1 & new1 & Hlog1 & Hb1 & Hall1).
    destruct (check_item today (s, log) item) as [s1 log1] eqn:E1. cbn [fst snd] in *.
    destruct (IH s1 log1 Hpos1) as (Hpos2 & Ht2 & new2 & Hlog2 & Hb2 & Hall2).
    split_and!; [done|congruence|].
    exists (new1 ++ new2). split_and!.
    + rewrite Hlog2, Hlog1. by rewrite app_assoc.
    + rewrite sent_for_app. lia.
    + apply Forall_app. split; [done|].
      eapply Forall_impl; [exact Hall2|]. intros x (t & H1 & H2). exists t.
      split; [|done]. by rewrite <- Ht1.
Qed.

Lemma perform_calls_positive calls : forall st,
  counts_positive (fst st) -> counts_positive (fst (perform_calls calls st)).
Proof.
  unfold perform_calls.
  induction calls as [|c rest IH]; intros [s log] Hpos; cbn [fold_left]; [done|].
  apply IH. destruct c as [today items|k t]; cbn [perform_call fst snd].
  - by destruct (checkLowStock_budget today "" items s log Hpos) as (? & _).
  - done.
Qed.



Lemma filter_none {A : Type} (f : A -> bool) (l : list A) :
  Forall (fun x => f x = false) l -> List.filter f l = [].
Proof. induction 1 as [|x l Hx _ IH]; simpl; [done|]. by rewrite Hx. Qed.


End NotificationFacts.

Section NotificationClaims.

Import NotificationService.



(** X22.  A check notifies only about items that are low: each
    notification of a check is about an item whose name has a threshold
    in the service that is neither 0 nor NaN, the one
    [getStockThreshold] returns, and whose stock is at or below it; the
    [lowStockThreshold] an item carries is never looked at; a check
    changes no threshold; and once the threshold of an item is set to
    0, no check notifies about it. *)
Theorem notifications_only_about_low_items
    (before : list call) (today : string) (items : list StockItem) :
  let s := fst (perform_calls before (instance, [])) in
  let out := checkLowStock today items (s, []) in
  Forall (fun x =>
            exists t, threshold x = Some t /\
                      getStockThreshold (itemName x) s = t /\
                      Js.truthy t = true /\ le (stock x) t = true) (snd out) /\
  stockThresholds (fst out) = stockThresholds s /\
  (forall f : StockItem -> Js.number,
     checkLowStock today
       (map (fun item => {| name := name item; currentStock := currentStock item;
                            lowStockThreshold := f item |}) items) (s, [])
     = out) /\
  (forall n,
     getStockThreshold n (setStockThreshold n (Js.of_Z 0) s) = Js.of_Z 0 /\
     sent_for n (snd (checkLowStock today items (setStockThreshold n (Js.of_Z 0) s, []))) = 0).
Proof.
  intros s out.
  assert (counts_positive s) as Hpos.
  { apply perform_calls_positive. intros k h. simpl. by rewrite lookup_empty. }
  destruct (checkLowStock_budget today "" items s [] Hpos) as (_ & Hth & new & Hlog & _ & Hall).
  fold out in Hth, Hlog. simpl in Hlog. subst new.
  split_and!.
  - eapply Forall_impl; [exact Hall|]. intros x (t & Ht & Hx & Htruthy & Hle).
    exists t. split_and!; try done. unfold getStockThreshold. by rewrite Ht, Htruthy.
  - exact Hth.
  - intros f. unfold out, checkLowStock. generalize (s, @nil notification).
    clear. induction items as [|item rest IH]; intros st; [done|].
    cbn [map fold_left]. rewrite IH. by destruct st.
  - intros n. split.
    + unfold getStockThreshold, setStockThreshold. simpl. by rewrite lookup_insert_eq.
    + assert (counts_positive (setStockThreshold n (Js.of_Z 0) s)) as Hpos' by exact Hpos.
      destruct (checkLowStock_budget today "" items _ [] Hpos')
        as (_ & _ & new & Hlog & _ & Hall').
      simpl in Hlog. rewrite Hlog. unfold sent_for.
      rewrite filter_none; [done|].
      eapply Forall_impl; [exact Hall'|]. intros x (t & Ht & _ & Htruthy & _).
      apply bool_decide_eq_false_2. intros Hn. rewrite Hn in Ht.
      unfold setStockThreshold in Ht. simpl in Ht. rewrite lookup_insert_eq in Ht.
      injection Ht as <-. vm_compute in Htruthy. discriminate.
Qed.

End NotificationClaims.
